(** * AttendFlow: attendance aggregation, marking and timetable extraction

    A shallow embedding of the TypeScript sources of the attendance tracker:
    - [lib/storage]: the localStorage shim and the statistics;
    - [lib/excelParser]: the spreadsheet grid to timetable extraction;
    - [pages/Attendance.tsx]: loading the day's classes and marking them,
      in one window and in several windows on the one store;
    - the [Subjects] page: the classes still needed for 75%;
    - the [NotificationManager] component: the scheduling flag.

    Conventions of the embedding.
    - A JavaScript string is the list of its UTF-16 code units ([list N]);
      regular expressions without the [u] flag work on code units too.
    - A JavaScript number that counts something is a [Z].  The attendance
      percentage is a Number that is no integer in general: it is kept by
      its value, a rational ([Q]), and the division and the multiplication
      that give it round to the nearest double as JavaScript's do
      ([Number.div], [Number.mul]).
    - [localStorage] is a finite map from keys to stored documents. *)

From Stdlib Require Import ZArith NArith QArith Qround List String Ascii Lia.
From Stdlib Require Import Qabs Qpower Lqa DecimalString DecimalNat Sorted.
From Stdlib Require Floats.
From stdpp Require Import gmap strings list.

Local Open Scope Z_scope.

(* ================================================================== *)
(** * JavaScript strings *)
(* ================================================================== *)

Module JS.

(** A string is the list of its UTF-16 code units. *)
Abbreviation jsstring := (list N).

(** A literal, written in ASCII. *)
Definition js (s : string) : jsstring :=
  List.map N_of_ascii (list_ascii_of_string s).

(** A one-character literal. *)
Definition ch (a : ascii) : N := N_of_ascii a.

(** [a === b] on strings. *)
Fixpoint eqb (a b : jsstring) : bool :=
  match a, b with
  | [], [] => true
  | x :: a', y :: b' => N.eqb x y && eqb a' b'
  | _, _ => false
  end.

(** Truthiness of a string: every string but the empty one. *)
Definition truthy (s : jsstring) : bool :=
  match s with [] => false | _ :: _ => true end.

(** [x || ''] for an array element that may be [undefined]. *)
Definition orEmpty (x : option jsstring) : jsstring :=
  match x with Some s => if truthy s then s else [] | None => [] end.

Definition inRange (lo hi c : N) : bool := (N.leb lo c && N.leb c hi)%bool.

(** WhiteSpace and LineTerminator of ECMAScript: what [trim] strips and
    what [\s] matches. *)
Definition isWhiteSpace (c : N) : bool :=
  (inRange 9 13 c || N.eqb c 32 || N.eqb c 160 || N.eqb c 5760
   || inRange 8192 8202 c || N.eqb c 8232 || N.eqb c 8233
   || N.eqb c 8239 || N.eqb c 8287 || N.eqb c 12288 || N.eqb c 65279)%bool.

Fixpoint trimStart (s : jsstring) : jsstring :=
  match s with
  | c :: s' => if isWhiteSpace c then trimStart s' else s
  | [] => []
  end.

Definition trimEnd (s : jsstring) : jsstring := rev (trimStart (rev s)).

Definition trim (s : jsstring) : jsstring := trimEnd (trimStart s).

Definition isUpper (c : N) : bool := inRange 65 90 c.
Definition isLower (c : N) : bool := inRange 97 122 c.
Definition isDigit (c : N) : bool := inRange 48 57 c.

(** [toLowerCase], one code unit at a time.  The ASCII capitals go to their
    small letters.  Two further code units have a lowercase form holding an
    ASCII letter: U+212A (Kelvin sign, to k) and U+0130 (capital I with dot,
    to i followed by U+0307).  Every other code unit outside ASCII is
    lowercased by the Unicode tables to code units outside ASCII; the model
    keeps it as it is, which leaves every comparison of the result with an
    ASCII word as the program makes them unchanged. *)
Definition lowerUnit (c : N) : jsstring :=
  if isUpper c then [(c + 32)%N]
  else if N.eqb c 8490 then [107%N]
  else if N.eqb c 304 then [105%N; 775%N]
  else [c].

Definition toLowerCase (s : jsstring) : jsstring := flat_map lowerUnit s.

(** [toUpperCase] of a single ASCII letter, as used on [charAt(0)] of a
    weekday name. *)
Definition upperUnit (c : N) : N := if isLower c then (c - 32)%N else c.

Fixpoint startsWith (s p : jsstring) : bool :=
  match p, s with
  | [], _ => true
  | y :: p', x :: s' => N.eqb x y && startsWith s' p'
  | _ :: _, [] => false
  end.

(** [s.includes(p)] *)
Fixpoint includes (s p : jsstring) : bool :=
  startsWith s p ||
  match s with
  | [] => false
  | _ :: s' => includes s' p
  end.

(** [s.slice(a, b)] for [0 <= a], [0 <= b]. *)
Definition slice (a b : nat) (s : jsstring) : jsstring :=
  firstn (b - a) (skipn a s).

(** [s.slice(a)] *)
Definition sliceFrom (a : nat) (s : jsstring) : jsstring := skipn a s.

(** [s.split(sep)] for a separator of one code unit. *)
Fixpoint splitOn (sep : N) (s : jsstring) : list jsstring :=
  match s with
  | [] => [[]]
  | c :: s' =>
      if N.eqb c sep then [] :: splitOn sep s'
      else match splitOn sep s' with
           | piece :: rest => (c :: piece) :: rest
           | [] => [[c]]
           end
  end.

(** [parts.join(sep)] *)
Fixpoint join (sep : jsstring) (parts : list jsstring) : jsstring :=
  match parts with
  | [] => []
  | [p] => p
  | p :: rest => p ++ sep ++ join sep rest
  end.

(** [String(n)] for a non-negative integer. *)
Definition ofNat (n : nat) : jsstring :=
  js (NilEmpty.string_of_uint (Nat.to_uint n)).


(** [s.endsWith(p)] *)
Definition endsWith (s p : jsstring) : bool := startsWith (rev s) (rev p).

(** ToInt32: a number that is an integer, read as a signed 32-bit one. *)
Definition toInt32 (z : Z) : Z := (z + 2 ^ 31) mod 2 ^ 32 - 2 ^ 31.

(** [a << n] for [0 <= n < 32] *)
Definition shiftLeft (a n : Z) : Z := toInt32 (Z.shiftl (toInt32 a) n).

(** [a & b] *)
Definition bitAnd (a b : Z) : Z := toInt32 (Z.land (toInt32 a) (toInt32 b)).

End JS.

Import JS.

(* ================================================================== *)
(** * JavaScript numbers that are no integers *)
(* ================================================================== *)

Module Number.

(** A finite Number is kept by its value, a rational.  The Number value
    for a real [x] (ECMAScript, 6.1.6.1) is the double nearest to [x], and
    of two that are as near the one with the even significand: with [e] the
    exponent of [x], so that [2^e <= |x| < 2^(e+1)], the doubles around [x]
    are the multiples of [2^(e-52)].  The exponent range of a double is
    not applied: what the program computes here is 0 or lies between 2^-32
    and 100, an array having fewer than 2^32 elements, and there every
    exponent is a double's. *)

(** The exponent of a positive rational. *)
Definition exponentOf (x : Q) : Z :=
  let e := Z.log2 (Qnum x) - Z.log2 (Zpos (Qden x)) in
  if Qle_bool (2 ^ e) x then e else e - 1.

(** The integer nearest to [m], the even one of two that are as near. *)
Definition roundHalfEven (m : Q) : Z :=
  let f := Qfloor m in
  match (m - inject_Z f ?= 1 # 2)%Q with
  | Lt => f
  | Gt => f + 1
  | Eq => if Z.even f then f else f + 1
  end.

(** The Number value for [x]. *)
Definition ofQ (x : Q) : Q :=
  if Qeq_bool x 0 then 0%Q
  else
    let ulp := (2 ^ (exponentOf (Qabs x) - 52))%Q in
    Qred (inject_Z (roundHalfEven (x / ulp)) * ulp).

(** [x / y] and [x * y] on Numbers, for a divisor that is not 0. *)
Definition div (x y : Q) : Q := ofQ (x / y).
Definition mul (x y : Q) : Q := ofQ (x * y).

End Number.

(** The binary64 numbers of the kernel, which are IEEE doubles: what
    [Number] is compared with. *)
Module Binary64.

(** The value of a double that is finite. *)
Definition valueOf (f : PrimFloat.float) : option Q :=
  match FloatOps.Prim2SF f with
  | SpecFloat.S754_zero _ => Some 0%Q
  | SpecFloat.S754_finite s m e =>
      Some ((if s then -1 else 1) * inject_Z (Zpos m) * 2 ^ e)%Q
  | _ => None
  end.

(** A count below 2^63 as a double. *)
Definition ofCount (n : Z) : PrimFloat.float :=
  PrimFloat.of_uint63 (Uint63.of_Z n).

(** [(a / t) * 100] on doubles. *)
Definition percentage (a t : Z) : PrimFloat.float :=
  PrimFloat.mul (PrimFloat.div (ofCount a) (ofCount t)) (ofCount 100).

(** Whether [Number] gives that value too. *)
Definition agrees (a t : Z) : bool :=
  match valueOf (percentage a t) with
  | Some value =>
      Qeq_bool value
        (Number.mul (Number.div (inject_Z a) (inject_Z t)) 100)
  | None => false
  end.

(** The counts from 0 to [n]. *)
Definition upTo (n : nat) : list Z := List.map Z.of_nat (seq 0 (S n)).

End Binary64.

(* ================================================================== *)
(** * types/attendance *)
(* ================================================================== *)

Inductive Status : Set := present | absent.

Definition Status_eqb (a b : Status) : bool :=
  match a, b with
  | present, present | absent, absent => true
  | _, _ => false
  end.

Module Subject.
Record t : Type := mk {
  id : jsstring;
  name : jsstring;
  colorIndex : Z;
  totalClasses : Z;
  attendedClasses : Z;
  attendancePercentage : Q
}.
End Subject.

Module TimetableEntry.
Record t : Type := mk {
  id : jsstring;
  day : jsstring;
  time : jsstring;
  subject : jsstring;
  room : option jsstring;
  instructor : option jsstring
}.
End TimetableEntry.

Module AttendanceRecord.
Record t : Type := mk {
  id : jsstring;
  subjectId : jsstring;
  date : jsstring;
  status : Status;
  timetableEntryId : jsstring
}.
End AttendanceRecord.

Module AttendanceStats.
Record t : Type := mk {
  totalClasses : Z;
  attendedClasses : Z;
  missedClasses : Z;
  attendancePercentage : Q
}.
End AttendanceStats.

(* ================================================================== *)
(** * lib/storage *)
(* ================================================================== *)

Module Storage.

(** What a key of [localStorage] holds.  The program stores the JSON text of
    an array under each of its three collection keys and a plain text under
    the scheduling flag; [JSON.parse (JSON.stringify v)] gives [v] back for
    these arrays, so the model keeps the array itself, tagged by its kind. *)
Inductive Stored : Type :=
| JSubjects (l : list Subject.t)
| JTimetable (l : list TimetableEntry.t)
| JAttendance (l : list AttendanceRecord.t)
| JText (s : jsstring).

Abbreviation localStorage := (gmap string Stored).

Module STORAGE_KEYS.
Definition SUBJECTS : string := "attendflow_subjects".
Definition TIMETABLE : string := "attendflow_timetable".
Definition ATTENDANCE : string := "attendflow_attendance".
(** [Object.values(STORAGE_KEYS)], in the order of the declaration. *)
Definition values : list string := [SUBJECTS; TIMETABLE; ATTENDANCE].
End STORAGE_KEYS.

Definition saveSubjects (subjects : list Subject.t) (ls : localStorage)
  : localStorage :=
  <[STORAGE_KEYS.SUBJECTS := JSubjects subjects]> ls.

Definition getSubjects (ls : localStorage) : list Subject.t :=
  match ls !! STORAGE_KEYS.SUBJECTS with
  | Some (JSubjects l) => l
  | _ => []
  end.

Definition saveTimetable (timetable : list TimetableEntry.t)
  (ls : localStorage) : localStorage :=
  <[STORAGE_KEYS.TIMETABLE := JTimetable timetable]> ls.

Definition getTimetable (ls : localStorage) : list TimetableEntry.t :=
  match ls !! STORAGE_KEYS.TIMETABLE with
  | Some (JTimetable l) => l
  | _ => []
  end.

Definition saveAttendanceRecords (records : list AttendanceRecord.t)
  (ls : localStorage) : localStorage :=
  <[STORAGE_KEYS.ATTENDANCE := JAttendance records]> ls.

Definition getAttendanceRecords (ls : localStorage)
  : list AttendanceRecord.t :=
  match ls !! STORAGE_KEYS.ATTENDANCE with
  | Some (JAttendance l) => l
  | _ => []
  end.

Definition calculateAttendanceStats (ls : localStorage) : AttendanceStats.t :=
  let records := getAttendanceRecords ls in
  let totalClasses := Z.of_nat (length records) in
  let attendedClasses :=
    Z.of_nat (length (List.filter
      (fun r => Status_eqb (AttendanceRecord.status r) present) records)) in
  let missedClasses := totalClasses - attendedClasses in
  let attendancePercentage :=
    if totalClasses >? 0
    then Number.mul
           (Number.div (inject_Z attendedClasses) (inject_Z totalClasses))
           100
    else 0%Q in
  AttendanceStats.mk totalClasses attendedClasses missedClasses
    attendancePercentage.

Definition getSubjectAttendance (subjectId : jsstring) (ls : localStorage)
  : AttendanceStats.t :=
  let records :=
    List.filter
      (fun r => JS.eqb (AttendanceRecord.subjectId r) subjectId)
      (getAttendanceRecords ls) in
  let totalClasses := Z.of_nat (length records) in
  let attendedClasses :=
    Z.of_nat (length (List.filter
      (fun r => Status_eqb (AttendanceRecord.status r) present) records)) in
  let missedClasses := totalClasses - attendedClasses in
  let attendancePercentage :=
    if totalClasses >? 0
    then Number.mul
           (Number.div (inject_Z attendedClasses) (inject_Z totalClasses))
           100
    else 0%Q in
  AttendanceStats.mk totalClasses attendedClasses missedClasses
    attendancePercentage.

Definition clearAllData (ls : localStorage) : localStorage :=
  fold_left (fun store key => delete key store) STORAGE_KEYS.values ls.

End Storage.

Import Storage.

(* ================================================================== *)
(** * Regular expressions, as the parser uses them *)
(* ================================================================== *)

Module RegExp.

(** The syntax the patterns of [excelParser] need.  A class, an escape
    such as [\d] or a literal is a [Unit] with its test on one code unit.
    [r+] is [Seq r (Star r)], [r?] is [Alt r Empty], [r{2}] is [Seq r r].
    No pattern of the program has more than one capturing group, and none
    has a group under a quantifier, so one capture slot is kept. *)
Inductive regex : Type :=
| Empty
| Unit (p : N -> bool)
| Seq (r1 r2 : regex)
| Alt (r1 r2 : regex)
| Star (r : regex)
| Group (r : regex)
| WordBoundary
| EndOfInput.

(** Start and end index of capture 1, once it took part in the match. *)
Abbreviation capture := (option (nat * nat)).

(** [\w] *)
Definition isWordChar (c : N) : bool :=
  (isUpper c || isLower c || isDigit c || N.eqb c 95)%bool.

Definition isWordAt (s : jsstring) (i : nat) : bool :=
  match nth_error s i with Some c => isWordChar c | None => false end.

(** The backtracking matcher of ECMAScript: [run r s i cap k] matches [r]
    against [s] from index [i] and hands the end index to the continuation
    [k]; the first alternative that lets [k] succeed wins, and a greedy star
    tries one more iteration before giving up on it.  An iteration of a star
    that consumes nothing is rejected, so a star makes at most [length s]
    iterations and the count below is never exhausted. *)
Fixpoint run (r : regex) (s : jsstring) (i : nat) (cap : capture)
  (k : nat -> capture -> option (nat * capture)) {struct r}
  : option (nat * capture) :=
  match r with
  | Empty => k i cap
  | Unit p =>
      match nth_error s i with
      | Some c => if p c then k (S i) cap else None
      | None => None
      end
  | Seq r1 r2 => run r1 s i cap (fun j c => run r2 s j c k)
  | Alt r1 r2 =>
      match run r1 s i cap k with
      | Some m => Some m
      | None => run r2 s i cap k
      end
  | Star r1 =>
      (fix iterate (n : nat) (i : nat) (cap : capture) {struct n}
         : option (nat * capture) :=
         match n with
         | O => k i cap
         | S n' =>
             match run r1 s i cap
                     (fun j c => if Nat.eqb j i then None else iterate n' j c)
             with
             | Some m => Some m
             | None => k i cap
             end
         end) (S (length s)) i cap
  | Group r1 => run r1 s i cap (fun j _ => k j (Some (i, j)))
  | WordBoundary =>
      let a := match i with O => false | S i' => isWordAt s i' end in
      let b := isWordAt s i in
      if xorb a b then k i cap else None
  | EndOfInput => if Nat.eqb i (length s) then k i cap else None
  end.

(** A match that starts exactly at [i]: its end index and capture. *)
Definition matchAt (r : regex) (s : jsstring) (i : nat)
  : option (nat * capture) :=
  run r s i None (fun j c => Some (j, c)).

Fixpoint searchLoop (n : nat) (r : regex) (s : jsstring) (i : nat)
  : option (nat * nat * capture) :=
  match matchAt r s i with
  | Some (j, c) => Some (i, j, c)
  | None =>
      match n with
      | O => None
      | S n' => searchLoop n' r s (S i)
      end
  end.

(** The leftmost match at or after [from]: start, end and capture. *)
Definition search (r : regex) (s : jsstring) (from : nat)
  : option (nat * nat * capture) :=
  if Nat.leb from (length s) then searchLoop (length s - from) r s from
  else None.

(** [r.test(s)], also the truth value of [s.match(r)]. *)
Definition test (r : regex) (s : jsstring) : bool :=
  match search r s 0 with Some _ => true | None => false end.

(** [s.match(r)] without the [g] flag: [match[0]] and [match[1]]. *)
Definition match_ (r : regex) (s : jsstring)
  : option (jsstring * option jsstring) :=
  match search r s 0 with
  | Some (i, j, c) =>
      Some (slice i j s,
            match c with Some (a, b) => Some (slice a b s) | None => None end)
  | None => None
  end.

(** [s.replace(r, by)] without the [g] flag.  Every call of the program
    replaces by [''], so [$] patterns of the replacement are not read. *)
Definition replace (r : regex) (by_ : jsstring) (s : jsstring) : jsstring :=
  match search r s 0 with
  | Some (i, j, _) => firstn i s ++ by_ ++ skipn j s
  | None => s
  end.

Fixpoint replaceLoop (n : nat) (r : regex) (by_ : jsstring) (s : jsstring)
  (lastIndex nextSourcePosition : nat) : jsstring :=
  match n with
  | O => skipn nextSourcePosition s
  | S n' =>
      match search r s lastIndex with
      | None => skipn nextSourcePosition s
      | Some (i, j, _) =>
          slice nextSourcePosition i s ++ by_ ++
          replaceLoop n' r by_ s (if Nat.eqb j i then S j else j) j
      end
  end.

(** [s.replace(r, by)] with the [g] flag: every match, left to right, the
    search resuming where the last match ended (one further after an empty
    match). *)
Definition replaceAll (r : regex) (by_ : jsstring) (s : jsstring)
  : jsstring :=
  replaceLoop (S (S (length s))) r by_ s 0 0.

Fixpoint splitLoop (n : nat) (r : regex) (s : jsstring) (p q : nat)
  : list jsstring :=
  match n with
  | O => [skipn p s]
  | S n' =>
      if Nat.ltb q (length s) then
        match matchAt r s q with
        | None => splitLoop n' r s p (S q)
        | Some (e, _) =>
            let e := Nat.min e (length s) in
            if Nat.eqb e p then splitLoop n' r s p (S q)
            else slice p q s :: splitLoop n' r s e e
        end
      else [skipn p s]
  end.

(** [s.split(r)] for a pattern without capturing group. *)
Definition split (r : regex) (s : jsstring) : list jsstring :=
  match s with
  | [] => match matchAt r [] 0 with Some _ => [] | None => [[]] end
  | _ => splitLoop (2 * length s + 2) r s 0 0
  end.

(** ** Building patterns *)

Definition chr (a : ascii) : regex := Unit (N.eqb (ch a)).
Definition oneOf (s : string) : regex :=
  Unit (fun c => existsb (N.eqb c) (js s)).
Definition noneOf (s : string) : regex :=
  Unit (fun c => negb (existsb (N.eqb c) (js s))).
Definition upper : regex := Unit isUpper.
Definition lower : regex := Unit isLower.
Definition digit : regex := Unit isDigit.
Definition space : regex := Unit isWhiteSpace.
Definition plus (r : regex) : regex := Seq r (Star r).
Definition opt (r : regex) : regex := Alt r Empty.

Fixpoint seqs (rs : list regex) : regex :=
  match rs with
  | [] => Empty
  | [r] => r
  | r :: rs' => Seq r (seqs rs')
  end.

Fixpoint alts (rs : list regex) : regex :=
  match rs with
  | [] => Empty
  | [r] => r
  | r :: rs' => Alt r (alts rs')
  end.

(** The characters of a word, one after the other. *)
Definition word (s : string) : regex :=
  seqs (List.map (fun c => Unit (N.eqb c)) (js s)).

(** Canonicalize of the [i] flag without the [u] flag: a code unit below
    128 goes to its capital, one from 128 on never becomes one below 128. *)
Definition canonicalize (c : N) : N := upperUnit c.

(** A word under the [i] flag. *)
Definition wordI (s : string) : regex :=
  seqs (List.map
          (fun c => Unit (fun d => N.eqb (canonicalize d) (canonicalize c)))
          (js s)).

End RegExp.

(* ================================================================== *)
(** * lib/excelParser *)
(* ================================================================== *)

Module ExcelParser.

Import RegExp.

Record ParsedTimetableEntry : Type := mkEntry {
  id : jsstring;
  day : jsstring;
  time : jsstring;
  subject : jsstring;
  room : option jsstring;
  batch : option jsstring
}.

Record ExcelParseResult : Type := mkResult {
  success : bool;
  data : list ParsedTimetableEntry;
  errors : list jsstring;
  warnings : list jsstring
}.

(** [!room] for a room that is [undefined] or a string. *)
Definition noRoom (room : option jsstring) : bool :=
  match room with Some r => negb (truthy r) | None => true end.

(** [/[\n\r]+/] *)
Definition lineBreaks : regex :=
  plus (Unit (fun c => N.eqb c 10 || N.eqb c 13)).

(** [/\(([^)]+)\)/] *)
Definition parenthesised : regex :=
  seqs [chr "("; Group (plus (noneOf ")")); chr ")"].

(** [/[A-Z]?\d+[A-Z]?-[A-Z]+\d+-[A-Z]+/] *)
Definition roomCode : regex :=
  seqs [opt upper; plus digit; opt upper; chr "-"; plus upper; plus digit;
        chr "-"; plus upper].

(** [/\([^)]+\)/g] *)
Definition parentheses : regex :=
  seqs [chr "("; plus (noneOf ")"); chr ")"].

Definition roomPatterns : list regex :=
  [ (* /\b([A-Z]?\d+[A-Z]?-[A-Z]+\d+-[A-Z]+)\b/ *)
    seqs [WordBoundary;
          Group (seqs [opt upper; plus digit; opt upper; chr "-"; plus upper;
                       plus digit; chr "-"; plus upper]);
          WordBoundary];
    (* /\b([A-Z]\d+[A-Z]?-[A-Z]+\d+)\b/ *)
    seqs [WordBoundary;
          Group (seqs [upper; plus digit; opt upper; chr "-"; plus upper;
                       plus digit]);
          WordBoundary];
    (* /\b(\d{4}[A-Z]?)\b/ *)
    seqs [WordBoundary;
          Group (seqs [digit; digit; digit; digit; opt upper]);
          WordBoundary];
    (* /\b([A-Z]+\d+[A-Z]?)\b/ *)
    seqs [WordBoundary;
          Group (seqs [plus upper; plus digit; opt upper]);
          WordBoundary] ].

(** The [for (const pattern of roomPatterns)] loop with its [break]. *)
Fixpoint tryRoomPatterns (patterns : list regex) (room : option jsstring)
  (cleanData : jsstring) : option jsstring * jsstring :=
  match patterns with
  | [] => (room, cleanData)
  | pattern :: rest =>
      match match_ pattern cleanData with
      | Some (m0, m1) =>
          (Some (match m1 with
                 | Some g => if truthy g then g else m0
                 | None => m0
                 end),
           trim (replace pattern [] cleanData))
      | None => tryRoomPatterns rest room cleanData
      end
  end.

(** [/\b(?:Dr|Prof|Mr|Ms|Mrs)\.?\s+[A-Z][a-z]+(?:\s+[A-Z][a-z]+)*:?/g] *)
Definition instructorPattern : regex :=
  seqs [WordBoundary;
        alts [word "Dr"; word "Prof"; word "Mr"; word "Ms"; word "Mrs"];
        opt (chr "."); plus space; upper; plus lower;
        Star (seqs [plus space; upper; plus lower]);
        opt (chr ":")].

(** [/(?:23CSBTB\d{2}[A-Z]?|\d{2}[A-Z]{3,}\d{2}[A-Z]?\d?)/g] *)
Definition batchPattern : regex :=
  Alt (seqs [word "23CSBTB"; digit; digit; opt upper])
      (seqs [digit; digit; upper; upper; upper; Star upper; digit; digit;
             opt upper; opt digit]).

(** [/\([^)]*\)/g] *)
Definition anyParentheses : regex :=
  seqs [chr "("; Star (noneOf ")"); chr ")"].

(** [/[:\-–—]+$/g]: colon, hyphen, en dash (U+2013), em dash (U+2014). *)
Definition trailingDashes : regex :=
  Seq (plus (Unit (fun c => N.eqb c 58 || N.eqb c 45 || N.eqb c 8211
                            || N.eqb c 8212)))
      EndOfInput.

(** [/\s+/g] and [/\s+/] *)
Definition spaces : regex := plus space.

Definition commonSurnames : list string :=
  ["sujitha"; "sudharani"; "ramesh"; "mishra"; "nagalaxmi"; "sammaiah";
   "rao"; "sourav"; "kumar"; "shiva"; "kotte"; "teja"; "tyagi"; "iram";
   "venkatesh"; "gurrapu"; "reddy"; "hazra"; "Dr"; "dr"; "Mr"; "Mrs"; "Ms";
   "sandeep"; "Bhanu"]%string.

(** [new RegExp('\\b(' + commonSurnames.join('|') + ')\\b', 'gi')] *)
Definition surnamePattern : regex :=
  seqs [WordBoundary; Group (alts (List.map wordI commonSurnames));
        WordBoundary].

(** [/\b[A-Z]\b/g] *)
Definition singleLetter : regex := seqs [WordBoundary; upper; WordBoundary].

(** [/[.,;:()\s]+$/g] *)
Definition trailingPunctuation : regex :=
  Seq (plus (Unit (fun c => existsb (N.eqb c) (js ".,;:()")
                            || isWhiteSpace c)))
      EndOfInput.

(** [/[^a-zA-Z\s]/g] *)
Definition notLetterOrSpace : regex :=
  Unit (fun c => negb (isLower c || isUpper c || isWhiteSpace c)).

(** [extractSubjectAndRoom]: the subject and the room ([None] for
    [undefined]) of one cell. *)
Definition extractSubjectAndRoom (cellData : jsstring)
  : jsstring * option jsstring :=
  if negb (truthy cellData) || JS.eqb (trim cellData) [] then ([], None)
  else
    let cleanData := trim cellData in
    (* multiple subjects: only the first line is kept *)
    let lines := split lineBreaks cleanData in
    let cleanData :=
      if Nat.ltb 1 (length lines) then trim (nth 0 lines []) else cleanData in
    (* and only what precedes the first comma *)
    let parts := splitOn (ch ",") cleanData in
    let cleanData :=
      if Nat.ltb 1 (length parts) then trim (nth 0 parts []) else cleanData in
    (* Pattern 1: a room code in parentheses *)
    let roomMatch := match_ parenthesised cleanData in
    let '(room, cleanData) :=
      match roomMatch with
      | Some (_, g1) =>
          let potentialRoom :=
            trim (match g1 with Some g => g | None => [] end) in
          if test roomCode potentialRoom
          then (Some potentialRoom, trim (replaceAll parentheses [] cleanData))
          else (None, cleanData)
      | None => (None, cleanData)
      end in
    (* Pattern 2: a room code without parentheses *)
    let '(room, cleanData) :=
      if noRoom room then tryRoomPatterns roomPatterns room cleanData
      else (room, cleanData) in
    let subject := cleanData in
    let subject := replaceAll instructorPattern [] subject in
    let subject := replaceAll batchPattern [] subject in
    let subject := replaceAll anyParentheses [] subject in
    let subject :=
      trim (replaceAll spaces (js " ")
              (replaceAll trailingDashes [] subject)) in
    let subject := trim (replaceAll surnamePattern [] subject) in
    let subject := trim (replaceAll singleLetter [] subject) in
    let subject :=
      trim (replaceAll trailingPunctuation []
              (replaceAll spaces (js " ") subject)) in
    let subject :=
      if truthy subject then subject
      else
        let words := split spaces cleanData in
        replaceAll notLetterOrSpace [] (join (js " ") (firstn 3 words)) in
    (subject, room).

(** What reading the file gives: the 2-D array of the first sheet
    ([XLSX.utils.sheet_to_json] with [header: 1], [defval: ''] and
    [raw: false], every cell a string), or an exception, with its message
    when it is an [Error]. *)
Inductive SheetRead : Type :=
| Thrown (message : option jsstring)
| Rows (rawData : list (list jsstring)).

(** [headers.findIndex(f)], [None] for -1. *)
Fixpoint findIndex (f : jsstring -> bool) (l : list jsstring) : option nat :=
  match l with
  | [] => None
  | h :: l' =>
      if f h then Some O
      else match findIndex f l' with Some i => Some (S i) | None => None end
  end.

Definition dayNames : list jsstring :=
  List.map js ["monday"; "tuesday"; "wednesday"; "thursday"; "friday";
               "saturday"; "sunday"]%string.

(** [matchedDay.charAt(0).toUpperCase() + matchedDay.slice(1)] *)
Definition capitalise (s : jsstring) : jsstring :=
  match s with
  | [] => []
  | c :: s' => upperUnit c :: s'
  end.

(** The [headers.forEach((header, index) => ...)] that collects the day
    columns, from position [index] on. *)
Fixpoint dayColumnsFrom (timeColumn index : nat) (headers : list jsstring)
  : list (jsstring * nat) :=
  match headers with
  | [] => []
  | header :: rest =>
      let others := dayColumnsFrom timeColumn (S index) rest in
      if Nat.eqb index timeColumn then others
      else
        let headerLower := toLowerCase header in
        let matchedDay :=
          List.find (fun day => includes headerLower day
                                || includes headerLower (slice 0 3 day))
                    dayNames in
        match matchedDay with
        | Some d => if truthy d then (capitalise d, index) :: others else others
        | None => others
        end
  end.

Definition headersOf (rawData : list (list jsstring)) : list jsstring :=
  List.map (fun h => trim (orEmpty (Some h))) (nth 1 rawData []).

Definition timeColumnOf (headers : list jsstring) : nat :=
  let timeColumnIndex :=
    findIndex (fun h => truthy h
                        && (includes (toLowerCase h) (js "time")
                            || includes (toLowerCase h) (js "period")
                            || JS.eqb h []))
              headers in
  match timeColumnIndex with Some i => i | None => O end.

Definition dayColumnsOf (headers : list jsstring) : list (jsstring * nat) :=
  dayColumnsFrom (timeColumnOf headers) O headers.

Section Extraction.

(** [Math.random().toString(36).substr(2, 9)] at its n-th call. *)
Variable random : nat -> jsstring.

(** One cell of a data row: the body of [dayColumns.forEach]. *)
Definition processCell (timeValue : jsstring) (rowIndex : nat)
  (row : list jsstring) (timetableEntries : list ParsedTimetableEntry)
  (dayCol : jsstring * nat) : list ParsedTimetableEntry :=
  let cellData := trim (orEmpty (nth_error row (snd dayCol))) in
  if negb (truthy cellData)
     || includes (toLowerCase cellData) (js "free")
     || includes (toLowerCase cellData) (js "break")
     || JS.eqb cellData (js "-")
  then timetableEntries
  else
    let '(subject, room) := extractSubjectAndRoom cellData in
    if truthy subject then
      let entry :=
        {| id := toLowerCase (fst dayCol) ++ js "-" ++ timeValue ++ js "-"
                 ++ ofNat rowIndex ++ js "-"
                 ++ random (length timetableEntries);
           day := fst dayCol;
           time := timeValue;
           subject := subject;
           room := room;
           batch := None |} in
      timetableEntries ++ [entry]
    else timetableEntries.

(** One data row: the body of [dataRows.forEach]. *)
Definition processRow (timeColumn : nat) (dayColumns : list (jsstring * nat))
  (timetableEntries : list ParsedTimetableEntry)
  (indexed : nat * list jsstring) : list ParsedTimetableEntry :=
  let '(rowIndex, row) := indexed in
  let timeValue := trim (orEmpty (nth_error row timeColumn)) in
  if negb (truthy timeValue) then timetableEntries
  else fold_left (processCell timeValue rowIndex row) dayColumns
         timetableEntries.

Definition indexed {A : Type} (l : list A) : list (nat * A) :=
  combine (seq 0 (length l)) l.

Definition processRows (timeColumn : nat) (dayColumns : list (jsstring * nat))
  (dataRows : list (list jsstring)) : list ParsedTimetableEntry :=
  fold_left (processRow timeColumn dayColumns) (indexed dataRows) [].

(** [new Set(l).size] *)
Fixpoint distinct (l : list jsstring) : list jsstring :=
  match l with
  | [] => []
  | x :: l' =>
      let d := distinct l' in
      if existsb (JS.eqb x) d then d else x :: d
  end.

Definition failure (error : jsstring) : ExcelParseResult :=
  {| success := false; data := []; errors := [error]; warnings := [] |}.

Definition tooFewRows : jsstring :=
  js "Excel file must contain at least 3 rows (batch header, day header, and data)".
Definition noValidEntries : jsstring :=
  js "No valid timetable entries found. Please check your Excel format.".
Definition noDayColumns (headers : list jsstring) : jsstring :=
  js "No day columns found in headers: " ++ join (js ", ") headers.
Definition failedToParse (message : option jsstring) : jsstring :=
  js "Failed to parse Excel file: "
  ++ match message with Some m => m | None => js "Unknown error" end.

(** [parseExcelTimetable], from what reading the file gave. *)
Definition parseExcelTimetable (file : SheetRead) : ExcelParseResult :=
  match file with
  | Thrown message => failure (failedToParse message)
  | Rows rawData =>
      if Nat.ltb (length rawData) 3 then failure tooFewRows
      else
        let headers := headersOf rawData in
        let dataRows := skipn 2 rawData in
        let timeColumn := timeColumnOf headers in
        let dayColumns := dayColumnsOf headers in
        if Nat.eqb (length dayColumns) 0 then failure (noDayColumns headers)
        else
          let timetableEntries := processRows timeColumn dayColumns dataRows in
          if Nat.eqb (length timetableEntries) 0 then failure noValidEntries
          else
            let uniqueSubjects := distinct (List.map subject timetableEntries) in
            {| success := true;
               data := timetableEntries;
               errors := [];
               warnings :=
                 (js "Successfully parsed " ++ ofNat (length timetableEntries)
                  ++ js " timetable entries")
                 :: (if Nat.ltb (length uniqueSubjects) 3
                     then [js "Only found a few unique subjects. Please verify the data extraction."]
                     else []) |}
  end.

End Extraction.

(** [!s || s.trim() === ''] *)
Definition blank (s : jsstring) : bool :=
  negb (truthy s) || JS.eqb (trim s) [].

(** [validateTimetableEntry], the errors in the order they are pushed. *)
Definition validateTimetableEntry (entry : ParsedTimetableEntry)
  : list jsstring :=
  let errors := [] in
  let errors :=
    if blank (subject entry)
    then errors ++ [js "Subject name is required"] else errors in
  let errors :=
    if blank (day entry) then errors ++ [js "Day is required"] else errors in
  let errors :=
    if blank (time entry) then errors ++ [js "Time is required"] else errors in
  errors.

End ExcelParser.

(* ================================================================== *)
(** * The Subjects page *)
(* ================================================================== *)

Module SubjectsPage.

(** [loadSubjects]: every stored subject with its counts recomputed. *)
Definition loadSubjects (ls : localStorage) : list Subject.t :=
  let storedSubjects := getSubjects ls in
  List.map
    (fun subject =>
       let stats := getSubjectAttendance (Subject.id subject) ls in
       Subject.mk (Subject.id subject) (Subject.name subject)
         (Subject.colorIndex subject)
         (AttendanceStats.totalClasses stats)
         (AttendanceStats.attendedClasses stats)
         (AttendanceStats.attendancePercentage stats))
    storedSubjects.

Definition calculateRequiredClasses (subject : Subject.t) : Z :=
  let requiredPercentage := 75 in
  let totalClasses := Subject.totalClasses subject in
  let attendedClasses := Subject.attendedClasses subject in
  if totalClasses =? 0 then 0
  else
    (* Math.ceil((requiredPercentage * totalClasses) / 100): the quotient
       is a multiple of 1/4, which a double holds exactly *)
    let minRequired :=
      Qceiling (inject_Z (requiredPercentage * totalClasses) / 100) in
    let stillNeeded := Z.max 0 (minRequired - attendedClasses) in
    stillNeeded.

End SubjectsPage.

(* ================================================================== *)
(** * The NotificationManager component *)
(* ================================================================== *)

Module NotificationManager.

Definition SCHEDULED : string := "notifications_scheduled".

(** What [toggleNotifications] does to [localStorage].  [granted] is
    [notificationPermission === 'granted'] and [scheduled] tells whether
    [scheduleDailyNotifications] resolved (it throws without permission). *)
Definition toggleNotifications (granted scheduled enabled : bool)
  (ls : localStorage) : localStorage :=
  if enabled && negb granted then ls
  else if enabled then
    if scheduled then <[SCHEDULED := JText (js "true")]> ls else ls
  else <[SCHEDULED := JText (js "false")]> ls.

End NotificationManager.

(* ================================================================== *)
(** * pages/Attendance.tsx *)
(* ================================================================== *)

Module AttendancePage.

(** [interface ClassWithStatus extends TimetableEntry] *)
Record ClassWithStatus : Type := mkClass {
  id : jsstring;
  day : jsstring;
  time : jsstring;
  subject : jsstring;
  room : option jsstring;
  instructor : option jsstring;
  status : option Status;
  attendanceId : option jsstring
}.

(** The React state of the page. *)
Record State : Type := mkState {
  selectedDate : jsstring;
  todayClasses : list ClassWithStatus;
  subjects : list Subject.t
}.

(** The page together with the storage it reads and writes. *)
Record World : Type := mkWorld {
  storage : localStorage;
  page : State
}.

Record Toast : Type := mkToast {
  title : jsstring;
  description : jsstring;
  variant : option jsstring
}.

(** [if (classItem.attendanceId)] *)
Definition hasAttendanceId (a : option jsstring) : bool :=
  match a with Some s => truthy s | None => false end.

(** A stable sort by insertion, the comparator being read as
    [Array.prototype.sort] reads it. *)
Section Sort.
Context {A : Type} (compareFn : A -> A -> Z).

Fixpoint insertSorted (x : A) (l : list A) : list A :=
  match l with
  | [] => [x]
  | y :: l' =>
      if compareFn x y <=? 0 then x :: y :: l' else y :: insertSorted x l'
  end.

Fixpoint sort (l : list A) : list A :=
  match l with
  | [] => []
  | x :: l' => insertSorted x (sort l')
  end.
End Sort.

Section Page.

(** [new Date(date + 'T00:00:00').toLocaleDateString('en-US',
    { weekday: 'long' })], an English weekday name: the calendar is the
    platform's. *)
Variable weekdayOf : jsstring -> jsstring.

(** [a.localeCompare(b)]: the collation is the platform's. *)
Variable localeCompare : jsstring -> jsstring -> Z.

Definition recordOf (attendanceRecords : list AttendanceRecord.t)
  (selectedDate classId : jsstring) : option AttendanceRecord.t :=
  List.find
    (fun record =>
       JS.eqb (AttendanceRecord.date record) selectedDate
       && JS.eqb (AttendanceRecord.timetableEntryId record) classId)
    attendanceRecords.

Definition withStatus (attendanceRecords : list AttendanceRecord.t)
  (selectedDate : jsstring) (cls : TimetableEntry.t) : ClassWithStatus :=
  let existingRecord :=
    recordOf attendanceRecords selectedDate (TimetableEntry.id cls) in
  {| id := TimetableEntry.id cls;
     day := TimetableEntry.day cls;
     time := TimetableEntry.time cls;
     subject := TimetableEntry.subject cls;
     room := TimetableEntry.room cls;
     instructor := TimetableEntry.instructor cls;
     status := option_map AttendanceRecord.status existingRecord;
     attendanceId := option_map AttendanceRecord.id existingRecord |}.

(** [loadAttendanceData], for the selected date of the render it runs in:
    the three state variables it sets. *)
Definition loadAttendanceData (selectedDate : jsstring) (ls : localStorage)
  : State :=
  let timetable := getTimetable ls in
  let attendanceRecords := getAttendanceRecords ls in
  let storedSubjects := getSubjects ls in
  let dayName := weekdayOf selectedDate in
  let dayClasses :=
    List.filter
      (fun entry => JS.eqb (toLowerCase (TimetableEntry.day entry))
                           (toLowerCase dayName))
      timetable in
  let classesWithStatus :=
    sort (fun a b => localeCompare (time a) (time b))
         (List.map (withStatus attendanceRecords selectedDate) dayClasses) in
  {| selectedDate := selectedDate;
     todayClasses := classesWithStatus;
     subjects := storedSubjects |}.

Definition statusName (status : Status) : jsstring :=
  match status with present => js "present" | absent => js "absent" end.

Definition setStatus (status : Status) (record : AttendanceRecord.t)
  : AttendanceRecord.t :=
  AttendanceRecord.mk (AttendanceRecord.id record)
    (AttendanceRecord.subjectId record) (AttendanceRecord.date record)
    status (AttendanceRecord.timetableEntryId record).

Definition subjectNotFound : Toast :=
  {| title := js "Error";
     description := js "Subject not found";
     variant := Some (js "destructive") |}.

(** [markAttendance].  [now] is [Date.now()] and [rnd] is
    [Math.random().toString(36).substr(2, 9)], read when a record is
    created. *)
Definition markAttendance (now : nat) (rnd : jsstring)
  (classItem : ClassWithStatus) (status : Status) (w : World)
  : World * Toast :=
  let attendanceRecords := getAttendanceRecords (storage w) in
  let found :=
    List.find (fun s => JS.eqb (Subject.name s) (subject classItem))
              (subjects (page w)) in
  match found with
  | None => (w, subjectNotFound)
  | Some found =>
      let updatedRecords := attendanceRecords in
      let updatedRecords :=
        if hasAttendanceId (attendanceId classItem) then
          (* Update existing record *)
          List.map
            (fun record =>
               if JS.eqb (AttendanceRecord.id record)
                         (JS.orEmpty (attendanceId classItem))
               then setStatus status record
               else record)
            updatedRecords
        else
          (* Create new record *)
          let newRecord :=
            AttendanceRecord.mk
              (js "attendance-" ++ ofNat now ++ js "-" ++ rnd)
              (Subject.id found)
              (selectedDate (page w))
              status
              (id classItem) in
          updatedRecords ++ [newRecord] in
      let ls := saveAttendanceRecords updatedRecords (storage w) in
      ({| storage := ls;
          page := loadAttendanceData (selectedDate (page w)) ls |},
       {| title := js "Marked " ++ statusName status;
          description := subject classItem ++ js " - " ++ time classItem;
          variant := None |})
  end.

(** ** What a user can do in one window *)

(** The actions that reach the stored collections.  On the attendance page:
    a click on Present or Absent of the [index]-th class shown, which calls
    [markAttendance] with that class, and the choice of another date, after
    which the effect on [selectedDate] runs [loadAttendanceData] (React runs
    the effects of a render before it handles the next click, so no click
    sees the classes of the former date).  On the other pages:
    [saveTimetable], [saveSubjects], [clearAllData] and the notification
    switch; the attendance page is not mounted then, and when it is mounted
    again its effect loads the data for the date of that day, [today]. *)
Inductive Action : Type :=
| Mark (index : nat) (status : Status) (now : nat) (rnd : jsstring)
| SelectDate (date : jsstring)
| SaveTimetable (timetable : list TimetableEntry.t) (today : jsstring)
| SaveSubjects (subjects : list Subject.t) (today : jsstring)
| ClearAllData (today : jsstring)
| ToggleNotifications (granted scheduled enabled : bool) (today : jsstring).

Definition mount (today : jsstring) (ls : localStorage) : World :=
  {| storage := ls; page := loadAttendanceData today ls |}.

Definition perform (w : World) (a : Action) : World :=
  match a with
  | Mark index status now rnd =>
      match nth_error (todayClasses (page w)) index with
      | Some classItem => fst (markAttendance now rnd classItem status w)
      | None => w
      end
  | SelectDate date => mount date (storage w)
  | SaveTimetable timetable today =>
      mount today (saveTimetable timetable (storage w))
  | SaveSubjects subjects today =>
      mount today (saveSubjects subjects (storage w))
  | ClearAllData today => mount today (clearAllData (storage w))
  | ToggleNotifications granted scheduled enabled today =>
      mount today
        (NotificationManager.toggleNotifications granted scheduled enabled
           (storage w))
  end.

(** The first visit, with nothing stored yet. *)
Definition initial (today : jsstring) : World := mount today ∅.

Definition after (today : jsstring) (actions : list Action) : World :=
  fold_left perform actions (initial today).

(** A record of the pair [(scheduleEntryId, date)]. *)
Definition ofPair (scheduleEntryId date : jsstring)
  (record : AttendanceRecord.t) : bool :=
  JS.eqb (AttendanceRecord.date record) date
  && JS.eqb (AttendanceRecord.timetableEntryId record) scheduleEntryId.

Definition recordsOfPair (scheduleEntryId date : jsstring) (w : World)
  : list AttendanceRecord.t :=
  List.filter (ofPair scheduleEntryId date)
    (getAttendanceRecords (storage w)).

Definition isClearAllData (a : Action) : bool :=
  match a with ClearAllData _ => true | _ => false end.

(** ** Several windows *)

(** The service worker opens a window of the application at each click on
    a notification ([clients.openWindow] in [sw.js]), and the user may open
    more.  The windows share [localStorage], and each holds the React state
    of its own attendance page.  An action in one window writes the store
    and reloads the page of that window only: no window listens to the
    [storage] event, so the pages of the other windows stay as they were
    loaded. *)
Record Windows : Type := mkWindows {
  shared : localStorage;
  pages : list State
}.

Inductive Event : Type :=
| OpenWindow (today : jsstring)
| InWindow (window : nat) (a : Action).

(** A window with the store as it is now. *)
Definition windowOf (ws : Windows) (window : nat) : option World :=
  option_map (mkWorld (shared ws)) (nth_error (pages ws) window).

Definition occur (ws : Windows) (e : Event) : Windows :=
  match e with
  | OpenWindow today =>
      {| shared := shared ws;
         pages := pages ws ++ [loadAttendanceData today (shared ws)] |}
  | InWindow window a =>
      match windowOf ws window with
      | Some w =>
          let w' := perform w a in
          {| shared := storage w';
             pages := <[window := page w']> (pages ws) |}
      | None => ws
      end
  end.

(** One window, opened with nothing stored yet, and what follows. *)
Definition opened (today : jsstring) : Windows :=
  {| shared := ∅; pages := [loadAttendanceData today ∅] |}.

Definition afterEvents (today : jsstring) (events : list Event) : Windows :=
  fold_left occur events (opened today).

Definition clears (e : Event) : bool :=
  match e with
  | OpenWindow _ => false
  | InWindow _ a => isClearAllData a
  end.

End Page.

End AttendancePage.

(* ================================================================== *)
(** * The Upload page *)
(* ================================================================== *)

Module UploadPage.

Import ExcelParser.

(** How [handleFileProcessing] ends: with [toast.error(message)], or with
    the entries set as [parsedData], the preview shown and the warnings set
    as [parseWarnings]. *)
Inductive Processed : Type :=
| Refused (message : jsstring)
| Previewed (parsedData : list ParsedTimetableEntry)
    (parseWarnings : list jsstring).

Definition csvNotSupported : jsstring :=
  js "CSV files are not supported with the new parser. Please use Excel files (.xlsx, .xls).".
Definition unsupportedFormat : jsstring :=
  js "Unsupported file format. Please upload Excel files (.xlsx, .xls) only.".
Definition noEntriesAfterProcessing : jsstring :=
  js "No valid timetable entries found after processing".

(** [handleFileProcessing], from the name of the file and what reading it
    gives.  [random] is the one of the parser. *)
Definition handleFileProcessing (random : nat -> jsstring) (name : jsstring)
  (file : SheetRead) : Processed :=
  if endsWith name (js ".xlsx") || endsWith name (js ".xls") then
    (* Use enhanced Excel parser *)
    let parseResult := parseExcelTimetable random file in
    if negb (success parseResult)
    then Refused (join [10%N] (errors parseResult))
    else
      let timetableData := data parseResult in
      if Nat.eqb (length timetableData) 0
      then Refused noEntriesAfterProcessing
      else Previewed timetableData (warnings parseResult)
  else if endsWith name (js ".csv") then Refused csvNotSupported
  else Refused unsupportedFormat.

(** [Array.from(new Set(l))]: the elements in the order of their first
    occurrence. *)
Fixpoint uniqueFrom (seen : list jsstring) (l : list jsstring)
  : list jsstring :=
  match l with
  | [] => []
  | x :: l' =>
      if existsb (JS.eqb x) seen then uniqueFrom seen l'
      else x :: uniqueFrom (x :: seen) l'
  end.

Definition unique (l : list jsstring) : list jsstring := uniqueFrom [] l.

(** [uniqueSubjects.map((name, index) => ...)] from position [index] on. *)
Fixpoint subjectsFrom (index : nat) (uniqueSubjects : list jsstring)
  : list Subject.t :=
  match uniqueSubjects with
  | [] => []
  | name :: rest =>
      Subject.mk (js "subject-" ++ ofNat index) name (Z.of_nat index) 0 0 0
      :: subjectsFrom (S index) rest
  end.

(** [confirmTimetable]: the two writes. *)
Definition confirmTimetable (parsedData : list ParsedTimetableEntry)
  (ls : localStorage) : localStorage :=
  (* Convert ParsedTimetableEntry to TimetableEntry for storage *)
  let timetableEntries :=
    List.map
      (fun entry =>
         TimetableEntry.mk (id entry) (day entry) (time entry)
           (subject entry) (room entry) None)
      parsedData in
  (* Save timetable *)
  let ls := saveTimetable timetableEntries ls in
  (* Create and save subjects *)
  let uniqueSubjects :=
    unique (List.map TimetableEntry.subject timetableEntries) in
  let subjects := subjectsFrom 0 uniqueSubjects in
  saveSubjects subjects ls.

(** [saveEdit] of the preview. *)
Definition saveEdit (editingEntry : option ParsedTimetableEntry)
  (parsedData : list ParsedTimetableEntry) : list ParsedTimetableEntry :=
  match editingEntry with
  | Some edited =>
      List.map (fun entry => if JS.eqb (id entry) (id edited)
                             then edited else entry)
        parsedData
  | None => parsedData
  end.

(** [removeEntry] of the preview. *)
Definition removeEntry (entryId : jsstring)
  (parsedData : list ParsedTimetableEntry) : list ParsedTimetableEntry :=
  List.filter (fun entry => negb (JS.eqb (id entry) entryId)) parsedData.

End UploadPage.

(* ================================================================== *)
(** * The Timetable page *)
(* ================================================================== *)

Module TimetablePage.

Definition colors : list jsstring :=
  List.map js
    [ "bg-blue-100 border border-blue-200";
      "bg-green-100 border border-green-200";
      "bg-yellow-100 border border-yellow-200";
      "bg-purple-100 border border-purple-200";
      "bg-pink-100 border border-pink-200";
      "bg-indigo-100 border border-indigo-200";
      "bg-orange-100 border border-orange-200";
      "bg-teal-100 border border-teal-200" ]%string.

(** The body of the [reduce]: [a = ((a << 5) - a) + b.charCodeAt(0);
    return a & a].  The subtraction and the addition are those of numbers,
    exact at this size. *)
Definition hashStep (a : Z) (b : N) : Z :=
  let a := (shiftLeft a 5 - a) + Z.of_N b in
  bitAnd a a.

(** [subject.split('').reduce(..., 0)] *)
Definition hashOf (subject : jsstring) : Z := fold_left hashStep subject 0.

(** [getSubjectColor]: [colors[Math.abs(hash) % colors.length]],
    [None] for [undefined]. *)
Definition getSubjectColor (subject : jsstring) : option jsstring :=
  let hash := hashOf subject in
  nth_error colors
    (Z.to_nat (Z.rem (Z.abs hash) (Z.of_nat (length colors)))).

(** The read-only page of the timetable has the same hash and gives
    [subject-color-n] with [n = (Math.abs(hash) % 8) + 1]. *)
Definition getSubjectColorNumber (subject : jsstring) : Z :=
  Z.rem (Z.abs (hashOf subject)) 8 + 1.

Definition getEntryForDayTime (timetable : list TimetableEntry.t)
  (day time : jsstring) : option TimetableEntry.t :=
  List.find
    (fun entry =>
       JS.eqb (toLowerCase (TimetableEntry.day entry)) (toLowerCase day)
       && JS.eqb (TimetableEntry.time entry) time)
    timetable.

Section DayClasses.

Variable localeCompare : jsstring -> jsstring -> Z.

Definition getDayClasses (timetable : list TimetableEntry.t)
  (day : jsstring) : list TimetableEntry.t :=
  AttendancePage.sort
    (fun a b => localeCompare (TimetableEntry.time a) (TimetableEntry.time b))
    (List.filter
       (fun entry => JS.eqb (toLowerCase (TimetableEntry.day entry))
                            (toLowerCase day))
       timetable).

End DayClasses.

(** [saveEdit]: the new [timetable] of the page and the store.  The page
    holds what [getTimetable] gave when it was mounted and sets its state
    to what it saves. *)
Definition saveEdit (editingEntry : option TimetableEntry.t)
  (timetable : list TimetableEntry.t) (ls : localStorage)
  : list TimetableEntry.t * localStorage :=
  match editingEntry with
  | Some edited =>
      let updatedTimetable :=
        List.map
          (fun entry =>
             if JS.eqb (TimetableEntry.id entry) (TimetableEntry.id edited)
             then edited else entry)
          timetable in
      (updatedTimetable, saveTimetable updatedTimetable ls)
  | None => (timetable, ls)
  end.

Definition deleteEntry (entryId : jsstring)
  (timetable : list TimetableEntry.t) (ls : localStorage)
  : list TimetableEntry.t * localStorage :=
  let updatedTimetable :=
    List.filter
      (fun entry => negb (JS.eqb (TimetableEntry.id entry) entryId))
      timetable in
  (updatedTimetable, saveTimetable updatedTimetable ls).

End TimetablePage.

(* ================================================================== *)
(** * The Subjects page, the list *)
(* ================================================================== *)

Module SubjectsList.

(** [getAttendanceStatus]: status and colour. *)
Definition getAttendanceStatus (percentage : Q) : jsstring * jsstring :=
  if Qle_bool 75 percentage then (js "good", js "success")
  else if Qle_bool 60 percentage then (js "medium", js "warning")
  else (js "low", js "destructive").

(** The sign of [a.attendancePercentage - b.attendancePercentage], which is
    all [sort] reads of it. *)
Definition byPercentage (a b : Subject.t) : Z :=
  match (Subject.attendancePercentage a ?= Subject.attendancePercentage b)%Q
  with
  | Lt => -1
  | Eq => 0
  | Gt => 1
  end.

(** [[...subjects].sort((a, b) => a.attendancePercentage -
    b.attendancePercentage)] *)
Definition sortedSubjects (subjects : list Subject.t) : list Subject.t :=
  AttendancePage.sort byPercentage subjects.

(** [saveEdit]: the new [subjects] of the page and the store. *)
Definition saveEdit (editingSubject : option Subject.t)
  (subjects : list Subject.t) (ls : localStorage)
  : list Subject.t * localStorage :=
  match editingSubject with
  | Some edited =>
      let updatedSubjects :=
        List.map
          (fun subject =>
             if JS.eqb (Subject.id subject) (Subject.id edited)
             then edited else subject)
          subjects in
      (updatedSubjects, saveSubjects updatedSubjects ls)
  | None => (subjects, ls)
  end.

End SubjectsList.

(* ================================================================== *)
(** * The attendance page, the summary of the day *)
(* ================================================================== *)

Module DaySummary.

(** The summary of the day on the attendance page: the numbers of classes
    shown as present, as absent and as pending. *)
Definition counts (todayClasses : list AttendancePage.ClassWithStatus)
  : nat * nat * nat :=
  (length (List.filter
     (fun c => match AttendancePage.status c with
               | Some present => true | _ => false end) todayClasses),
   length (List.filter
     (fun c => match AttendancePage.status c with
               | Some absent => true | _ => false end) todayClasses),
   length (List.filter
     (fun c => match AttendancePage.status c with
               | None => true | _ => false end) todayClasses)).

End DaySummary.

(* ================================================================== *)
(** * lib/notificationService *)
(* ================================================================== *)

Module NotificationService.

Record NotificationData : Type := mkData {
  id : jsstring;
  title : jsstring;
  body : jsstring;
  time : jsstring;
  subject : jsstring;
  room : option jsstring;
  day : jsstring;
  isPinned : bool
}.

(** [room ? ` (${room})` : ''] and the like. *)
Definition withRoom (before after : jsstring) (room : option jsstring)
  : jsstring :=
  match room with
  | Some r => if truthy r then before ++ r ++ after else []
  | None => []
  end.




(** The pairs [(index, element)] of [forEach((element, index) => ...)]. *)
Fixpoint indexedFrom {A : Type} (index : nat) (l : list A)
  : list (nat * A) :=
  match l with
  | [] => []
  | x :: l' => (index, x) :: indexedFrom (S index) l'
  end.

Section Service.

Variable localeCompare : jsstring -> jsstring -> Z.



(** The clock of [scheduleNotificationsForDay]: [midnightIn d] is
    [getTime()] of the date object set to the local midnight of today and
    moved on by [d] days, [today] is [new Date().getDay()] and [now] is
    [Date.now()], all as the platform gives them. *)
Variable midnightIn : Z -> Z.
Variable today : Z.
Variable now : Z.


End Service.

(** How [showTestNotification] ends: with an [Error] thrown, or with the
    calls of [showNotification] it sets timers for, each with its delay. *)
Inductive Tested : Type :=
| Throws (message : jsstring)
| Shows (notifications : list (Z * NotificationData)).

(** [showTestNotification].  [hasPermission] is what [requestPermission]
    resolves to and [today] the weekday name of the day. *)
Definition showTestNotification (hasPermission : bool) (today : jsstring)
  (ls : localStorage) : Tested :=
  if negb hasPermission then Throws (js "Notification permission not granted")
  else
    let timetable := getTimetable ls in
    if Nat.eqb (length timetable) 0 then Throws (js "No timetable data found")
    else
      (* Get today's classes or sample classes *)
      let todayClasses :=
        List.filter
          (fun entry => JS.eqb (toLowerCase (TimetableEntry.day entry))
                               (toLowerCase today))
          timetable in
      (* If no classes today, use first few classes as sample *)
      let todayClasses :=
        if Nat.eqb (length todayClasses) 0 then firstn 3 timetable
        else todayClasses in
      Shows
        (List.map
           (fun '(index, entry) =>
              (Z.of_nat index * 1000,
               {| id := js "test-" ++ TimetableEntry.id entry;
                  title := [55357; 56538; 32]%N ++ TimetableEntry.subject entry;
                  body := TimetableEntry.day entry ++ [32; 8226; 32]%N
                          ++ TimetableEntry.time entry
                          ++ withRoom [32; 8226; 32]%N []
                               (TimetableEntry.room entry);
                  time := TimetableEntry.time entry;
                  subject := TimetableEntry.subject entry;
                  room := TimetableEntry.room entry;
                  day := TimetableEntry.day entry;
                  isPinned := Nat.eqb index 0 |}))
           (indexedFrom 0 todayClasses)).

(** [localStorage.getItem('notifications_scheduled') === 'true'], what
    [checkNotificationStatus] sets as [isScheduled]. *)
Definition isScheduled (ls : localStorage) : bool :=
  match ls !! NotificationManager.SCHEDULED with
  | Some (JText s) => JS.eqb s (js "true")
  | _ => false
  end.

End NotificationService.

(* ================================================================== *)
(** * The claims of the specification, in its own words *)
(* ================================================================== *)

Module Spec.

(** The number of records of a list that satisfy a test. *)
Fixpoint numberOf (p : AttendanceRecord.t -> bool)
  (records : list AttendanceRecord.t) : Z :=
  match records with
  | [] => 0
  | r :: records' => (if p r then 1 else 0) + numberOf p records'
  end.

Definition isPresent (r : AttendanceRecord.t) : bool :=
  Status_eqb (AttendanceRecord.status r) present.

Definition ofSubject (subjectId : jsstring) (r : AttendanceRecord.t) : bool :=
  JS.eqb (AttendanceRecord.subjectId r) subjectId.

(** [attended / total * 100], and 0 when [total] is 0. *)
Definition percentage (attended total : Z) : Q :=
  if total =? 0 then 0%Q else (inject_Z attended / inject_Z total * 100)%Q.

(** The four values of section 4.3 over the records that satisfy [scope]. *)
Definition statsOver (scope : AttendanceRecord.t -> bool)
  (records : list AttendanceRecord.t) (stats : AttendanceStats.t) : Prop :=
  let total := numberOf scope records in
  let attended := numberOf (fun r => scope r && isPresent r) records in
  AttendanceStats.totalClasses stats = total
  /\ AttendanceStats.attendedClasses stats = attended
  /\ AttendanceStats.missedClasses stats = total - attended
  /\ (AttendanceStats.attendancePercentage stats
      == percentage attended total)%Q.

(** [attended / total * 100] in the arithmetic of Numbers, where the
    quotient and then the product are rounded to the nearest double; 0 when
    [total] is 0. *)
Definition roundedPercentage (attended total : Z) : Q :=
  if total =? 0 then 0%Q
  else Number.mul (Number.div (inject_Z attended) (inject_Z total)) 100.

(** The four values with the percentage in the arithmetic of Numbers, which
    is within 2^-45 of the exact one. *)
Definition statsOverRounded (scope : AttendanceRecord.t -> bool)
  (records : list AttendanceRecord.t) (stats : AttendanceStats.t) : Prop :=
  let total := numberOf scope records in
  let attended := numberOf (fun r => scope r && isPresent r) records in
  AttendanceStats.totalClasses stats = total
  /\ AttendanceStats.attendedClasses stats = attended
  /\ AttendanceStats.missedClasses stats = total - attended
  /\ AttendanceStats.attendancePercentage stats
     = roundedPercentage attended total
  /\ (Qabs (AttendanceStats.attendancePercentage stats
            - percentage attended total) <= 1 # 2 ^ 45)%Q.

(** [max(0, ceil(75 * total / 100) - attended)] *)
Definition requiredFor75 (total attended : Z) : Z :=
  Z.max 0 (Qceiling (75 * inject_Z total / 100) - attended).

(** The sentence of section 8 on the percentage, at one result. *)
Definition percentageZeroOnlyWithoutClasses (stats : AttendanceStats.t)
  : Prop :=
  (0 <= AttendanceStats.attendancePercentage stats <= 100)%Q
  /\ ((AttendanceStats.attendancePercentage stats == 0)%Q
      <-> AttendanceStats.totalClasses stats = 0).

(** "[clearAll()] removing every key", at one store. *)
Definition everyKeyRemoved (ls : localStorage) : Prop :=
  forall key : string, clearAllData ls !! key = None.

(** "Extraction fails in exactly two cases: no day column among the header
    cells, and no entry produced, the error then being the one for no valid
    entries; otherwise it succeeds with a non-empty list", at one sheet. *)
Definition twoFailureCases (random : nat -> jsstring)
  (rawData : list (list jsstring)) : Prop :=
  let result :=
    ExcelParser.parseExcelTimetable random (ExcelParser.Rows rawData) in
  (ExcelParser.success result = false ->
   ExcelParser.dayColumnsOf (ExcelParser.headersOf rawData) = []
   \/ ExcelParser.errors result = [ExcelParser.noValidEntries])
  /\ (ExcelParser.success result = true -> ExcelParser.data result <> []).

End Spec.

(* ================================================================== *)
(** * Notions the statements about the statistics use *)
(* ================================================================== *)

(** What [calculateAttendanceStats] and [getSubjectAttendance] both compute
    from the records they start with. *)
Definition statsOf (records : list AttendanceRecord.t) : AttendanceStats.t :=
  let totalClasses := Z.of_nat (length records) in
  let attendedClasses :=
    Z.of_nat (length (List.filter
      (fun r => Status_eqb (AttendanceRecord.status r) present) records)) in
  let missedClasses := totalClasses - attendedClasses in
  let attendancePercentage :=
    if totalClasses >? 0
    then Number.mul
           (Number.div (inject_Z attendedClasses) (inject_Z totalClasses))
           100
    else 0%Q in
  AttendanceStats.mk totalClasses attendedClasses missedClasses
    attendancePercentage.

(* ================================================================== *)
(** * Notions the statements about marking use *)
(* ================================================================== *)

Module Marking.

Import AttendancePage.

Section Notions.

Variable weekdayOf : jsstring -> jsstring.
Variable localeCompare : jsstring -> jsstring -> Z.

(** The stored attendance records. *)
Definition recordsIn (w : World) : list AttendanceRecord.t :=
  getAttendanceRecords (storage w).

(** The pair (scheduleEntryId, date) of a record. *)
Definition pairOf (r : AttendanceRecord.t) : jsstring * jsstring :=
  (AttendanceRecord.timetableEntryId r, AttendanceRecord.date r).

(** What holds of the page and the store whenever the user can act: the
    page shows what [loadAttendanceData] gives for its date, every stored
    record has an id, and no two records are of the same pair. *)
Definition consistent (w : World) : Prop :=
  page w = loadAttendanceData weekdayOf localeCompare
             (selectedDate (page w)) (storage w)
  /\ Forall (fun r => truthy (AttendanceRecord.id r) = true) (recordsIn w)
  /\ NoDup (List.map pairOf (recordsIn w)).

(** The function [markAttendance] maps over the records when it updates. *)
Definition update (aid : jsstring) (status : Status)
  (record : AttendanceRecord.t) : AttendanceRecord.t :=
  if JS.eqb (AttendanceRecord.id record) aid then setStatus status record
  else record.

(** The record [markAttendance] appends when it creates one. *)
Definition created (now : nat) (rnd : jsstring) (found : Subject.t)
  (classItem : ClassWithStatus) (status : Status) (w : World)
  : AttendanceRecord.t :=
  AttendanceRecord.mk (js "attendance-" ++ ofNat now ++ js "-" ++ rnd)
    (Subject.id found) (selectedDate (page w)) status (id classItem).

(** [subjects.find(s => s.name === classItem.subject)] *)
Definition subjectOf (classItem : ClassWithStatus) (w : World)
  : option Subject.t :=
  List.find (fun s => JS.eqb (Subject.name s) (subject classItem))
    (subjects (page w)).

(** "At most one AttendanceRecord exists for a pair", of stored records. *)
Definition atMostOnePerPair (records : list AttendanceRecord.t) : Prop :=
  forall scheduleEntryId date,
    (length (List.filter (ofPair scheduleEntryId date) records) <= 1)%nat.

(** "Marking a schedule entry whose subject name matches no Subject in the
    subjects collection fails with an error and leaves the attendance
    collection as it was", at one state and one request. *)
Definition failsWithoutStoredSubject (now : nat) (rnd : jsstring)
  (classItem : ClassWithStatus) (status : Status) (w : World) : Prop :=
  List.find (fun s => JS.eqb (Subject.name s) (subject classItem))
    (getSubjects (storage w)) = None ->
  variant (snd (markAttendance weekdayOf localeCompare now rnd classItem
                  status w)) = Some (js "destructive")
  /\ getAttendanceRecords
       (storage (fst (markAttendance weekdayOf localeCompare now rnd
                        classItem status w)))
     = getAttendanceRecords (storage w).

(** Equal but for the status. *)
Definition sameButStatus (r r' : AttendanceRecord.t) : Prop :=
  AttendanceRecord.id r' = AttendanceRecord.id r
  /\ AttendanceRecord.subjectId r' = AttendanceRecord.subjectId r
  /\ AttendanceRecord.date r' = AttendanceRecord.date r
  /\ AttendanceRecord.timetableEntryId r' = AttendanceRecord.timetableEntryId r.

(** Every record of [records] is still in [records'], at its index, with at
    most its status changed. *)
Definition kept (records records' : list AttendanceRecord.t) : Prop :=
  forall i r, nth_error records i = Some r ->
    exists r', nth_error records' i = Some r' /\ sameButStatus r r'.

End Notions.

End Marking.

(* ================================================================== *)
(** * Inputs of the examples *)
(* ================================================================== *)

Module Example.

Import AttendancePage.

(** One class, marked absent. *)
Definition oneAbsence : localStorage :=
  saveAttendanceRecords
    [AttendanceRecord.mk (js "attendance-1-a") (js "subject-0")
       (js "2025-01-06") absent (js "monday-09:00-0-x")] ∅.

(** Three classes, the first attended. *)
Definition oneOfThree : localStorage :=
  saveAttendanceRecords
    [AttendanceRecord.mk (js "attendance-1-a") (js "subject-0")
       (js "2025-01-06") present (js "monday-09:00-0-x");
     AttendanceRecord.mk (js "attendance-2-b") (js "subject-0")
       (js "2025-01-13") absent (js "monday-09:00-0-x");
     AttendanceRecord.mk (js "attendance-3-c") (js "subject-0")
       (js "2025-01-20") absent (js "monday-09:00-0-x")] ∅.

(** The grid of the example of section 8, under any row of batch numbers. *)
Definition grid (batchRow : list jsstring) : list (list jsstring) :=
  [ batchRow;
    [js "Time"; js "Monday"; js "Tuesday"];
    [js "09:00"; js "Data Science (3102B-BL3-FF) Dr. Smith"; js "Free"] ].

(** A sheet of two rows, the second a header row with a day column. *)
Definition twoRows : list (list jsstring) :=
  [ [js "Batch 1"]; [js "Time"; js "Monday"] ].

(** A constant in place of the random suffix of the ids. *)
Definition noRandom (n : nat) : jsstring := js "r".

(** Every date a Monday, and strings compared unit by unit. *)
Definition alwaysMonday (date : jsstring) : jsstring := js "Monday".

Fixpoint compareUnits (a b : jsstring) : Z :=
  match a, b with
  | [], [] => 0
  | [], _ :: _ => -1
  | _ :: _, [] => 1
  | x :: a', y :: b' =>
      match N.compare x y with
      | Lt => -1
      | Gt => 1
      | Eq => compareUnits a' b'
      end
  end.

Definition monday : jsstring := js "2025-01-06".

Definition timetable : list TimetableEntry.t :=
  [ TimetableEntry.mk (js "monday-09:00-0-x") (js "Monday") (js "09:00")
      (js "Data Science") (Some (js "3102B-BL3-FF")) None ].

Definition subjects : list Subject.t :=
  [ Subject.mk (js "subject-0") (js "Data Science") 0 0 0 0 ].

(** The timetable and its subjects confirmed on the upload page. *)
Definition uploaded : list Action :=
  [ SaveTimetable timetable monday; SaveSubjects subjects monday ].

(** A second window is opened on the uploaded timetable; the class is
    marked present in the first window and then absent in the second. *)
Definition twoWindows : list Event :=
  [ InWindow 0 (SaveTimetable timetable monday);
    InWindow 0 (SaveSubjects subjects monday);
    OpenWindow monday;
    InWindow 0 (Mark 0 present 1 (js "a"));
    InWindow 1 (Mark 0 absent 2 (js "b")) ].

(** A second window is opened on the uploaded timetable, and the subjects
    are then replaced by none in the first window. *)
Definition subjectsGone : list Event :=
  [ InWindow 0 (SaveTimetable timetable monday);
    InWindow 0 (SaveSubjects subjects monday);
    OpenWindow monday;
    InWindow 0 (SaveSubjects [] monday) ].

(** The class as the page shows it before and after it is marked. *)
Definition unmarked : ClassWithStatus :=
  mkClass (js "monday-09:00-0-x") (js "Monday") (js "09:00")
    (js "Data Science") (Some (js "3102B-BL3-FF")) None None None.

Definition markedPresent : ClassWithStatus :=
  mkClass (js "monday-09:00-0-x") (js "Monday") (js "09:00")
    (js "Data Science") (Some (js "3102B-BL3-FF")) None (Some present)
    (Some (js "attendance-1-a")).

(** A class of a subject that is not stored. *)
Definition stray : ClassWithStatus :=
  mkClass (js "monday-10:00-1-y") (js "Monday") (js "10:00")
    (js "Chemistry") None None None None.

(** Ten classes of one subject, the first six attended. *)
Definition classOn (n : nat) (status : Status) : AttendanceRecord.t :=
  AttendanceRecord.mk (js "attendance-" ++ ofNat n ++ js "-a")
    (js "subject-0") (js "2025-01-" ++ ofNat (10 + n)) status
    (js "monday-09:00-0-x").

Definition tenClasses : localStorage :=
  saveAttendanceRecords
    (List.map (fun n => classOn n present) (seq 0 6)
     ++ List.map (fun n => classOn n absent) (seq 6 4))
    (saveSubjects subjects ∅).

End Example.

(* ================================================================== *)
(** * Notions the further statements use *)
(* ================================================================== *)

Module Notions.

(** The sum of a count over subject ids. *)
Definition sumOver (ids : list jsstring) (f : jsstring -> Z) : Z :=
  fold_right Z.add 0 (List.map f ids).

(** The order of the list of the subjects page. *)
Definition lowerFirst (a b : Subject.t) : Prop :=
  (Subject.attendancePercentage a <= Subject.attendancePercentage b)%Q.

(** What an entry of the parser says, its id apart. *)
Definition fieldsOf (entry : ExcelParser.ParsedTimetableEntry)
  : jsstring * jsstring * jsstring * option jsstring :=
  (ExcelParser.day entry, ExcelParser.time entry, ExcelParser.subject entry,
   ExcelParser.room entry).

(** The names the parser gives to days. *)
Definition weekdayNames : list jsstring :=
  List.map ExcelParser.capitalise ExcelParser.dayNames.

(** No white space in front. *)
Definition noLead (s : jsstring) : Prop :=
  match s with
  | [] => True
  | c :: _ => isWhiteSpace c = false
  end.

End Notions.

Import Notions.

(** Further data of the example: the sheet as parsed and confirmed, and the
    timetable and its subject after one of them is renamed. *)
Module Renamed.

Import AttendancePage Example.

Definition parsedEntry : ExcelParser.ParsedTimetableEntry :=
  ExcelParser.mkEntry (js "monday-09:00-0-r") (js "Monday") (js "09:00")
    (js "Data Science") (Some (js "3102B-BL3-FF")) None.

Definition parsedClass : ClassWithStatus :=
  mkClass (js "monday-09:00-0-r") (js "Monday") (js "09:00")
    (js "Data Science") (Some (js "3102B-BL3-FF")) None None None.

Definition stored : localStorage :=
  saveSubjects subjects (saveTimetable timetable ∅).

Definition renamedEntry : TimetableEntry.t :=
  TimetableEntry.mk (js "monday-09:00-0-x") (js "Monday") (js "09:00")
    (js "Chemistry") (Some (js "3102B-BL3-FF")) None.

Definition classOfEntry : ClassWithStatus :=
  mkClass (js "monday-09:00-0-x") (js "Monday") (js "09:00")
    (js "Chemistry") (Some (js "3102B-BL3-FF")) None None None.

Definition renamedSubject : Subject.t :=
  Subject.mk (js "subject-0") (js "Statistics") 0 0 0 0.

(** The subject of [tenClasses] as the subjects page loads it. *)
Definition sixOfTen : Subject.t :=
  Subject.mk (js "subject-0") (js "Data Science") 0 10 6 60.


End Renamed.

(* ================================================================== *)
(** * Strings *)
(* ================================================================== *)

Lemma eqb_eq (a b : jsstring) : JS.eqb a b = true <-> a = b.
Proof.
  revert b. induction a as [|x a IH]; intros [|y b]; simpl; split;
    try congruence; try reflexivity.
  - intros H. apply andb_true_iff in H as [Hx Hab].
    apply N.eqb_eq in Hx. apply IH in Hab. congruence.
  - intros H. injection H as -> ->. rewrite N.eqb_refl. simpl.
    apply IH. reflexivity.
Qed.

Lemma eqb_refl (a : jsstring) : JS.eqb a a = true.
Proof. apply eqb_eq. reflexivity. Qed.

Lemma eqb_neq (a b : jsstring) : JS.eqb a b = false <-> a <> b.
Proof.
  split.
  - intros H E. apply eqb_eq in E. congruence.
  - intros H. destruct (JS.eqb a b) eqn:E; [|reflexivity].
    apply eqb_eq in E. contradiction.
Qed.

(* ================================================================== *)
(** * Numbers: rounding to the nearest double *)
(* ================================================================== *)

Section Numbers.

Import Number.

Local Open Scope Q_scope.

Lemma pow2_pos (k : Z) : 0 < 2 ^ k.
Proof. apply Qpower_0_lt. reflexivity. Qed.

Lemma pow2_succ (k : Z) : 2 ^ (k + 1) == 2 * 2 ^ k.
Proof.
  rewrite Qpower_plus by discriminate. rewrite Qpower_1_r. ring.
Qed.

Lemma pow2_le (i j : Z) : (i <= j)%Z -> 2 ^ i <= 2 ^ j.
Proof. intros H. apply Qpower_le_compat_l; [exact H|discriminate]. Qed.

Lemma pow2_log2 (n : Z) :
  (0 < n)%Z -> 2 ^ Z.log2 n <= inject_Z n < 2 * 2 ^ Z.log2 n.
Proof.
  intros Hn. destruct (Z.log2_spec n Hn) as [Hl Hu].
  pose proof (Z.log2_nonneg n) as H0.
  rewrite <- pow2_succ.
  change 2 with (inject_Z 2).
  rewrite <- !Zpower_Qpower by lia.
  rewrite <- Zle_Qle, <- Zlt_Qlt. split; [exact Hl|exact Hu].
Qed.

Lemma exponentOf_spec (x : Q) :
  0 < x -> 2 ^ exponentOf x <= x < 2 ^ (exponentOf x + 1).
Proof.
  intros Hx. unfold exponentOf.
  destruct x as [n d]. cbn [Qnum Qden].
  assert (Hn : (0 < n)%Z) by (unfold Qlt in Hx; cbn in Hx; lia).
  pose proof (pow2_log2 n Hn) as [Hnl Hnu].
  pose proof (pow2_log2 (Zpos d) eq_refl) as [Hdl Hdu].
  set (ln := Z.log2 n) in *. set (ld := Z.log2 (Zpos d)) in *.
  pose proof (pow2_pos ln) as Ha. pose proof (pow2_pos ld) as Hb.
  assert (Hd : 0 < inject_Z (Zpos d)) by reflexivity.
  assert (Ex : n # d == inject_Z n / inject_Z (Zpos d)) by apply Qmake_Qdiv.
  assert (E0 : 2 ^ (ln - ld) == 2 ^ ln / 2 ^ ld)
    by (apply Qpower_minus; discriminate).
  assert (Hlow : 2 ^ (ln - ld - 1) < n # d).
  { assert (E : 2 ^ (ln - ld) == 2 * 2 ^ (ln - ld - 1)).
    { rewrite <- pow2_succ. apply Qpower_comp; [reflexivity|lia]. }
    rewrite Ex. apply Qlt_shift_div_l; [exact Hd|].
    assert (H2 : 2 * 2 ^ (ln - ld - 1) * 2 ^ ld == 2 ^ ln).
    { rewrite <- E, E0. field. intros H. rewrite H in Hb. discriminate. }
    pose proof (pow2_pos (ln - ld - 1)) as Hc.
    set (c := 2 ^ (ln - ld - 1)) in *. set (A := 2 ^ ln) in *.
    set (B := 2 ^ ld) in *. set (N := inject_Z n) in *.
    set (D := inject_Z (Zpos d)) in *.
    nra. }
  assert (Hup : n # d < 2 * 2 ^ (ln - ld)).
  { rewrite Ex. apply Qlt_shift_div_r; [exact Hd|].
    assert (H2 : 2 ^ (ln - ld) * 2 ^ ld == 2 ^ ln).
    { rewrite E0. field. intros H. rewrite H in Hb. discriminate. }
    pose proof (pow2_pos (ln - ld)) as Hc.
    set (c := 2 ^ (ln - ld)) in *. set (A := 2 ^ ln) in *.
    set (B := 2 ^ ld) in *. set (N := inject_Z n) in *.
    set (D := inject_Z (Zpos d)) in *.
    nra. }
  destruct (Qle_bool (2 ^ (ln - ld)) (n # d)) eqn:E.
  - apply Qle_bool_iff in E. rewrite pow2_succ. split; assumption.
  - assert (Hlt : n # d < 2 ^ (ln - ld)).
    { apply Qnot_le_lt. intros H. apply Qle_bool_iff in H. congruence. }
    split; [apply Qlt_le_weak, Hlow|].
    assert (E1 : 2 ^ (ln - ld - 1 + 1) == 2 ^ (ln - ld))
      by (apply Qpower_comp; [reflexivity|lia]).
    rewrite E1. exact Hlt.
Qed.

Lemma exponentOf_le (x y : Q) :
  0 < x -> x <= y -> (exponentOf x <= exponentOf y)%Z.
Proof.
  intros Hx Hxy.
  assert (Hy : 0 < y) by (eapply Qlt_le_trans; eassumption).
  destruct (exponentOf_spec x Hx) as [Hl _].
  destruct (exponentOf_spec y Hy) as [_ Hu].
  assert (H : (exponentOf x < exponentOf y + 1)%Z).
  { apply (Qpower_lt_compat_l_inv 2); [|reflexivity].
    eapply Qle_lt_trans; [exact Hl|].
    eapply Qle_lt_trans; [exact Hxy|exact Hu]. }
  lia.
Qed.

Lemma roundHalfEven_cases (m : Q) :
  roundHalfEven m = Qfloor m \/ roundHalfEven m = (Qfloor m + 1)%Z.
Proof.
  unfold roundHalfEven.
  destruct (m - inject_Z (Qfloor m) ?= 1 # 2); [|tauto|tauto].
  destruct (Z.even (Qfloor m)); tauto.
Qed.

Lemma roundHalfEven_le (m m' : Q) :
  m <= m' -> (roundHalfEven m <= roundHalfEven m')%Z.
Proof.
  intros H. pose proof (Qfloor_resp_le _ _ H) as Hf.
  destruct (Z.eq_dec (Qfloor m) (Qfloor m')) as [E|E].
  - unfold roundHalfEven. rewrite <- E. set (f := Qfloor m) in *.
    destruct (Qcompare_spec (m - inject_Z f) (1 # 2)) as [H1|H1|H1];
      destruct (Qcompare_spec (m' - inject_Z f) (1 # 2)) as [H2|H2|H2];
      try lia; try (destruct (Z.even f); lia); exfalso; lra.
  - destruct (roundHalfEven_cases m) as [->| ->],
      (roundHalfEven_cases m') as [->| ->]; lia.
Qed.

Lemma roundHalfEven_Z (k : Z) : roundHalfEven (inject_Z k) = k.
Proof.
  unfold roundHalfEven. rewrite Qfloor_Z.
  destruct (Qcompare_spec (inject_Z k - inject_Z k) (1 # 2)) as [H|H|H];
    [exfalso; lra|reflexivity|exfalso; lra].
Qed.

Lemma roundHalfEven_near (m : Q) :
  m - (1 # 2) <= inject_Z (roundHalfEven m) <= m + (1 # 2).
Proof.
  pose proof (Qfloor_le m) as Hl. pose proof (Qlt_floor m) as Hu.
  unfold roundHalfEven. rewrite inject_Z_plus in Hu.
  change (inject_Z 1) with 1 in Hu.
  destruct (Qcompare_spec (m - inject_Z (Qfloor m)) (1 # 2)) as [H|H|H].
  - destruct (Z.even (Qfloor m)); [lra|].
    rewrite inject_Z_plus. change (inject_Z 1) with 1. lra.
  - lra.
  - rewrite inject_Z_plus. change (inject_Z 1) with 1. lra.
Qed.

Lemma Qabs_pos_eq (x : Q) : 0 < x -> Qabs x = x.
Proof.
  destruct x as [n d]. unfold Qlt. cbn. intros H. unfold Qabs.
  rewrite Z.abs_eq by lia. reflexivity.
Qed.

Lemma Qeq_bool_pos (x : Q) : 0 < x -> Qeq_bool x 0 = false.
Proof.
  intros H. destruct (Qeq_bool x 0) eqn:E; [|reflexivity].
  apply Qeq_bool_iff in E. rewrite E in H. discriminate.
Qed.

(** The value [ofQ] gives to a positive rational, before it is reduced. *)
Lemma ofQ_pos_eq (x : Q) :
  0 < x ->
  ofQ x == inject_Z (roundHalfEven (x / 2 ^ (exponentOf x - 52)))
           * 2 ^ (exponentOf x - 52).
Proof.
  intros H. unfold ofQ. rewrite Qeq_bool_pos, Qabs_pos_eq by exact H.
  apply Qred_correct.
Qed.

Lemma ofQ_zero (x : Q) : x == 0 -> ofQ x = 0.
Proof.
  intros H. unfold ofQ. apply Qeq_bool_iff in H. rewrite H. reflexivity.
Qed.

Lemma scaled_bounds (x : Q) :
  0 < x ->
  inject_Z (2 ^ 52) <= x / 2 ^ (exponentOf x - 52) < inject_Z (2 ^ 53).
Proof.
  intros Hx. destruct (exponentOf_spec x Hx) as [Hl Hu].
  set (e := exponentOf x) in *.
  pose proof (pow2_pos (e - 52)) as Hulp.
  assert (E : 2 ^ e == inject_Z (2 ^ 52) * 2 ^ (e - 52)).
  { rewrite Zpower_Qpower by lia. change (inject_Z 2) with 2.
    rewrite <- Qpower_plus by discriminate.
    apply Qpower_comp; [reflexivity|lia]. }
  assert (E' : 2 ^ (e + 1) == inject_Z (2 ^ 53) * 2 ^ (e - 52)).
  { rewrite Zpower_Qpower by lia. change (inject_Z 2) with 2.
    rewrite <- Qpower_plus by discriminate.
    apply Qpower_comp; [reflexivity|lia]. }
  split.
  - apply Qle_shift_div_l; [exact Hulp|]. rewrite <- E. exact Hl.
  - apply Qlt_shift_div_r; [exact Hulp|]. rewrite <- E'. exact Hu.
Qed.

Lemma ofQ_binade (x : Q) :
  0 < x -> 2 ^ exponentOf x <= ofQ x <= 2 ^ (exponentOf x + 1).
Proof.
  intros Hx. rewrite (ofQ_pos_eq x Hx).
  destruct (scaled_bounds x Hx) as [Hl Hu].
  set (e := exponentOf x) in *.
  pose proof (pow2_pos (e - 52)) as Hulp.
  assert (E : 2 ^ e == inject_Z (2 ^ 52) * 2 ^ (e - 52)).
  { rewrite Zpower_Qpower by lia. change (inject_Z 2) with 2.
    rewrite <- Qpower_plus by discriminate.
    apply Qpower_comp; [reflexivity|lia]. }
  assert (E' : 2 ^ (e + 1) == inject_Z (2 ^ 53) * 2 ^ (e - 52)).
  { rewrite Zpower_Qpower by lia. change (inject_Z 2) with 2.
    rewrite <- Qpower_plus by discriminate.
    apply Qpower_comp; [reflexivity|lia]. }
  rewrite E, E'.
  pose proof (roundHalfEven_le _ _ Hl) as Hrl.
  pose proof (roundHalfEven_le _ _ (Qlt_le_weak _ _ Hu)) as Hru.
  rewrite roundHalfEven_Z in Hrl, Hru.
  split; (apply Qmult_le_compat_r; [|apply Qlt_le_weak, Hulp]);
    rewrite <- Zle_Qle; assumption.
Qed.

Lemma ofQ_pos (x : Q) : 0 < x -> 0 < ofQ x.
Proof.
  intros Hx. eapply Qlt_le_trans; [apply (pow2_pos (exponentOf x))|].
  apply ofQ_binade, Hx.
Qed.

Lemma ofQ_nonneg (x : Q) : 0 <= x -> 0 <= ofQ x.
Proof.
  intros Hx. destruct (Qlt_le_dec 0 x) as [H|H].
  - apply Qlt_le_weak, ofQ_pos, H.
  - rewrite ofQ_zero; [apply Qle_refl|]. apply Qle_antisym; assumption.
Qed.

(** Rounding keeps the order. *)
Lemma ofQ_le (x y : Q) : 0 <= x -> x <= y -> ofQ x <= ofQ y.
Proof.
  intros H0 Hxy. destruct (Qlt_le_dec 0 x) as [Hx|Hx].
  - assert (Hy : 0 < y) by (eapply Qlt_le_trans; eassumption).
    pose proof (exponentOf_le x y Hx Hxy) as He.
    destruct (Z.eq_dec (exponentOf x) (exponentOf y)) as [E|E].
    + rewrite (ofQ_pos_eq x Hx), (ofQ_pos_eq y Hy), E.
      pose proof (pow2_pos (exponentOf y - 52)) as Hulp.
      apply Qmult_le_compat_r; [|apply Qlt_le_weak, Hulp].
      rewrite <- Zle_Qle. apply roundHalfEven_le.
      apply Qmult_le_compat_r; [exact Hxy|].
      apply Qlt_le_weak, Qinv_lt_0_compat, Hulp.
    + eapply Qle_trans; [apply (ofQ_binade x Hx)|].
      eapply Qle_trans; [|apply (ofQ_binade y Hy)].
      apply pow2_le. lia.
  - rewrite (ofQ_zero x); [apply ofQ_nonneg; lra|].
    apply Qle_antisym; assumption.
Qed.

(** Rounding moves a number by at most half a unit of its last place. *)
Lemma ofQ_near (x : Q) :
  0 <= x -> Qabs (ofQ x - x) <= x * (1 # 2 ^ 53).
Proof.
  intros H0. destruct (Qlt_le_dec 0 x) as [Hx|Hx].
  - destruct (exponentOf_spec x Hx) as [Hl _].
    rewrite (ofQ_pos_eq x Hx).
    set (e := exponentOf x) in *.
    pose proof (pow2_pos (e - 52)) as Hulp.
    pose proof (roundHalfEven_near (x / 2 ^ (e - 52))) as [Hn1 Hn2].
    set (k := inject_Z (roundHalfEven (x / 2 ^ (e - 52)))) in *.
    assert (E : 2 ^ e == inject_Z (2 ^ 52) * 2 ^ (e - 52)).
    { rewrite Zpower_Qpower by lia. change (inject_Z 2) with 2.
      rewrite <- Qpower_plus by discriminate.
      apply Qpower_comp; [reflexivity|lia]. }
    assert (Ex : x == x / 2 ^ (e - 52) * 2 ^ (e - 52)).
    { field. intros H. rewrite H in Hulp. discriminate. }
    set (u := 2 ^ (e - 52)) in *. set (m := x / u) in *.
    rewrite E in Hl.
    assert (H53 : (1 # 2 ^ 53) * inject_Z (2 ^ 52) == 1 # 2) by reflexivity.
    apply Qabs_Qle_condition. split.
    + setoid_replace (k * u - x) with ((k - m) * u) using relation Qeq
        by (rewrite Ex at 1; ring).
      assert (Hb : (1 # 2) * u <= x * (1 # 2 ^ 53)).
      { setoid_replace ((1 # 2) * u)
          with (inject_Z (2 ^ 52) * u * (1 # 2 ^ 53)) using relation Qeq
          by (rewrite <- H53; ring).
        apply Qmult_le_compat_r; [exact Hl|discriminate]. }
      assert (Hc : - ((1 # 2) * u) <= (k - m) * u).
      { setoid_replace (- ((1 # 2) * u)) with ((- (1 # 2)) * u)
          using relation Qeq by ring.
        apply Qmult_le_compat_r; [lra|apply Qlt_le_weak, Hulp]. }
      lra.
    + setoid_replace (k * u - x) with ((k - m) * u) using relation Qeq
        by (rewrite Ex at 1; ring).
      assert (Hb : (1 # 2) * u <= x * (1 # 2 ^ 53)).
      { setoid_replace ((1 # 2) * u)
          with (inject_Z (2 ^ 52) * u * (1 # 2 ^ 53)) using relation Qeq
          by (rewrite <- H53; ring).
        apply Qmult_le_compat_r; [exact Hl|discriminate]. }
      assert (Hc : (k - m) * u <= (1 # 2) * u).
      { apply Qmult_le_compat_r; [lra|apply Qlt_le_weak, Hulp]. }
      lra.
  - rewrite (ofQ_zero x) by (apply Qle_antisym; assumption).
    assert (E : x == 0) by (apply Qle_antisym; assumption).
    rewrite E. cbn. discriminate.
Qed.

Lemma quotient_bounds (a t : Z) :
  (0 <= a <= t)%Z -> (0 < t)%Z ->
  0 <= inject_Z a / inject_Z t <= 1
  /\ ((0 < a)%Z -> 0 < inject_Z a / inject_Z t).
Proof.
  intros Ha Ht.
  assert (H0 : 0 < inject_Z t) by (change 0 with (inject_Z 0); rewrite <- Zlt_Qlt; exact Ht).
  assert (H1 : 0 <= inject_Z a) by (change 0 with (inject_Z 0); rewrite <- Zle_Qle; lia).
  assert (H2 : inject_Z a <= inject_Z t) by (rewrite <- Zle_Qle; lia).
  repeat split.
  - apply Qle_shift_div_l; [exact H0|]. lra.
  - apply Qle_shift_div_r; [exact H0|]. lra.
  - intros Hpos. apply Qlt_shift_div_l; [exact H0|].
    assert (0 < inject_Z a) by (change 0 with (inject_Z 0); rewrite <- Zlt_Qlt; exact Hpos).
    lra.
Qed.

Lemma ofQ_1 : ofQ 1 = 1.
Proof. vm_compute. reflexivity. Qed.

Lemma ofQ_100 : ofQ 100 = 100.
Proof. vm_compute. reflexivity. Qed.

Lemma div_bounds (a t : Z) :
  (0 <= a <= t)%Z -> (0 < t)%Z ->
  0 <= div (inject_Z a) (inject_Z t) <= 1
  /\ ((0 < a)%Z -> 0 < div (inject_Z a) (inject_Z t))
  /\ (a = 0%Z -> div (inject_Z a) (inject_Z t) = 0).
Proof.
  intros Ha Ht. destruct (quotient_bounds a t Ha Ht) as [[Hl Hu] Hp].
  unfold div. repeat split.
  - apply ofQ_nonneg, Hl.
  - apply Qle_trans with (ofQ 1); [apply ofQ_le; assumption|].
    rewrite ofQ_1. apply Qle_refl.
  - intros H. apply ofQ_pos, Hp, H.
  - intros ->. apply ofQ_zero. reflexivity.
Qed.

Lemma percentage_bounds (a t : Z) :
  (0 <= a <= t)%Z -> (0 < t)%Z ->
  0 <= Number.mul (Number.div (inject_Z a) (inject_Z t)) 100 <= 100 /\ (Number.mul (Number.div (inject_Z a) (inject_Z t)) 100 == 0 <-> a = 0%Z).
Proof.
  intros Ha Ht. destruct (div_bounds a t Ha Ht) as [[Hl Hu] [Hp Hz]].
  unfold Number.mul. set (y := div (inject_Z a) (inject_Z t)) in *.
  repeat split.
  - apply ofQ_nonneg. nra.
  - apply Qle_trans with (ofQ 100); [apply ofQ_le; nra|].
    rewrite ofQ_100. apply Qle_refl.
  - intros E. destruct (Z.eq_dec a 0%Z) as [H|H]; [exact H|].
    assert (Hy : 0 < y) by (apply Hp; lia).
    assert (Hz' : 0 < ofQ (y * 100)) by (apply ofQ_pos; nra).
    rewrite E in Hz'. discriminate.
  - intros H. rewrite (Hz H). reflexivity.
Qed.

Lemma percentage_near (a t : Z) :
  (0 <= a <= t)%Z -> (0 < t)%Z ->
  Qabs (Number.mul (Number.div (inject_Z a) (inject_Z t)) 100 - inject_Z a / inject_Z t * 100) <= 1 # 2 ^ 45.
Proof.
  intros Ha Ht. destruct (quotient_bounds a t Ha Ht) as [[Hl Hu] _].
  destruct (div_bounds a t Ha Ht) as [[Hl' Hu'] _].
  unfold Number.mul. unfold div in *. set (x := inject_Z a / inject_Z t) in *.
  pose proof (ofQ_near x Hl) as H1.
  assert (Hy : 0 <= ofQ x * 100) by nra.
  pose proof (ofQ_near (ofQ x * 100) Hy) as H2.
  set (y := ofQ x) in *. set (p := ofQ (y * 100)) in *.
  apply Qabs_Qle_condition in H1 as [H1 H1'].
  apply Qabs_Qle_condition in H2 as [H2 H2'].
  apply Qabs_Qle_condition.
  assert (E : (1 # 2 ^ 45) == 256 * (1 # 2 ^ 53)) by reflexivity.
  rewrite E. set (u := 1 # 2 ^ 53) in *.
  assert (Hu0 : 0 < u) by reflexivity.
  split; nra.
Qed.

(** The thresholds are Numbers, and so are 3/4 - 2^-34 and 75 - 2^-28 next
    to them. *)
Lemma ofQ_thresholds :
  ofQ (3 # 4) = 3 # 4 /\ ofQ 75 = 75
  /\ ofQ (12884901887 # 17179869184) = 12884901887 # 17179869184
  /\ ofQ (20132659199 # 268435456) = 20132659199 # 268435456.
Proof. vm_compute. repeat split. Qed.

Lemma below_75 (a t : Z) :
  (0 <= a <= t)%Z -> (0 < t < 2 ^ 32)%Z ->
  Number.mul (Number.div (inject_Z a) (inject_Z t)) 100 < 75 <-> (100 * a < 75 * t)%Z.
Proof.
  intros Ha Ht. destruct (quotient_bounds a t Ha ltac:(lia)) as [[Hl Hu] _].
  destruct ofQ_thresholds as [E34 [E75 [Ec Ec2]]].
  assert (H0 : 0 < inject_Z t)
    by (change 0 with (inject_Z 0); rewrite <- Zlt_Qlt; lia).
  unfold Number.mul, Number.div. set (x := inject_Z a / inject_Z t) in *.
  split.
  - intros Hp. destruct (Z.lt_ge_cases (100 * a) (75 * t)) as [H|H];
      [exact H|exfalso].
    assert (Hx : (3 # 4) <= x).
    { apply Qle_shift_div_l; [exact H0|].
      assert (Hz : inject_Z (75 * t) <= inject_Z (100 * a))
        by (rewrite <- Zle_Qle; exact H).
      rewrite !inject_Z_mult in Hz.
      change (inject_Z 75) with 75 in Hz.
      change (inject_Z 100) with 100 in Hz. lra. }
    assert (Hy : (3 # 4) <= ofQ x)
      by (rewrite <- E34; apply ofQ_le; [discriminate|exact Hx]).
    assert (Hz : 75 <= ofQ (ofQ x * 100)).
    { rewrite <- E75 at 1. apply ofQ_le; [discriminate|]. lra. }
    lra.
  - intros H.
    assert (Hx : x <= 12884901887 # 17179869184).
    { apply Qle_shift_div_r; [exact H0|].
      assert (Hz : inject_Z (17179869184 * a)
                   <= inject_Z (12884901887 * t))
        by (rewrite <- Zle_Qle; lia).
      rewrite !inject_Z_mult in Hz.
      change (inject_Z 17179869184) with 17179869184 in Hz.
      change (inject_Z 12884901887) with 12884901887 in Hz.
      lra. }
    assert (Hy : ofQ x <= 12884901887 # 17179869184)
      by (rewrite <- Ec; apply ofQ_le; assumption).
    assert (Hy0 : 0 <= ofQ x) by (apply ofQ_nonneg, Hl).
    assert (Hz : ofQ (ofQ x * 100) <= 20132659199 # 268435456).
    { rewrite <- Ec2. apply ofQ_le; [lra|].
      lra. }
    lra.
Qed.

(** On all counts up to 48, and on arrays as long as can be, the percentage
    of [Number] is the one of the doubles of the kernel. *)
Lemma percentage_as_binary64 :
  forallb
    (fun t => forallb (fun a => Binary64.agrees a t)
                (Binary64.upTo (Z.to_nat t)))
    (List.tl (Binary64.upTo 48))
  = true
  /\ forallb (fun a => Binary64.agrees a 4294967295)
       [1%Z; 3%Z; 1431655765%Z; 3221225471%Z; 3221225472%Z; 4294967294%Z]
     = true.
Proof. vm_compute. split; reflexivity. Qed.

End Numbers.

(* ================================================================== *)
(** * Statistics *)
(* ================================================================== *)

Section Statistics.

Import AttendanceStats.

Lemma calculateAttendanceStats_statsOf (ls : localStorage) :
  calculateAttendanceStats ls = statsOf (getAttendanceRecords ls).
Proof. reflexivity. Qed.

Lemma getSubjectAttendance_statsOf (subjectId : jsstring) (ls : localStorage) :
  getSubjectAttendance subjectId ls
  = statsOf (List.filter (Spec.ofSubject subjectId) (getAttendanceRecords ls)).
Proof. reflexivity. Qed.

Lemma length_filter_numberOf (p : AttendanceRecord.t -> bool) records :
  Z.of_nat (length (List.filter p records)) = Spec.numberOf p records.
Proof.
  induction records as [|r records IH]; simpl; [reflexivity|].
  destruct (p r); simpl length; rewrite <- IH; lia.
Qed.

Lemma filter_filter_and (p q : AttendanceRecord.t -> bool) records :
  List.filter q (List.filter p records)
  = List.filter (fun r => p r && q r) records.
Proof.
  induction records as [|r records IH]; simpl; [reflexivity|].
  destruct (p r); simpl; [destruct (q r)|]; rewrite IH; reflexivity.
Qed.

Lemma numberOf_all records :
  Spec.numberOf (fun _ => true) records = Z.of_nat (length records).
Proof. induction records; simpl length; simpl; lia. Qed.

Lemma numberOf_bounds p q records :
  0 <= Spec.numberOf (fun r => p r && q r) records
  <= Spec.numberOf p records.
Proof.
  induction records as [|r records IH]; simpl; [lia|].
  destruct (p r), (q r); simpl; lia.
Qed.

(** [statsOf] computes the four values over the records it is given. *)
Lemma statsOf_filter (scope : AttendanceRecord.t -> bool) records :
  Spec.statsOverRounded scope records (statsOf (List.filter scope records)).
Proof.
  unfold Spec.statsOverRounded, statsOf. cbn [totalClasses attendedClasses
    missedClasses attendancePercentage].
  rewrite filter_filter_and, !length_filter_numberOf.
  pose proof (numberOf_bounds scope Spec.isPresent records) as Hb.
  unfold Spec.roundedPercentage, Spec.percentage.
  destruct (Z.eqb_spec (Spec.numberOf scope records) 0) as [E|E].
  - rewrite E. repeat split. discriminate.
  - destruct (Z.gtb_spec (Spec.numberOf scope records) 0); [|lia].
    repeat split. apply percentage_near; [exact Hb|assumption].
Qed.

Lemma filter_true (records : list AttendanceRecord.t) :
  List.filter (fun _ => true) records = records.
Proof. induction records; simpl; congruence. Qed.

(** C1, as the code has it.  Over the stored records,
    [calculateAttendanceStats] returns the number of all records, the number
    of those marked present, their difference and [attended / total * 100]
    in the arithmetic of Numbers (0 without records), where the quotient
    and then the product are rounded to the nearest double: a percentage
    within 2^-45 of the exact one.  [getSubjectAttendance] returns the same
    four values over the records of the given subject only. *)
Theorem stats_are_the_counts (ls : localStorage) :
  Spec.statsOverRounded (fun _ => true) (getAttendanceRecords ls)
    (calculateAttendanceStats ls)
  /\ forall subjectId : jsstring,
       Spec.statsOverRounded (Spec.ofSubject subjectId)
         (getAttendanceRecords ls) (getSubjectAttendance subjectId ls).
Proof.
  split.
  - rewrite calculateAttendanceStats_statsOf.
    rewrite <- (filter_true (getAttendanceRecords ls)) at 2.
    apply statsOf_filter.
  - intros subjectId. rewrite getSubjectAttendance_statsOf.
    apply statsOf_filter.
Qed.

(** C1 as the specification words it fails: of three classes one was
    attended, and the percentage is the double 33.33333333333333, which is
    2345624805922133 / 2^46 and not 100 / 3. *)
Lemma one_of_three_not_exact :
  ~ Spec.statsOver (fun _ => true) (getAttendanceRecords Example.oneOfThree)
      (calculateAttendanceStats Example.oneOfThree).
Proof.
  intros [_ [_ [_ H]]]. vm_compute in H. discriminate H.
Qed.

End Statistics.

Section Percentage.

Import AttendanceStats.

Lemma attended_le_total records :
  0 <= attendedClasses (statsOf records) <= totalClasses (statsOf records).
Proof.
  unfold statsOf. cbn [attendedClasses totalClasses].
  pose proof (filter_length_le
    (fun r => Status_eqb (AttendanceRecord.status r) present) records).
  lia.
Qed.

Lemma statsOf_percentage records :
  let stats := statsOf records in
  (0 <= attendancePercentage stats <= 100)%Q
  /\ ((attendancePercentage stats == 0)%Q <-> attendedClasses stats = 0)
  /\ (totalClasses stats = 0 -> (attendancePercentage stats == 0)%Q).
Proof.
  intros stats. pose proof (attended_le_total records) as Hb.
  fold stats in Hb. revert Hb. subst stats. unfold statsOf.
  cbn [attendedClasses totalClasses attendancePercentage].
  set (t := Z.of_nat (length records)).
  set (a := Z.of_nat (length (List.filter _ records))).
  intros Hb. destruct (Z.gtb_spec t 0) as [Ht|Ht].
  - destruct (percentage_bounds a t) as [Hr Hz]; [lia..|].
    repeat split; try apply Hr; try apply Hz; lia.
  - assert (a = 0) by lia. repeat split; try reflexivity; try discriminate;
      intros; assumption || reflexivity.
Qed.

(** C3, as the code has it.  The percentage of both statistics lies in
    [0, 100]; it is 0 exactly when no class was attended, which covers the
    case of no record at all. *)
Theorem percentage_range_and_zero (ls : localStorage) (subjectId : jsstring) :
  let overall := calculateAttendanceStats ls in
  let bySubject := getSubjectAttendance subjectId ls in
  ((0 <= attendancePercentage overall <= 100)%Q
   /\ ((attendancePercentage overall == 0)%Q <-> attendedClasses overall = 0)
   /\ (totalClasses overall = 0 -> (attendancePercentage overall == 0)%Q))
  /\ ((0 <= attendancePercentage bySubject <= 100)%Q
      /\ ((attendancePercentage bySubject == 0)%Q
          <-> attendedClasses bySubject = 0)
      /\ (totalClasses bySubject = 0
          -> (attendancePercentage bySubject == 0)%Q)).
Proof.
  rewrite calculateAttendanceStats_statsOf, getSubjectAttendance_statsOf.
  split; apply statsOf_percentage.
Qed.

(** C3 as the specification words it fails: with one class, marked absent,
    the percentage is 0 and the total is 1. *)
Lemma percentage_zero_with_classes :
  ~ Spec.percentageZeroOnlyWithoutClasses
      (calculateAttendanceStats Example.oneAbsence).
Proof.
  intros [_ [H _]].
  assert (E : totalClasses (calculateAttendanceStats Example.oneAbsence) = 0).
  { apply H. vm_compute. reflexivity. }
  vm_compute in E. discriminate E.
Qed.

End Percentage.

Section ClearAll.

Lemma clearAllData_lookup (ls : localStorage) (key : string) :
  clearAllData ls !! key
  = if bool_decide (key ∈ STORAGE_KEYS.values) then None else ls !! key.
Proof.
  unfold clearAllData, STORAGE_KEYS.values. simpl.
  rewrite !lookup_delete.
  repeat case_decide; case_bool_decide as Hin; try reflexivity;
    rewrite ?elem_of_cons, elem_of_nil in Hin; subst; intuition congruence.
Qed.

(** C6, as the code has it.  [clearAllData] removes the three keys of
    [STORAGE_KEYS] and leaves every other key as it was; afterwards each of
    the three collections reads as the empty list and the overall statistics
    are all 0. *)
Theorem clearAllData_empties_collections (ls : localStorage) :
  let cleared := clearAllData ls in
  (forall key, key ∈ STORAGE_KEYS.values -> cleared !! key = None)
  /\ (forall key, key ∉ STORAGE_KEYS.values -> cleared !! key = ls !! key)
  /\ getTimetable cleared = []
  /\ getSubjects cleared = []
  /\ getAttendanceRecords cleared = []
  /\ calculateAttendanceStats cleared = AttendanceStats.mk 0 0 0 0%Q.
Proof.
  intros cleared.
  assert (Hin : forall key, key ∈ STORAGE_KEYS.values -> cleared !! key = None).
  { intros key Hkey. unfold cleared. rewrite clearAllData_lookup.
    rewrite bool_decide_eq_true_2; [reflexivity|assumption]. }
  assert (Ht : cleared !! STORAGE_KEYS.TIMETABLE = None)
    by (apply Hin; unfold STORAGE_KEYS.values; set_solver).
  assert (Hs : cleared !! STORAGE_KEYS.SUBJECTS = None)
    by (apply Hin; unfold STORAGE_KEYS.values; set_solver).
  assert (Ha : cleared !! STORAGE_KEYS.ATTENDANCE = None)
    by (apply Hin; unfold STORAGE_KEYS.values; set_solver).
  split; [exact Hin|]. split.
  { intros key Hkey. unfold cleared. rewrite clearAllData_lookup.
    rewrite bool_decide_eq_false_2; [reflexivity|assumption]. }
  unfold calculateAttendanceStats, getTimetable, getSubjects,
    getAttendanceRecords.
  rewrite Ht, Hs, Ha. repeat split.
Qed.

(** C6 as the specification words it fails: the scheduling flag, written by
    the notification switch, is a key of the store that [clearAllData]
    leaves in place. *)
Lemma scheduling_flag_survives_clearAllData :
  ~ Spec.everyKeyRemoved
      (NotificationManager.toggleNotifications true true true ∅).
Proof.
  intros H. specialize (H NotificationManager.SCHEDULED).
  vm_compute in H. discriminate H.
Qed.

End ClearAll.

Section RequiredClasses.

Import SubjectsPage.

Lemma ceiling_three_quarters (total : Z) :
  Qceiling (inject_Z (75 * total) / 100) = (75 * total + 99) / 100.
Proof.
  unfold Qceiling, Qfloor, Qdiv, Qmult, Qinv, Qopp, inject_Z. cbn.
  change (Z.pos (1 * 100)) with 100. rewrite Z.mul_1_r.
  pose proof (Z.div_mod (75 * total + 99) 100 ltac:(lia)) as Hq.
  pose proof (Z.mod_pos_bound (75 * total + 99) 100 ltac:(lia)) as Hr.
  assert (E : - (75 * total) / 100 = - ((75 * total + 99) / 100)).
  { symmetry.
    apply (Z.div_unique _ _ _ (99 - (75 * total + 99) mod 100)); lia. }
  rewrite E. lia.
Qed.

Lemma spec_ceiling (total : Z) :
  Qceiling (75 * inject_Z total / 100)
  = Qceiling (inject_Z (75 * total) / 100).
Proof.
  apply Qceiling_comp. rewrite inject_Z_mult. reflexivity.
Qed.

(** C7.  For counts [total] and [attended] (not negative),
    [calculateRequiredClasses] is [max(0, ceil(75 * total / 100) - attended)],
    which is 0 when [total] is 0; it is the least number of further
    attended classes that brings the attended ones to 75% of [total]; and
    for 10 classes of which 6 attended it is 2. *)
Theorem calculateRequiredClasses_formula (subject : Subject.t) :
  let total := Subject.totalClasses subject in
  let attended := Subject.attendedClasses subject in
  0 <= attended ->
  calculateRequiredClasses subject = Spec.requiredFor75 total attended
  /\ (total = 0 -> calculateRequiredClasses subject = 0)
  /\ (0 <= calculateRequiredClasses subject
      /\ 75 * total <= 100 * (attended + calculateRequiredClasses subject)
      /\ forall more, 0 <= more -> 75 * total <= 100 * (attended + more) ->
           calculateRequiredClasses subject <= more)
  /\ (total = 10 -> attended = 6 -> calculateRequiredClasses subject = 2).
Proof.
  intros total attended Hattended.
  assert (E : calculateRequiredClasses subject
              = Z.max 0 ((75 * total + 99) / 100 - attended)).
  { unfold calculateRequiredClasses. fold total. fold attended.
    destruct (Z.eqb_spec total 0) as [->|_].
    - change ((75 * 0 + 99) / 100) with 0. lia.
    - rewrite ceiling_three_quarters. reflexivity. }
  pose proof (Z.div_mod (75 * total + 99) 100 ltac:(lia)) as Hq.
  pose proof (Z.mod_pos_bound (75 * total + 99) 100 ltac:(lia)) as Hr.
  repeat split.
  - rewrite E. unfold Spec.requiredFor75.
    rewrite spec_ceiling, ceiling_three_quarters. reflexivity.
  - intros H0. rewrite E, H0. change ((75 * 0 + 99) / 100) with 0. lia.
  - rewrite E. lia.
  - rewrite E. lia.
  - intros more Hmore Hreach. rewrite E. lia.
  - intros Ht Ha. rewrite E, Ht, Ha. reflexivity.
Qed.

(** The example of section 8: 10 classes, 6 attended. *)
Lemma calculateRequiredClasses_example :
  let subject := Subject.mk (js "subject-0") (js "Data Science") 0 10 6 60 in
  0 <= Subject.attendedClasses subject
  /\ calculateRequiredClasses subject = 2.
Proof.
  intros subject. split; [simpl; lia|].
  apply (calculateRequiredClasses_formula subject); [simpl; lia|..];
    reflexivity.
Defined.

(** The example of section 8 through the store: the statistics of the
    subject and what [loadSubjects] then shows as still needed. *)
Lemma ten_classes_six_attended :
  let stats := getSubjectAttendance (js "subject-0") Example.tenClasses in
  AttendanceStats.totalClasses stats = 10
  /\ AttendanceStats.attendedClasses stats = 6
  /\ AttendanceStats.missedClasses stats = 4
  /\ (AttendanceStats.attendancePercentage stats == 60)%Q
  /\ List.map calculateRequiredClasses (loadSubjects Example.tenClasses)
     = [2].
Proof. vm_compute. repeat split. Qed.

End RequiredClasses.

Section Extraction.

Import ExcelParser.

Variable random : nat -> jsstring.

Lemma extract_example :
  extractSubjectAndRoom (js "Data Science (3102B-BL3-FF) Dr. Smith")
  = (js "Data Science", Some (js "3102B-BL3-FF")).
Proof. vm_compute. reflexivity. Qed.

(** C4.  On the grid whose header row is [Time, Monday, Tuesday] and whose
    single data row is [09:00, Data Science (3102B-BL3-FF) Dr. Smith, Free],
    extraction succeeds with exactly one entry, of day Monday, time 09:00,
    subject Data Science and room 3102B-BL3-FF; the Tuesday cell gives no
    entry. *)
Theorem example_grid_one_entry (batchRow : list jsstring) :
  let result := parseExcelTimetable random (Rows (Example.grid batchRow)) in
  success result = true
  /\ data result
     = [ {| id := js "monday-09:00-0-" ++ random 0;
            day := js "Monday";
            time := js "09:00";
            subject := js "Data Science";
            room := Some (js "3102B-BL3-FF");
            batch := None |} ]
  /\ processCell random (js "09:00") 0
       (nth 2 (Example.grid batchRow) []) (data result) (js "Tuesday", 2%nat)
     = data result.
Proof.
  vm_compute. repeat split.
Qed.

Lemma length_zero_iff_nil {A : Type} (l : list A) :
  Nat.eqb (length l) 0 = true <-> l = [].
Proof. destruct l; simpl; split; congruence. Qed.

(** C8, as the code has it.  From the rows of the sheet, extraction fails
    in exactly three cases, each with its own error: fewer than 3 rows, no
    day column among the header cells, and an empty list of entries;
    otherwise it succeeds with the entries, of which there is at least one.
    It also fails when reading the file throws. *)
Theorem parseExcelTimetable_outcomes (rawData : list (list jsstring)) :
  let result := parseExcelTimetable random (Rows rawData) in
  let headers := headersOf rawData in
  let dayColumns := dayColumnsOf headers in
  let entries :=
    processRows random (timeColumnOf headers) dayColumns (skipn 2 rawData) in
  (success result = false
   <-> (length rawData < 3)%nat \/ dayColumns = [] \/ entries = [])
  /\ (success result = false ->
      data result = []
      /\ errors result
         = [ if Nat.ltb (length rawData) 3 then tooFewRows
             else if Nat.eqb (length dayColumns) 0 then noDayColumns headers
             else noValidEntries ])
  /\ (success result = true ->
      data result = entries /\ entries <> [] /\ errors result = [])
  /\ forall message,
       parseExcelTimetable random (Thrown message)
       = failure (failedToParse message).
Proof.
  intros result headers dayColumns entries.
  subst result. unfold parseExcelTimetable.
  fold headers. fold dayColumns. fold entries.
  destruct (Nat.ltb_spec (length rawData) 3) as [Hrows|Hrows].
  { simpl. repeat split; auto; discriminate. }
  destruct (Nat.eqb (length dayColumns) 0) eqn:Hdays.
  { apply length_zero_iff_nil in Hdays.
    simpl. repeat split; auto; discriminate. }
  destruct (Nat.eqb (length entries) 0) eqn:Hentries.
  { apply length_zero_iff_nil in Hentries.
    simpl. repeat split; auto; discriminate. }
  assert (Hd : dayColumns <> []).
  { intros E. apply length_zero_iff_nil in E. congruence. }
  assert (He : entries <> []).
  { intros E. apply length_zero_iff_nil in E. congruence. }
  cbn [success data errors]. repeat split; try discriminate; auto.
  intros [H|[H|H]]; [lia|contradiction..].
Qed.

End Extraction.

(** C8 as the specification words it fails: a sheet of two rows whose
    second row has a day column is refused for its number of rows, which is
    neither of the two cases. *)
Lemma two_rows_third_failure :
  ~ Spec.twoFailureCases Example.noRandom Example.twoRows.
Proof.
  intros [H _]. destruct H as [H|H]; [vm_compute; reflexivity|..];
    vm_compute in H; discriminate H.
Qed.

(* ================================================================== *)
(** * Marking attendance *)
(* ================================================================== *)

Section Stored.

Lemma getAttendanceRecords_save records (ls : localStorage) :
  getAttendanceRecords (saveAttendanceRecords records ls) = records.
Proof.
  unfold getAttendanceRecords, saveAttendanceRecords.
  rewrite lookup_insert_eq. reflexivity.
Qed.

Lemma getSubjects_saveAttendanceRecords records (ls : localStorage) :
  getSubjects (saveAttendanceRecords records ls) = getSubjects ls.
Proof.
  unfold getSubjects, saveAttendanceRecords.
  rewrite lookup_insert_ne; [reflexivity|discriminate].
Qed.

Lemma getTimetable_saveAttendanceRecords records (ls : localStorage) :
  getTimetable (saveAttendanceRecords records ls) = getTimetable ls.
Proof.
  unfold getTimetable, saveAttendanceRecords.
  rewrite lookup_insert_ne; [reflexivity|discriminate].
Qed.

Lemma getAttendanceRecords_saveTimetable timetable (ls : localStorage) :
  getAttendanceRecords (saveTimetable timetable ls) = getAttendanceRecords ls.
Proof.
  unfold getAttendanceRecords, saveTimetable.
  rewrite lookup_insert_ne; [reflexivity|discriminate].
Qed.

Lemma getAttendanceRecords_saveSubjects subjects (ls : localStorage) :
  getAttendanceRecords (saveSubjects subjects ls) = getAttendanceRecords ls.
Proof.
  unfold getAttendanceRecords, saveSubjects.
  rewrite lookup_insert_ne; [reflexivity|discriminate].
Qed.

Lemma getAttendanceRecords_clearAllData (ls : localStorage) :
  getAttendanceRecords (clearAllData ls) = [].
Proof.
  unfold getAttendanceRecords. rewrite clearAllData_lookup.
  rewrite bool_decide_eq_true_2; [reflexivity|].
  unfold STORAGE_KEYS.values. set_solver.
Qed.

Lemma getAttendanceRecords_toggleNotifications granted scheduled enabled
  (ls : localStorage) :
  getAttendanceRecords
    (NotificationManager.toggleNotifications granted scheduled enabled ls)
  = getAttendanceRecords ls.
Proof.
  unfold NotificationManager.toggleNotifications, getAttendanceRecords.
  destruct enabled, granted, scheduled; simpl; try reflexivity;
    (rewrite lookup_insert_ne; [reflexivity|discriminate]).
Qed.

End Stored.

(** Reading a collection back after a write, by rewriting. *)
Create Rewrite HintDb stored.

#[global] Hint Rewrite getAttendanceRecords_save
  getSubjects_saveAttendanceRecords getTimetable_saveAttendanceRecords
  getAttendanceRecords_saveTimetable getAttendanceRecords_saveSubjects
  getAttendanceRecords_clearAllData
  getAttendanceRecords_toggleNotifications : stored.

Section Marked.

Import AttendancePage Marking.

Variable weekdayOf : jsstring -> jsstring.
Variable localeCompare : jsstring -> jsstring -> Z.

Abbreviation load := (loadAttendanceData weekdayOf localeCompare).
Abbreviation mark := (markAttendance weekdayOf localeCompare).
Abbreviation does := (perform weekdayOf localeCompare).
Abbreviation consistent := (Marking.consistent weekdayOf localeCompare).

(** The records of a world that was just mounted on a written store. *)
Ltac written :=
  unfold recordsIn, mount; cbn [storage]; autorewrite with stored.

(** ** Sorting keeps the elements *)

Lemma In_insertSorted {A} (f : A -> A -> Z) (x y : A) l :
  In y (insertSorted f x l) <-> y = x \/ In y l.
Proof.
  induction l as [|z l IH]; simpl.
  - intuition.
  - destruct (f x z <=? 0); simpl; [intuition|].
    rewrite IH. intuition.
Qed.

Lemma In_sort {A} (f : A -> A -> Z) (y : A) l : In y (sort f l) <-> In y l.
Proof.
  induction l as [|x l IH]; simpl; [reflexivity|].
  rewrite In_insertSorted, IH. intuition.
Qed.

(** A class shown on the page is an entry of the timetable, with the
    status and the id of the record [recordOf] finds for it. *)
Lemma shown_class date (ls : localStorage) classItem :
  In classItem (todayClasses (load date ls)) ->
  exists cls, In cls (getTimetable ls)
    /\ classItem = withStatus (getAttendanceRecords ls) date cls.
Proof.
  unfold loadAttendanceData. cbn [todayClasses].
  rewrite In_sort, in_map_iff. intros [cls [E Hin]].
  apply filter_In in Hin as [Hin _]. exists cls. auto.
Qed.

(** ** One call of [markAttendance] *)

(** The three ways a call can end. *)
Lemma mark_cases now rnd classItem status w :
  let w' := fst (mark now rnd classItem status w) in
  (subjectOf classItem w = None /\ w' = w)
  \/ (exists aid, subjectOf classItem w <> None
        /\ attendanceId classItem = Some aid /\ truthy aid = true
        /\ w' = mount weekdayOf localeCompare (selectedDate (page w))
                  (saveAttendanceRecords
                     (List.map (update aid status) (recordsIn w))
                     (storage w)))
  \/ (exists found, subjectOf classItem w = Some found
        /\ hasAttendanceId (attendanceId classItem) = false
        /\ w' = mount weekdayOf localeCompare (selectedDate (page w))
                  (saveAttendanceRecords
                     (recordsIn w ++ [created now rnd found classItem status w])
                     (storage w))).
Proof.
  unfold markAttendance, subjectOf.
  destruct (List.find _ (subjects (page w))) as [found|] eqn:Hfound;
    [|left; split; reflexivity].
  right. cbn [fst].
  destruct (attendanceId classItem) as [aid|] eqn:Haid; cbn [hasAttendanceId].
  - destruct (truthy aid) eqn:Ht.
    + left. exists aid.
      assert (E : orEmpty (Some aid) = aid) by (simpl; rewrite Ht; reflexivity).
      rewrite E. repeat split; try discriminate; assumption.
    + right. exists found. repeat split.
  - right. exists found. repeat split.
Qed.

(** ** The page and the store stay consistent *)

Lemma pairOf_update aid status r : pairOf (update aid status r) = pairOf r.
Proof. unfold update. destruct (JS.eqb _ aid); reflexivity. Qed.

Lemma id_update aid status r :
  AttendanceRecord.id (update aid status r) = AttendanceRecord.id r.
Proof. unfold update. destruct (JS.eqb _ aid); reflexivity. Qed.

Lemma map_pairOf_update aid status records :
  List.map pairOf (List.map (update aid status) records)
  = List.map pairOf records.
Proof.
  rewrite List.map_map. apply List.map_ext. intros r. apply pairOf_update.
Qed.

Lemma ofPair_pairOf scheduleEntryId date r :
  ofPair scheduleEntryId date r = true <-> pairOf r = (scheduleEntryId, date).
Proof.
  unfold ofPair, pairOf. rewrite andb_true_iff, !eqb_eq.
  split; [intros [-> ->]; reflexivity|intros E; injection E; auto].
Qed.

Lemma recordOf_None records date classId :
  recordOf records date classId = None ->
  ~ In (classId, date) (List.map pairOf records).
Proof.
  unfold recordOf. intros Hnone Hin.
  apply in_map_iff in Hin as [r [Hpair Hin]].
  apply (find_none _ _ Hnone) in Hin.
  apply (ofPair_pairOf classId date) in Hpair.
  unfold ofPair in Hpair. congruence.
Qed.

Lemma consistent_mount date (ls : localStorage) :
  Forall (fun r => truthy (AttendanceRecord.id r) = true)
    (getAttendanceRecords ls) ->
  NoDup (List.map pairOf (getAttendanceRecords ls)) ->
  consistent (mount weekdayOf localeCompare date ls).
Proof.
  intros Hids Hpairs. unfold consistent, recordsIn, mount; cbn.
  repeat split; assumption.
Qed.

(** A class that is shown without attendance id has no record yet. *)
Lemma shown_without_id w classItem :
  consistent w ->
  In classItem (todayClasses (page w)) ->
  hasAttendanceId (attendanceId classItem) = false ->
  ~ In (id classItem, selectedDate (page w)) (List.map pairOf (recordsIn w)).
Proof.
  intros [Hpage [Hids _]] Hin Hno.
  rewrite Hpage in Hin. apply shown_class in Hin as [cls [_ ->]].
  cbn [attendanceId withStatus id] in *.
  destruct (recordOf (getAttendanceRecords (storage w))
              (selectedDate (page w)) (TimetableEntry.id cls))
    as [r|] eqn:Hrec.
  - exfalso. unfold recordOf in Hrec. apply find_some in Hrec as [Hr _].
    rewrite Forall_forall in Hids. apply list_elem_of_In, Hids in Hr.
    cbn in Hno. congruence.
  - apply recordOf_None. exact Hrec.
Qed.

Lemma consistent_mark now rnd classItem status w :
  consistent w ->
  In classItem (todayClasses (page w)) ->
  consistent (fst (mark now rnd classItem status w)).
Proof.
  intros Hw Hin.
  destruct (mark_cases now rnd classItem status w)
    as [[_ ->]|[[aid [_ [_ [_ ->]]]]|[found [_ [Hno ->]]]]];
    [exact Hw|..]; destruct Hw as [Hpage [Hids Hpairs]].
  - apply consistent_mount; rewrite getAttendanceRecords_save.
    + rewrite Forall_forall in *. intros r Hr.
      apply list_elem_of_In, in_map_iff in Hr as [r0 [<- Hr0]].
      rewrite id_update. apply Hids, list_elem_of_In, Hr0.
    + rewrite map_pairOf_update. exact Hpairs.
  - pose proof (shown_without_id w classItem
                  (conj Hpage (conj Hids Hpairs)) Hin Hno) as Hfresh.
    apply consistent_mount; rewrite getAttendanceRecords_save.
    + apply Forall_app. split; [exact Hids|].
      constructor; [reflexivity|constructor].
    + rewrite List.map_app. apply NoDup_app. repeat split.
      * exact Hpairs.
      * intros p Hp Hnew. cbn in Hnew.
        apply list_elem_of_In in Hnew as [<-|[]].
        apply list_elem_of_In in Hp. contradiction.
      * cbn. apply NoDup_singleton.
Qed.

Lemma consistent_perform w action :
  consistent w -> consistent (does w action).
Proof.
  intros Hw. pose proof Hw as [Hpage [Hids Hpairs]].
  unfold recordsIn in *.
  destruct action as [index status now rnd|date|timetable today
                     |subjects today|today|granted scheduled enabled today];
    cbn [perform].
  - destruct (nth_error (todayClasses (page w)) index) as [classItem|] eqn:Hn;
      [|exact Hw].
    apply consistent_mark; [exact Hw|]. eapply nth_error_In, Hn.
  - apply consistent_mount; assumption.
  - apply consistent_mount; autorewrite with stored; assumption.
  - apply consistent_mount; autorewrite with stored; assumption.
  - apply consistent_mount; autorewrite with stored; constructor.
  - apply consistent_mount; autorewrite with stored; assumption.
Qed.

Lemma consistent_fold w actions :
  consistent w -> consistent (fold_left does actions w).
Proof.
  revert w. induction actions as [|a actions IH]; intros w Hw; simpl;
    [exact Hw|].
  apply IH, consistent_perform, Hw.
Qed.

Lemma consistent_after today actions :
  consistent (after weekdayOf localeCompare today actions).
Proof.
  apply consistent_fold. apply consistent_mount; cbn; constructor.
Qed.

(** ** Records of a pair *)

Lemma ofPair_update e d aid status r :
  ofPair e d (update aid status r) = ofPair e d r.
Proof. unfold update. destruct (JS.eqb _ aid); reflexivity. Qed.

Lemma filter_ofPair_update e d aid status records :
  List.filter (ofPair e d) (List.map (update aid status) records)
  = List.map (update aid status) (List.filter (ofPair e d) records).
Proof.
  induction records as [|r records IH]; simpl; [reflexivity|].
  rewrite ofPair_update. destruct (ofPair e d r); simpl; congruence.
Qed.

Lemma filter_none_of_pair e d records :
  ~ In (e, d) (List.map pairOf records) ->
  List.filter (ofPair e d) records = [].
Proof.
  induction records as [|r records IH]; simpl; [reflexivity|].
  intros Hnot. destruct (ofPair e d r) eqn:Hr.
  - apply ofPair_pairOf in Hr. tauto.
  - apply IH. tauto.
Qed.

Lemma at_most_one_of_pair e d records :
  NoDup (List.map pairOf records) ->
  (length (List.filter (ofPair e d) records) <= 1)%nat.
Proof.
  induction records as [|r records IH]; simpl; [lia|].
  intros Hnd. apply NoDup_cons in Hnd as [Hnot Hnd].
  destruct (ofPair e d r) eqn:Hr; [|apply IH, Hnd].
  apply ofPair_pairOf in Hr. rewrite Hr in Hnot.
  rewrite filter_none_of_pair; [simpl; lia|].
  intros Hin. apply Hnot, list_elem_of_In, Hin.
Qed.

Lemma the_one_of_pair e d records r :
  NoDup (List.map pairOf records) ->
  recordOf records d e = Some r ->
  List.filter (ofPair e d) records = [r].
Proof.
  unfold recordOf. fold (ofPair e d).
  induction records as [|r0 records IH]; simpl; [discriminate|].
  intros Hnd. apply NoDup_cons in Hnd as [Hnot Hnd].
  destruct (ofPair e d r0) eqn:Hr0.
  - intros [= ->]. f_equal. apply filter_none_of_pair.
    apply ofPair_pairOf in Hr0. rewrite Hr0 in Hnot.
    intros Hin. apply Hnot, list_elem_of_In, Hin.
  - apply IH, Hnd.
Qed.

Lemma recordOf_found e d records r :
  In r records -> ofPair e d r = true ->
  exists r', recordOf records d e = Some r'.
Proof.
  intros Hin Hr. unfold recordOf. fold (ofPair e d).
  destruct (List.find (ofPair e d) records) as [r'|] eqn:Hfind; [eauto|].
  apply (find_none _ _ Hfind) in Hin. congruence.
Qed.

(** After a call that found the subject, the pair of the class has a
    record, and the page is still on the same date. *)
Lemma marked_has_record now rnd classItem status w :
  consistent w ->
  In classItem (todayClasses (page w)) ->
  subjectOf classItem w <> None ->
  let w' := fst (mark now rnd classItem status w) in
  selectedDate (page w') = selectedDate (page w)
  /\ exists r, recordOf (recordsIn w') (selectedDate (page w)) (id classItem)
               = Some r.
Proof.
  intros Hw Hin Hfound.
  destruct (mark_cases now rnd classItem status w)
    as [[Hnone _]|[[aid [_ [Haid [Ht ->]]]]|[found [_ [_ ->]]]]];
    [contradiction|..]; (split; [reflexivity|]);
    unfold recordsIn, mount; cbn [storage]; rewrite getAttendanceRecords_save.
  - destruct Hw as [Hpage _]. rewrite Hpage in Hin.
    apply shown_class in Hin as [cls [_ ->]].
    cbn [attendanceId withStatus id] in *.
    destruct (recordOf (getAttendanceRecords (storage w))
                (selectedDate (page w)) (TimetableEntry.id cls))
      as [r|] eqn:Hrec; [|discriminate].
    unfold recordOf in Hrec. apply find_some in Hrec as [Hr Hp].
    apply (recordOf_found _ _ _ (update aid status r)).
    + apply in_map. exact Hr.
    + rewrite ofPair_update. exact Hp.
  - apply (recordOf_found _ _ _ (created now rnd found classItem status w)).
    + apply in_or_app. right. left. reflexivity.
    + unfold ofPair, created. cbn. rewrite !eqb_refl. reflexivity.
Qed.

(** The runs of one window are those of [after]. *)
Lemma one_window (today : jsstring) (actions : list Action) :
  afterEvents weekdayOf localeCompare today (List.map (InWindow 0) actions)
  = {| shared := storage (after weekdayOf localeCompare today actions);
       pages := [page (after weekdayOf localeCompare today actions)] |}.
Proof.
  unfold afterEvents, after, opened, initial, mount.
  set (w := {| storage := ∅;
               page := loadAttendanceData weekdayOf localeCompare today ∅ |}).
  change (∅ : localStorage) with (storage w) at 1.
  change (loadAttendanceData weekdayOf localeCompare today ∅)
    with (page w) at 1.
  clearbody w. revert w.
  induction actions as [|a actions IH]; intros w; [reflexivity|].
  cbn [List.map fold_left]. rewrite <- IH. f_equal.
  unfold occur, windowOf. cbn [nth_error option_map shared pages].
  destruct w; reflexivity.
Qed.

(** C2, as the code has it.  In every state the user can reach in one
    window, where the page is loaded again after each write, no pair
    (scheduleEntryId, date) has more than one record.  And when a class
    shown on the page is marked, and then a class of the same schedule
    entry is marked again on the reloaded page, the pair has exactly one
    record afterwards, with the status of the last call. *)
Theorem one_record_per_pair (today : jsstring) (actions : list Action) :
  let w := after weekdayOf localeCompare today actions in
  (forall scheduleEntryId date,
     (length (recordsOfPair scheduleEntryId date w) <= 1)%nat)
  /\ forall classItem again first last now1 rnd1 now2 rnd2,
       In classItem (todayClasses (page w)) ->
       subjectOf classItem w <> None ->
       let w1 := fst (mark now1 rnd1 classItem first w) in
       In again (todayClasses (page w1)) ->
       id again = id classItem ->
       subjectOf again w1 <> None ->
       let w2 := fst (mark now2 rnd2 again last w1) in
       exists r,
         recordsOfPair (id classItem) (selectedDate (page w)) w2 = [r]
         /\ AttendanceRecord.status r = last.
Proof.
  intros w. pose proof (consistent_after today actions) as Hw. fold w in Hw.
  split.
  { intros e d. apply at_most_one_of_pair, Hw. }
  intros classItem again first last now1 rnd1 now2 rnd2 Hin Hfound w1
    Hagain Hid Hfound2 w2.
  pose proof (consistent_mark now1 rnd1 classItem first w Hw Hin) as Hw1.
  fold w1 in Hw1.
  destruct (marked_has_record now1 rnd1 classItem first w Hw Hin Hfound)
    as [Hdate [r1 Hr1]].
  fold w1 in Hdate, Hr1.
  assert (Haid : attendanceId again = Some (AttendanceRecord.id r1)).
  { destruct Hw1 as [Hpage _]. rewrite Hpage in Hagain.
    apply shown_class in Hagain as [cls [_ ->]].
    cbn [attendanceId withStatus id] in *.
    rewrite Hdate, Hid. unfold recordsIn in Hr1. rewrite Hr1. reflexivity. }
  assert (Htruthy : truthy (AttendanceRecord.id r1) = true).
  { destruct Hw1 as [_ [Hids _]]. rewrite Forall_forall in Hids.
    apply Hids, list_elem_of_In. unfold recordOf in Hr1.
    apply find_some in Hr1 as [Hr1 _]. exact Hr1. }
  subst w2.
  destruct (mark_cases now2 rnd2 again last w1)
    as [[Hnone _]|[[aid [_ [Haid' [_ ->]]]]|[found [_ [Hno _]]]]].
  - contradiction.
  - rewrite Haid in Haid'. injection Haid' as <-.
    unfold recordsOfPair, mount; cbn [storage].
    rewrite getAttendanceRecords_save, filter_ofPair_update, <- Hdate.
    rewrite (the_one_of_pair _ _ _ r1); [|apply Hw1|rewrite Hdate; exact Hr1].
    exists (update (AttendanceRecord.id r1) last r1). split; [reflexivity|].
    unfold update. rewrite eqb_refl. reflexivity.
  - rewrite Haid in Hno. cbn in Hno. congruence.
Qed.

(** C5, as the code has it.  In every state, whatever the page and the
    store hold, marking a class whose subject name is the name of none of
    the subjects the page has loaded ends with the error toast "Subject not
    found" and leaves the page and the store, hence the attendance records,
    exactly as they were.  In every state the user can reach in one window
    the page has loaded the stored subjects, and the call fails so when no
    stored subject has the name. *)
Theorem mark_without_subject (w : World) (classItem : ClassWithStatus)
  (status : Status) (now : nat) (rnd : jsstring) :
  (subjectOf classItem w = None ->
   mark now rnd classItem status w = (w, subjectNotFound)
   /\ getAttendanceRecords (storage (fst (mark now rnd classItem status w)))
      = getAttendanceRecords (storage w)
   /\ variant (snd (mark now rnd classItem status w))
      = Some (js "destructive"))
  /\ forall today actions,
       w = after weekdayOf localeCompare today actions ->
       subjects (page w) = getSubjects (storage w)
       /\ failsWithoutStoredSubject weekdayOf localeCompare now rnd classItem
            status w.
Proof.
  assert (Hfails : subjectOf classItem w = None ->
                   mark now rnd classItem status w = (w, subjectNotFound)).
  { unfold subjectOf, markAttendance. intros ->. reflexivity. }
  split.
  - intros Hnone. rewrite (Hfails Hnone). repeat split.
  - intros today actions ->.
    pose proof (consistent_after today actions) as [Hpage _].
    set (w := after weekdayOf localeCompare today actions) in *.
    assert (Hsubjects : subjects (page w) = getSubjects (storage w))
      by (rewrite Hpage; reflexivity).
    split; [exact Hsubjects|].
    intros Hnone. rewrite Hfails; [repeat split|].
    unfold subjectOf. rewrite Hsubjects. exact Hnone.
Qed.

(** ** Records are kept *)

Lemma sameButStatus_refl r : sameButStatus r r.
Proof. repeat split. Qed.

Lemma sameButStatus_update aid status r : sameButStatus r (update aid status r).
Proof. unfold update. destruct (JS.eqb _ aid); repeat split. Qed.

Lemma kept_refl records : kept records records.
Proof. intros i r Hr. exists r. split; [exact Hr|apply sameButStatus_refl]. Qed.

Lemma kept_trans a b c : kept a b -> kept b c -> kept a c.
Proof.
  intros Hab Hbc i r Hr.
  destruct (Hab i r Hr) as [r' [Hr' [E1 [E2 [E3 E4]]]]].
  destruct (Hbc i r' Hr') as [r'' [Hr'' [F1 [F2 [F3 F4]]]]].
  exists r''. split; [exact Hr''|]. repeat split; congruence.
Qed.

Lemma kept_update aid status records :
  kept records (List.map (update aid status) records).
Proof.
  intros i r Hr. exists (update aid status r).
  split; [apply map_nth_error, Hr|apply sameButStatus_update].
Qed.

Lemma kept_app records new : kept records (records ++ new).
Proof.
  intros i r Hr. exists r. split; [|apply sameButStatus_refl].
  rewrite nth_error_app1; [exact Hr|].
  apply nth_error_Some. congruence.
Qed.

Lemma kept_mark now rnd classItem status w :
  kept (recordsIn w) (recordsIn (fst (mark now rnd classItem status w))).
Proof.
  destruct (mark_cases now rnd classItem status w)
    as [[_ ->]|[[aid [_ [_ [_ ->]]]]|[found [_ [_ ->]]]]];
    [apply kept_refl|..];
    unfold recordsIn at 2, mount; cbn [storage];
    rewrite getAttendanceRecords_save.
  - apply kept_update.
  - apply kept_app.
Qed.

Lemma kept_perform w action :
  isClearAllData action = false ->
  kept (recordsIn w) (recordsIn (does w action)).
Proof.
  destruct action as [index status now rnd|date|timetable today
                     |subjects today|today|granted scheduled enabled today];
    cbn [perform isClearAllData]; intros Hno; try discriminate.
  - destruct (nth_error (todayClasses (page w)) index) as [classItem|];
      [apply kept_mark|apply kept_refl].
  - apply kept_refl.
  - written. apply kept_refl.
  - written. apply kept_refl.
  - written. apply kept_refl.
Qed.

Lemma kept_fold w actions :
  forallb (fun a => negb (isClearAllData a)) actions = true ->
  kept (recordsIn w) (recordsIn (fold_left does actions w)).
Proof.
  revert w. induction actions as [|a actions IH]; intros w Hno; simpl in *;
    [apply kept_refl|].
  apply andb_true_iff in Hno as [Ha Hno]. apply negb_true_iff in Ha.
  eapply kept_trans; [apply kept_perform, Ha|apply IH, Hno].
Qed.

Lemma kept_pair records records' e d :
  kept records records' ->
  List.filter (ofPair e d) records <> [] ->
  List.filter (ofPair e d) records' <> [].
Proof.
  intros Hkept Hsome.
  destruct (List.filter (ofPair e d) records) as [|r l] eqn:Hf;
    [contradiction|].
  assert (Hr : In r (List.filter (ofPair e d) records))
    by (rewrite Hf; left; reflexivity).
  apply filter_In in Hr as [Hin Hp].
  apply In_nth_error in Hin as [i Hi].
  destruct (Hkept i r Hi) as [r' [Hi' [_ [_ [Ed Ee]]]]].
  assert (Hr' : In r' (List.filter (ofPair e d) records')).
  { apply filter_In. split; [eapply nth_error_In, Hi'|].
    unfold ofPair in *. rewrite Ed, Ee. exact Hp. }
  intros Hnil. rewrite Hnil in Hr'. destruct Hr'.
Qed.

(** C9.  A call of [markAttendance] keeps every stored record, with at most
    its status changed; so over any sequence of actions without
    [clearAllData], every record stays, and a pair that has a record keeps
    having one. *)
Theorem marked_stays_marked (w : World) (actions : list Action) :
  forallb (fun a => negb (isClearAllData a)) actions = true ->
  (forall now rnd classItem status,
     kept (recordsIn w) (recordsIn (fst (mark now rnd classItem status w))))
  /\ kept (recordsIn w) (recordsIn (fold_left does actions w))
  /\ forall scheduleEntryId date,
       recordsOfPair scheduleEntryId date w <> [] ->
       recordsOfPair scheduleEntryId date (fold_left does actions w) <> [].
Proof.
  intros Hno. split; [|split].
  - intros now rnd classItem status. apply kept_mark.
  - apply kept_fold, Hno.
  - intros e d. apply kept_pair, kept_fold, Hno.
Qed.

(** C10.  A call of [markAttendance] changes no key of the store but the
    one of the attendance records, so the timetable and the subjects stay
    as they were; and when the class comes with an attendance id, the
    records keep their number and their places, a record with another id is
    unchanged, and a record with that id changes in its status only. *)
Theorem mark_frame (now : nat) (rnd : jsstring) (classItem : ClassWithStatus)
  (status : Status) (w : World) :
  let w' := fst (mark now rnd classItem status w) in
  (forall key, key <> STORAGE_KEYS.ATTENDANCE ->
     storage w' !! key = storage w !! key)
  /\ getTimetable (storage w') = getTimetable (storage w)
  /\ getSubjects (storage w') = getSubjects (storage w)
  /\ forall aid,
       attendanceId classItem = Some aid -> truthy aid = true ->
       length (recordsIn w') = length (recordsIn w)
       /\ forall i r, nth_error (recordsIn w) i = Some r ->
            exists r', nth_error (recordsIn w') i = Some r'
              /\ sameButStatus r r'
              /\ (AttendanceRecord.id r <> aid -> r' = r)
              /\ (AttendanceRecord.id r = aid ->
                  subjectOf classItem w <> None ->
                  AttendanceRecord.status r' = status).
Proof.
  intros w'. subst w'.
  destruct (mark_cases now rnd classItem status w)
    as [[Hnone ->]|[[aid [Hsome [Haid [Ht ->]]]]|[found [_ [Hno ->]]]]].
  - split; [|split; [|split]]; try reflexivity.
    intros aid0 _ _. split; [reflexivity|].
    intros i r Hr. exists r.
    split; [exact Hr|]. split; [apply sameButStatus_refl|].
    split; [reflexivity|contradiction].
  - unfold mount, recordsIn; cbn [storage].
    rewrite getTimetable_saveAttendanceRecords,
      getSubjects_saveAttendanceRecords, getAttendanceRecords_save.
    split; [|split; [|split]]; try reflexivity.
    + intros key Hkey. unfold saveAttendanceRecords.
      rewrite lookup_insert_ne; [reflexivity|congruence].
    + intros aid0 Haid0 _. rewrite Haid in Haid0. injection Haid0 as <-.
      split; [apply length_map|].
      intros i r Hr. exists (update aid status r).
      split; [apply map_nth_error, Hr|].
      split; [apply sameButStatus_update|].
      unfold update. split.
      * intros Hne. apply eqb_neq in Hne. rewrite Hne. reflexivity.
      * intros <- _. rewrite eqb_refl. reflexivity.
  - unfold mount, recordsIn; cbn [storage].
    rewrite getTimetable_saveAttendanceRecords,
      getSubjects_saveAttendanceRecords.
    split; [|split; [|split]]; try reflexivity.
    + intros key Hkey. unfold saveAttendanceRecords.
      rewrite lookup_insert_ne; [reflexivity|congruence].
    + intros aid0 Haid0 Ht0. rewrite Haid0 in Hno. cbn in Hno. congruence.
Qed.

End Marked.

(* ================================================================== *)
(** * The theorems on marking, at the example *)
(* ================================================================== *)

Section AtTheExample.

Import AttendancePage Marking Example.

Abbreviation markIt := (markAttendance alwaysMonday compareUnits).
Abbreviation perform' := (perform alwaysMonday compareUnits).

(** Marked present, then absent: one record, absent. *)
Lemma one_record_per_pair_example :
  let w := after alwaysMonday compareUnits monday uploaded in
  let w1 := fst (markIt 1%nat (js "a") unmarked present w) in
  let w2 := fst (markIt 2%nat (js "b") markedPresent absent w1) in
  exists r,
    recordsOfPair (id unmarked) (selectedDate (page w)) w2 = [r]
    /\ AttendanceRecord.status r = absent.
Proof.
  intros w w1 w2.
  apply (proj2 (one_record_per_pair alwaysMonday compareUnits monday uploaded)
           unmarked markedPresent present absent 1%nat (js "a") 2%nat
           (js "b")).
  - vm_compute. left. reflexivity.
  - vm_compute. discriminate.
  - vm_compute. left. reflexivity.
  - reflexivity.
  - vm_compute. discriminate.
Defined.

(** With a second window, marked present in the one and absent in the
    other: two records of the pair. *)
Lemma second_window_second_record :
  ~ atMostOnePerPair
      (getAttendanceRecords
         (shared (afterEvents alwaysMonday compareUnits monday twoWindows))).
Proof.
  intros H. specialize (H (js "monday-09:00-0-x") monday).
  vm_compute in H. lia.
Qed.

(** Chemistry is no subject the page has loaded: nothing is written. *)
Lemma mark_without_subject_example :
  let w := after alwaysMonday compareUnits monday uploaded in
  markIt 1%nat (js "a") stray present w = (w, subjectNotFound).
Proof.
  intros w.
  apply (proj1 (mark_without_subject alwaysMonday compareUnits w stray
                  present 1%nat (js "a"))).
  vm_compute. reflexivity.
Defined.

(** The subjects are replaced in another window: the class is marked
    although no stored subject has its name, and a record is written. *)
Lemma stale_page_marks_without_stored_subject :
  exists w,
    windowOf (afterEvents alwaysMonday compareUnits monday subjectsGone) 1
    = Some w
    /\ ~ failsWithoutStoredSubject alwaysMonday compareUnits 1%nat (js "a")
           unmarked present w.
Proof.
  eexists. split; [reflexivity|].
  intros H. destruct H as [H _]; [vm_compute; reflexivity|].
  vm_compute in H. discriminate H.
Qed.

(** The record of Monday 09:00 survives a second mark and a change of
    date. *)
Lemma marked_stays_marked_example :
  let w := after alwaysMonday compareUnits monday
             (uploaded ++ [Mark 0 present 1 (js "a")]) in
  recordsOfPair (js "monday-09:00-0-x") monday
    (fold_left perform'
       [Mark 0 absent 2 (js "b"); SelectDate (js "2025-01-13");
        Mark 0 present 3 (js "c")] w) <> [].
Proof.
  intros w.
  apply (marked_stays_marked alwaysMonday compareUnits w
           [Mark 0 absent 2 (js "b"); SelectDate (js "2025-01-13");
            Mark 0 present 3 (js "c")]).
  - vm_compute. reflexivity.
  - vm_compute. discriminate.
Defined.

(** Marking the class absent once it is present keeps the one record in
    its place, with its id. *)
Lemma mark_frame_example :
  let w := after alwaysMonday compareUnits monday
             (uploaded ++ [Mark 0 present 1 (js "a")]) in
  let w' := fst (markIt 2%nat (js "b") markedPresent absent w) in
  length (recordsIn w') = length (recordsIn w).
Proof.
  intros w w'.
  apply (proj2 (proj2 (proj2
           (mark_frame alwaysMonday compareUnits 2%nat (js "b") markedPresent
              absent w))) (js "attendance-1-a")).
  - reflexivity.
  - vm_compute. reflexivity.
Defined.

End AtTheExample.

(* ================================================================== *)
(** * More on the store *)
(* ================================================================== *)

Section Store.

(** X1.  Each collection reads back as it was saved, a save leaves the two
    other collections and every other key as they were, the last save of a
    collection is the one that counts, and a collection that was never
    saved reads as the empty list. *)
Theorem storage_round_trip (ls : localStorage) (subjects : list Subject.t)
  (timetable : list TimetableEntry.t) (records : list AttendanceRecord.t) :
  (getSubjects (saveSubjects subjects ls) = subjects
   /\ getTimetable (saveTimetable timetable ls) = timetable
   /\ getAttendanceRecords (saveAttendanceRecords records ls) = records)
  /\ (forall key, key <> STORAGE_KEYS.SUBJECTS ->
        saveSubjects subjects ls !! key = ls !! key)
  /\ (forall key, key <> STORAGE_KEYS.TIMETABLE ->
        saveTimetable timetable ls !! key = ls !! key)
  /\ (forall key, key <> STORAGE_KEYS.ATTENDANCE ->
        saveAttendanceRecords records ls !! key = ls !! key)
  /\ (getTimetable (saveSubjects subjects ls) = getTimetable ls
      /\ getAttendanceRecords (saveSubjects subjects ls)
         = getAttendanceRecords ls
      /\ getSubjects (saveTimetable timetable ls) = getSubjects ls
      /\ getAttendanceRecords (saveTimetable timetable ls)
         = getAttendanceRecords ls
      /\ getSubjects (saveAttendanceRecords records ls) = getSubjects ls
      /\ getTimetable (saveAttendanceRecords records ls) = getTimetable ls)
  /\ (forall older, saveSubjects subjects (saveSubjects older ls)
                    = saveSubjects subjects ls)
  /\ (forall older, saveTimetable timetable (saveTimetable older ls)
                    = saveTimetable timetable ls)
  /\ (forall older,
        saveAttendanceRecords records (saveAttendanceRecords older ls)
        = saveAttendanceRecords records ls)
  /\ (getSubjects ∅ = [] /\ getTimetable ∅ = []
      /\ getAttendanceRecords ∅ = []).
Proof.
  unfold getSubjects, getTimetable, getAttendanceRecords, saveSubjects,
    saveTimetable, saveAttendanceRecords.
  repeat split;
    try (rewrite lookup_insert_eq; reflexivity);
    try (rewrite lookup_insert_ne; [reflexivity|discriminate]);
    try (intros key Hkey; rewrite lookup_insert_ne; [reflexivity|congruence]);
    try (intros older; apply insert_insert_eq).
Qed.

Lemma clearAllData_insert key value (ls : localStorage) :
  key ∈ STORAGE_KEYS.values ->
  clearAllData (<[key := value]> ls) = clearAllData ls.
Proof.
  intros Hkey. apply map_eq. intros k. rewrite !clearAllData_lookup.
  case_bool_decide as Hk; [reflexivity|].
  rewrite lookup_insert_ne; [reflexivity|]. intros ->. contradiction.
Qed.

(** X2.  [clearAllData] forgets whatever was saved in the three
    collections: clearing after a save gives the store that clearing
    without the save gives; and clearing twice is clearing once. *)
Theorem clearAllData_forgets_saves (ls : localStorage)
  (subjects : list Subject.t) (timetable : list TimetableEntry.t)
  (records : list AttendanceRecord.t) :
  clearAllData (saveSubjects subjects ls) = clearAllData ls
  /\ clearAllData (saveTimetable timetable ls) = clearAllData ls
  /\ clearAllData (saveAttendanceRecords records ls) = clearAllData ls
  /\ clearAllData (clearAllData ls) = clearAllData ls.
Proof.
  unfold saveSubjects, saveTimetable, saveAttendanceRecords.
  repeat split;
    try (apply clearAllData_insert; unfold STORAGE_KEYS.values; set_solver).
  apply map_eq. intros k. rewrite !clearAllData_lookup.
  case_bool_decide; reflexivity.
Qed.

End Store.

(* ================================================================== *)
(** * More on the statistics *)
(* ================================================================== *)

Section Counts.

Import AttendanceStats.

(** X3.  In both statistics no count is negative, the attended and the
    missed classes are each at most the total, and together they are the
    total. *)
Theorem counts_add_up (ls : localStorage) (subjectId : jsstring) :
  let overall := calculateAttendanceStats ls in
  let bySubject := getSubjectAttendance subjectId ls in
  (0 <= attendedClasses overall <= totalClasses overall
   /\ 0 <= missedClasses overall <= totalClasses overall
   /\ attendedClasses overall + missedClasses overall = totalClasses overall)
  /\ (0 <= attendedClasses bySubject <= totalClasses bySubject
      /\ 0 <= missedClasses bySubject <= totalClasses bySubject
      /\ attendedClasses bySubject + missedClasses bySubject
         = totalClasses bySubject)
  /\ totalClasses bySubject <= totalClasses overall
  /\ attendedClasses bySubject <= attendedClasses overall.
Proof.
  intros overall bySubject. subst overall bySubject.
  rewrite calculateAttendanceStats_statsOf, getSubjectAttendance_statsOf.
  pose proof (attended_le_total (getAttendanceRecords ls)) as Ho.
  pose proof (attended_le_total
    (List.filter (Spec.ofSubject subjectId) (getAttendanceRecords ls))) as Hs.
  assert (Hm : forall records,
    missedClasses (statsOf records)
    = totalClasses (statsOf records) - attendedClasses (statsOf records))
    by reflexivity.
  rewrite !Hm.
  assert (Ht : totalClasses (statsOf (List.filter (Spec.ofSubject subjectId)
                 (getAttendanceRecords ls)))
               <= totalClasses (statsOf (getAttendanceRecords ls))).
  { unfold statsOf. cbn [totalClasses].
    pose proof (filter_length_le (Spec.ofSubject subjectId)
                  (getAttendanceRecords ls)). lia. }
  assert (Ha : attendedClasses (statsOf (List.filter
                 (Spec.ofSubject subjectId) (getAttendanceRecords ls)))
               <= attendedClasses (statsOf (getAttendanceRecords ls))).
  { unfold statsOf. cbn [attendedClasses].
    rewrite filter_filter_and, !length_filter_numberOf.
    generalize (getAttendanceRecords ls). intros records.
    induction records as [|r records IH]; simpl; [lia|].
    destruct (Spec.ofSubject subjectId r), (Status_eqb _ present); simpl; lia. }
  repeat split; lia.
Qed.

Lemma one_id_matches (x : jsstring) (ids : list jsstring) :
  NoDup ids -> In x ids ->
  sumOver ids (fun id => if JS.eqb x id then 1 else 0) = 1.
Proof.
  unfold sumOver. induction ids as [|y ids IH]; simpl; [tauto|].
  intros Hnd Hin. apply NoDup_cons in Hnd as [Hy Hnd].
  destruct (JS.eqb x y) eqn:E.
  - apply eqb_eq in E. subst y.
    assert (Hz : fold_right Z.add 0
              (List.map (fun id => if JS.eqb x id then 1 else 0) ids) = 0).
    { clear IH Hnd Hin. induction ids as [|z ids IH]; simpl; [reflexivity|].
      destruct (JS.eqb x z) eqn:Ez.
      - apply eqb_eq in Ez. subst z. exfalso. apply Hy. left.
      - rewrite IH; [reflexivity|]. intros H. apply Hy. right. exact H. }
    rewrite Hz. reflexivity.
  - destruct Hin as [->|Hin]; [rewrite eqb_refl in E; discriminate|].
    rewrite IH; auto.
Qed.

Lemma no_id_matches (x : jsstring) (ids : list jsstring) :
  sumOver ids (fun _ => 0) = 0.
Proof. unfold sumOver. induction ids; simpl; lia. Qed.

Lemma sumOver_add ids f g :
  sumOver ids (fun id => f id + g id) = sumOver ids f + sumOver ids g.
Proof. unfold sumOver. induction ids; simpl; lia. Qed.

Lemma sumOver_opp ids f :
  sumOver ids (fun id => - f id) = - sumOver ids f.
Proof. unfold sumOver. induction ids; simpl; lia. Qed.

Lemma sumOver_ext ids f g :
  (forall id, f id = g id) -> sumOver ids f = sumOver ids g.
Proof.
  intros H. unfold sumOver. induction ids; simpl; [reflexivity|].
  rewrite H. congruence.
Qed.

Lemma numberOf_by_subject (q : AttendanceRecord.t -> bool) ids records :
  NoDup ids ->
  (forall r, In r records -> In (AttendanceRecord.subjectId r) ids) ->
  sumOver ids
    (fun id => Spec.numberOf (fun r => Spec.ofSubject id r && q r) records)
  = Spec.numberOf q records.
Proof.
  intros Hnd. induction records as [|r records IH]; intros Hin; simpl.
  - apply (no_id_matches []).
  - rewrite sumOver_add, IH by (intros; apply Hin; right; assumption).
    f_equal. destruct (q r).
    + rewrite (sumOver_ext ids _
        (fun id => if JS.eqb (AttendanceRecord.subjectId r) id
                   then 1 else 0)).
      * apply one_id_matches; [exact Hnd|]. apply Hin. left. reflexivity.
      * intros id. unfold Spec.ofSubject. rewrite andb_true_r. reflexivity.
    + rewrite (sumOver_ext ids _ (fun _ => 0)).
      * apply (no_id_matches []).
      * intros id. rewrite andb_false_r. reflexivity.
Qed.

(** X4.  Over distinct subject ids that cover the subject of every stored
    record, the totals, the attended and the missed classes of the
    subjects add up to those of the overall statistics. *)
Theorem subject_counts_sum_to_overall (ls : localStorage)
  (ids : list jsstring) :
  NoDup ids ->
  (forall r, In r (getAttendanceRecords ls) ->
             In (AttendanceRecord.subjectId r) ids) ->
  sumOver ids (fun id => totalClasses (getSubjectAttendance id ls))
  = totalClasses (calculateAttendanceStats ls)
  /\ sumOver ids (fun id => attendedClasses (getSubjectAttendance id ls))
     = attendedClasses (calculateAttendanceStats ls)
  /\ sumOver ids (fun id => missedClasses (getSubjectAttendance id ls))
     = missedClasses (calculateAttendanceStats ls).
Proof.
  intros Hnd Hin.
  assert (Ht : sumOver ids
                 (fun id => totalClasses (getSubjectAttendance id ls))
               = totalClasses (calculateAttendanceStats ls)).
  { rewrite calculateAttendanceStats_statsOf.
    unfold statsOf at 1. cbn [totalClasses].
    rewrite <- numberOf_all,
      <- (numberOf_by_subject (fun _ => true) ids _ Hnd Hin).
    apply sumOver_ext. intros id. rewrite getSubjectAttendance_statsOf.
    unfold statsOf. cbn [totalClasses].
    rewrite length_filter_numberOf. clear.
    induction (getAttendanceRecords ls) as [|r l IH]; simpl; [reflexivity|].
    rewrite andb_true_r, IH. reflexivity. }
  assert (Ha : sumOver ids
                 (fun id => attendedClasses (getSubjectAttendance id ls))
               = attendedClasses (calculateAttendanceStats ls)).
  { rewrite calculateAttendanceStats_statsOf.
    unfold statsOf at 1. cbn [attendedClasses].
    rewrite length_filter_numberOf,
      <- (numberOf_by_subject _ ids _ Hnd Hin).
    apply sumOver_ext. intros id. rewrite getSubjectAttendance_statsOf.
    unfold statsOf. cbn [attendedClasses].
    rewrite filter_filter_and, length_filter_numberOf. reflexivity. }
  repeat split; [exact Ht|exact Ha|].
  rewrite <- sumOver_ext
    with (f := fun id => totalClasses (getSubjectAttendance id ls)
                         + - attendedClasses (getSubjectAttendance id ls))
    by (intros id; reflexivity).
  rewrite sumOver_add, Ht.
  rewrite sumOver_opp, Ha. reflexivity.
Qed.

End Counts.

(* ================================================================== *)
(** * More on the attendance page *)
(* ================================================================== *)

Section Shown.

Import AttendancePage Marking.

Variable weekdayOf : jsstring -> jsstring.
Variable localeCompare : jsstring -> jsstring -> Z.

Abbreviation load := (loadAttendanceData weekdayOf localeCompare).
Abbreviation mark := (markAttendance weekdayOf localeCompare).
Abbreviation mounted := (mount weekdayOf localeCompare).

Lemma insertSorted_map {A B} (f : B -> B -> Z) (g : A -> B) x l :
  insertSorted f (g x) (List.map g l)
  = List.map g (insertSorted (fun a b => f (g a) (g b)) x l).
Proof.
  induction l as [|y l IH]; simpl; [reflexivity|].
  destruct (f (g x) (g y) <=? 0); simpl; [reflexivity|]. rewrite IH.
  reflexivity.
Qed.

Lemma sort_map {A B} (f : B -> B -> Z) (g : A -> B) l :
  sort f (List.map g l) = List.map g (sort (fun a b => f (g a) (g b)) l).
Proof.
  induction l as [|x l IH]; simpl; [reflexivity|].
  rewrite IH. apply insertSorted_map.
Qed.

Lemma length_insertSorted {A} (f : A -> A -> Z) x l :
  length (insertSorted f x l) = S (length l).
Proof.
  induction l as [|y l IH]; simpl; [reflexivity|].
  destruct (f x y <=? 0); simpl; [reflexivity|]. rewrite IH. reflexivity.
Qed.

Lemma length_sort {A} (f : A -> A -> Z) l : length (sort f l) = length l.
Proof.
  induction l as [|x l IH]; simpl; [reflexivity|].
  rewrite length_insertSorted, IH. reflexivity.
Qed.

Lemma shown_are_day_classes date (ls : localStorage) :
  todayClasses (load date ls)
  = List.map (withStatus (getAttendanceRecords ls) date)
      (TimetablePage.getDayClasses localeCompare (getTimetable ls)
         (weekdayOf date)).
Proof.
  unfold loadAttendanceData, TimetablePage.getDayClasses. cbn [todayClasses].
  rewrite (sort_map (fun a b => localeCompare (time a) (time b))
             (withStatus (getAttendanceRecords ls) date)).
  reflexivity.
Qed.

Lemma shown_ids date (ls : localStorage) :
  List.map id (todayClasses (load date ls))
  = List.map TimetableEntry.id
      (TimetablePage.getDayClasses localeCompare (getTimetable ls)
         (weekdayOf date)).
Proof. rewrite shown_are_day_classes, List.map_map. reflexivity. Qed.

Lemma counts_partition (classes : list ClassWithStatus) :
  let '(nPresent, nAbsent, nPending) := DaySummary.counts classes in
  (nPresent + nAbsent + nPending)%nat = length classes.
Proof.
  unfold DaySummary.counts.
  induction classes as [|c classes IH]; simpl; [reflexivity|].
  destruct (status c) as [[|]|]; simpl; lia.
Qed.

Lemma find_none_filter {A} (p : A -> bool) l :
  List.find p l = None <-> List.filter p l = [].
Proof.
  induction l as [|x l IH]; simpl; [tauto|].
  destruct (p x); [split; discriminate|exact IH].
Qed.

(** X5.  For a date, the attendance page lists the classes the timetable
    page lists for the weekday of that date, in the same order, each with
    the status and the id of the stored record of (class, date); a class
    is shown as pending exactly when no such record is stored; and the
    numbers of present, absent and pending classes of the summary add up
    to the number of classes listed. *)
Theorem attendance_page_lists_day_classes (date : jsstring)
  (ls : localStorage) :
  let shown := todayClasses (load date ls) in
  let dayClasses :=
    TimetablePage.getDayClasses localeCompare (getTimetable ls)
      (weekdayOf date) in
  shown = List.map (withStatus (getAttendanceRecords ls) date) dayClasses
  /\ List.map id shown = List.map TimetableEntry.id dayClasses
  /\ (forall classItem, In classItem shown ->
        (status classItem = None
         <-> List.filter (ofPair (id classItem) date)
               (getAttendanceRecords ls) = [])
        /\ (status classItem = None <-> attendanceId classItem = None))
  /\ (let '(nPresent, nAbsent, nPending) := DaySummary.counts shown in
      (nPresent + nAbsent + nPending)%nat = length shown).
Proof.
  intros shown dayClasses.
  assert (E : shown
              = List.map (withStatus (getAttendanceRecords ls) date) dayClasses)
    by apply shown_are_day_classes.
  split; [exact E|]. split; [|split].
  - apply shown_ids.
  - intros classItem Hin. rewrite E in Hin.
    apply in_map_iff in Hin as [cls [<- _]].
    cbn [status attendanceId withStatus id].
    rewrite <- find_none_filter. unfold recordOf. fold (ofPair
      (TimetableEntry.id cls) date).
    destruct (List.find _ (getAttendanceRecords ls)); cbn;
      repeat split; congruence.
  - apply counts_partition.
Qed.

(** ** What a mark changes *)

Lemma find_map_update e d aid status records :
  List.find (ofPair e d) (List.map (update aid status) records)
  = option_map (update aid status) (List.find (ofPair e d) records).
Proof.
  induction records as [|r records IH]; simpl; [reflexivity|].
  rewrite ofPair_update. destruct (ofPair e d r); [reflexivity|exact IH].
Qed.

Lemma find_app_last {A} (p : A -> bool) l x :
  List.find p l = None -> p x = true -> List.find p (l ++ [x]) = Some x.
Proof.
  induction l as [|y l IH]; simpl; intros Hnone Hx.
  - rewrite Hx. reflexivity.
  - destruct (p y); [discriminate|]. apply IH; assumption.
Qed.

(** After a call that found the subject, the record of the pair of the
    class has the status given. *)
Lemma marked_record now rnd classItem status w :
  consistent weekdayOf localeCompare w ->
  In classItem (todayClasses (page w)) ->
  subjectOf classItem w <> None ->
  let w' := fst (mark now rnd classItem status w) in
  exists r,
    recordOf (recordsIn w') (selectedDate (page w)) (id classItem) = Some r
    /\ AttendanceRecord.status r = status.
Proof.
  intros Hw Hin Hfound.
  pose proof (shown_without_id weekdayOf localeCompare w classItem Hw Hin)
    as Hfresh.
  destruct Hw as [Hpage _]. rewrite Hpage in Hin.
  apply shown_class in Hin as [cls [_ E]].
  destruct (mark_cases weekdayOf localeCompare now rnd classItem status w)
    as [[Hnone _]|[[aid [_ [Haid [Ht ->]]]]|[found [_ [Hno ->]]]]];
    [contradiction|..];
    unfold recordsIn, mount; cbn [storage]; rewrite getAttendanceRecords_save.
  - unfold recordOf. fold (ofPair (id classItem) (selectedDate (page w))).
    rewrite find_map_update. subst classItem.
    cbn [attendanceId withStatus id] in *.
    unfold recordOf in Haid.
    fold (ofPair (TimetableEntry.id cls) (selectedDate (page w))) in Haid.
    destruct (List.find _ (getAttendanceRecords (storage w))) as [r0|];
      [|discriminate].
    cbn in Haid. injection Haid as <-. cbn [option_map].
    exists (update (AttendanceRecord.id r0) status r0).
    split; [reflexivity|]. unfold update. rewrite eqb_refl. reflexivity.
  - exists (created now rnd found classItem status w).
    split; [|reflexivity].
    apply find_app_last.
    + specialize (Hfresh Hno). unfold recordsIn in Hfresh.
      destruct (List.find _ (getAttendanceRecords (storage w))) as [r|] eqn:Hf;
        [|reflexivity].
      exfalso. apply Hfresh. apply find_some in Hf as [Hr Hp].
      apply in_map_iff. exists r. split; [|exact Hr].
      apply (ofPair_pairOf (id classItem) (selectedDate (page w))).
      exact Hp.
    + cbn. rewrite !eqb_refl. reflexivity.
Qed.

(** X6.  From a page that is up to date, which shows what
    [loadAttendanceData] gives for its date on a store where every record
    has an id and no pair has two, as it is in every state of one window:
    after a class shown on the page is marked and its subject is found, the
    reloaded page lists the same classes in the same order, and every class
    of that schedule entry is shown with the status just given and with an
    attendance id. *)
Theorem mark_shows_status (w : World) (classItem : ClassWithStatus)
  (status : Status) (now : nat) (rnd : jsstring) :
  consistent weekdayOf localeCompare w ->
  In classItem (todayClasses (page w)) ->
  subjectOf classItem w <> None ->
  let w' := fst (mark now rnd classItem status w) in
  List.map id (todayClasses (page w')) = List.map id (todayClasses (page w))
  /\ forall shown, In shown (todayClasses (page w')) ->
       id shown = id classItem ->
       AttendancePage.status shown = Some status
       /\ hasAttendanceId (attendanceId shown) = true.
Proof.
  intros Hw Hin Hfound w'.
  pose proof (consistent_mark weekdayOf localeCompare now rnd classItem
                status w Hw Hin) as Hw'. fold w' in Hw'.
  destruct (marked_record now rnd classItem status w Hw Hin Hfound)
    as [r [Hr Hstatus]]. fold w' in Hr.
  destruct (marked_has_record weekdayOf localeCompare now rnd classItem
              status w Hw Hin Hfound) as [Hdate _]. fold w' in Hdate.
  assert (Htt : getTimetable (storage w') = getTimetable (storage w)).
  { subst w'.
    destruct (mark_cases weekdayOf localeCompare now rnd classItem status w)
      as [[_ ->]|[[aid [_ [_ [_ ->]]]]|[found [_ [_ ->]]]]];
      [reflexivity|..]; unfold mount; cbn [storage];
      apply getTimetable_saveAttendanceRecords. }
  destruct Hw as [Hpage _]. destruct Hw' as [Hpage' [Hids' _]].
  split.
  - rewrite Hpage', Hpage, Hdate, !shown_ids, Htt. reflexivity.
  - intros shown Hshown Hid. rewrite Hpage' in Hshown.
    apply shown_class in Hshown as [cls [_ ->]].
    cbn [AttendancePage.status attendanceId withStatus id] in *.
    rewrite Hdate, Hid. unfold recordsIn in Hr. rewrite Hr. cbn.
    split; [congruence|].
    rewrite Forall_forall in Hids'. apply Hids', list_elem_of_In.
    unfold recordOf in Hr. apply find_some in Hr as [Hr _]. exact Hr.
Qed.

End Shown.

Section MarkCounts.

Import AttendancePage Marking AttendanceStats.

Variable weekdayOf : jsstring -> jsstring.
Variable localeCompare : jsstring -> jsstring -> Z.

Abbreviation mark := (markAttendance weekdayOf localeCompare).

Lemma total_statsOf records :
  totalClasses (statsOf records) = Z.of_nat (length records).
Proof. reflexivity. Qed.

Lemma attended_statsOf records :
  attendedClasses (statsOf records)
  = Z.of_nat (length (List.filter Spec.isPresent records)).
Proof. reflexivity. Qed.

(** X7.  A call of [markAttendance] that finds the subject of a class
    without attendance id raises the total of the overall statistics and
    the total of the subject found by exactly one, and the attended classes
    by one if the class is marked present and by none if absent; every
    other call leaves the total as it was. *)
Theorem mark_counts (now : nat) (rnd : jsstring)
  (classItem : ClassWithStatus) (status : Status) (w : World) :
  let w' := fst (mark now rnd classItem status w) in
  let creates :=
    match subjectOf classItem w with
    | Some _ => negb (hasAttendanceId (attendanceId classItem))
    | None => false
    end in
  let before := calculateAttendanceStats (storage w) in
  let after := calculateAttendanceStats (storage w') in
  totalClasses after = totalClasses before + (if creates then 1 else 0)
  /\ (creates = true ->
      attendedClasses after
      = attendedClasses before + (if Status_eqb status present then 1 else 0))
  /\ (creates = true -> forall found, subjectOf classItem w = Some found ->
      totalClasses (getSubjectAttendance (Subject.id found) (storage w'))
      = totalClasses (getSubjectAttendance (Subject.id found) (storage w))
        + 1).
Proof.
  intros w' creates before after. subst w' creates before after.
  rewrite !calculateAttendanceStats_statsOf.
  destruct (mark_cases weekdayOf localeCompare now rnd classItem status w)
    as [[Hnone ->]|[[aid [Hsome [Haid [Ht ->]]]]|[found [Hfound [Hno ->]]]]].
  - rewrite Hnone. repeat split; try discriminate. lia.
  - unfold mount; cbn [storage]. rewrite getAttendanceRecords_save.
    destruct (subjectOf classItem w); [|contradiction].
    rewrite Haid. cbn [hasAttendanceId]. rewrite Ht. cbn [negb].
    repeat split; try discriminate.
    rewrite !total_statsOf. unfold recordsIn. rewrite length_map. lia.
  - unfold mount; cbn [storage]. rewrite getAttendanceRecords_save.
    rewrite Hfound, Hno. cbn [negb]. unfold recordsIn.
    split; [|split].
    + rewrite !total_statsOf, length_app. simpl length. lia.
    + intros _. rewrite !attended_statsOf, List.filter_app, length_app.
      cbn [List.filter]. unfold Spec.isPresent at 2, created.
      cbn [AttendanceRecord.status].
      destruct (Status_eqb status present); simpl length; lia.
    + intros _ found' [= <-].
      rewrite !getSubjectAttendance_statsOf, getAttendanceRecords_save.
      rewrite !total_statsOf, List.filter_app, length_app.
      cbn [List.filter]. unfold Spec.ofSubject at 2, created.
      cbn [AttendanceRecord.subjectId].
      rewrite eqb_refl. simpl length. lia.
Qed.

End MarkCounts.

(* ================================================================== *)
(** * The Upload page *)
(* ================================================================== *)

Section Upload.

Import ExcelParser UploadPage.



Lemma existsb_eqb_In (x : jsstring) (l : list jsstring) :
  existsb (JS.eqb x) l = true <-> In x l.
Proof.
  rewrite existsb_exists. split.
  - intros [y [Hy E]]. apply eqb_eq in E. congruence.
  - intros H. exists x. split; [exact H|apply eqb_refl].
Qed.

Lemma In_uniqueFrom (x : jsstring) seen l :
  In x (uniqueFrom seen l) <-> In x l /\ ~ In x seen.
Proof.
  revert seen. induction l as [|y l IH]; intros seen; simpl; [tauto|].
  destruct (existsb (JS.eqb y) seen) eqn:E.
  - apply existsb_eqb_In in E. rewrite IH. split; [tauto|].
    intros [[->|H] Hn]; tauto.
  - assert (Hy : ~ In y seen).
    { intros H. apply existsb_eqb_In in H. congruence. }
    simpl. rewrite IH. simpl. split.
    + intros [->|[H Hn]]; tauto.
    + intros [[->|H] Hn]; [tauto|].
      destruct (decide (y = x)) as [->|Hne]; [tauto|]. right.
      tauto.
Qed.


Lemma names_subjectsFrom index names :
  List.map Subject.name (subjectsFrom index names) = names.
Proof.
  revert index. induction names as [|n names IH]; intros index; simpl;
    [reflexivity|]. rewrite IH. reflexivity.
Qed.




Lemma getSubjects_confirmTimetable parsedData (ls : localStorage) :
  getSubjects (confirmTimetable parsedData ls)
  = subjectsFrom 0 (unique (List.map subject parsedData)).
Proof.
  unfold confirmTimetable, getSubjects, saveSubjects.
  rewrite lookup_insert_eq, List.map_map. reflexivity.
Qed.

Lemma getTimetable_confirmTimetable parsedData (ls : localStorage) :
  getTimetable (confirmTimetable parsedData ls)
  = List.map
      (fun entry =>
         TimetableEntry.mk (id entry) (day entry) (time entry)
           (subject entry) (room entry) None)
      parsedData.
Proof.
  unfold confirmTimetable, getTimetable, saveSubjects, saveTimetable.
  rewrite lookup_insert_ne by discriminate.
  rewrite lookup_insert_eq. reflexivity.
Qed.

Lemma confirmTimetable_subject_names parsedData (ls : localStorage) name :
  In name (List.map TimetableEntry.subject
             (getTimetable (confirmTimetable parsedData ls))) ->
  In name (List.map Subject.name
             (getSubjects (confirmTimetable parsedData ls))).
Proof.
  rewrite getSubjects_confirmTimetable, getTimetable_confirmTimetable,
    names_subjectsFrom, List.map_map.
  unfold unique. rewrite In_uniqueFrom. simpl. tauto.
Qed.


Lemma parse_success_nonempty random file :
  success (parseExcelTimetable random file) = true ->
  data (parseExcelTimetable random file) <> [].
Proof.
  unfold parseExcelTimetable. destruct file as [message|rawData];
    [discriminate|].
  destruct (Nat.ltb _ 3); [discriminate|].
  destruct (Nat.eqb (length (dayColumnsOf _)) 0); [discriminate|].
  destruct (Nat.eqb (length (processRows _ _ _ _)) 0) eqn:E; [discriminate|].
  cbn [data]. intros _ Hnil. rewrite Hnil in E. discriminate.
Qed.

Lemma parse_failure_message random file :
  success (parseExcelTimetable random file) = false ->
  join [10%N] (errors (parseExcelTimetable random file))
  <> noEntriesAfterProcessing.
Proof.
  unfold parseExcelTimetable. destruct file as [message|rawData].
  - intros _. cbn. discriminate.
  - destruct (Nat.ltb _ 3); [intros _; cbn; discriminate|].
    destruct (Nat.eqb (length (dayColumnsOf _)) 0);
      [intros _; cbn; discriminate|].
    destruct (Nat.eqb (length (processRows _ _ _ _)) 0);
      [intros _; cbn; discriminate|discriminate].
Qed.

(** X9.  [handleFileProcessing] shows a preview exactly when the name of
    the file ends with [.xlsx] or [.xls] and the parser succeeds, and the
    preview then holds the entries of the parser, of which there is at
    least one.  A file of another name is refused for its name alone,
    whatever it holds; an Excel file the parser fails on is refused with
    the errors of the parser; and the error "No valid timetable entries
    found after processing" is never shown. *)
Theorem handleFileProcessing_outcomes (random : nat -> jsstring)
  (name : jsstring) (file : SheetRead) :
  let excel := endsWith name (js ".xlsx") || endsWith name (js ".xls") in
  let parseResult := parseExcelTimetable random file in
  match handleFileProcessing random name file with
  | Previewed parsedData parseWarnings =>
      excel = true /\ success parseResult = true
      /\ parsedData = data parseResult /\ parsedData <> []
      /\ parseWarnings = warnings parseResult
  | Refused message =>
      message <> noEntriesAfterProcessing
      /\ (excel = true ->
          success parseResult = false
          /\ message = join [10%N] (errors parseResult))
      /\ (excel = false ->
          message = (if endsWith name (js ".csv") then csvNotSupported
                     else unsupportedFormat))
  end.
Proof.
  intros excel parseResult. unfold handleFileProcessing.
  fold excel. fold parseResult. destruct excel.
  - destruct (success parseResult) eqn:Hs; cbn [negb].
    + pose proof (parse_success_nonempty random file Hs) as Hne.
      fold parseResult in Hne.
      destruct (data parseResult) as [|e l] eqn:Hd; [contradiction|].
      cbn. repeat split. discriminate.
    + pose proof (parse_failure_message random file Hs) as Hm.
      repeat split; [exact Hm|discriminate].
  - destruct (endsWith name (js ".csv"));
      repeat split; try discriminate; cbn; discriminate.
Qed.

End Upload.

(* ================================================================== *)
(** * The pages together *)
(* ================================================================== *)

Section Pages.

Import AttendancePage Marking.

Variable weekdayOf : jsstring -> jsstring.
Variable localeCompare : jsstring -> jsstring -> Z.

Abbreviation mark := (markAttendance weekdayOf localeCompare).
Abbreviation mounted := (mount weekdayOf localeCompare).

Lemma mounted_class today (ls : localStorage) classItem :
  In classItem (todayClasses (page (mounted today ls))) ->
  exists cls, In cls (getTimetable ls)
    /\ id classItem = TimetableEntry.id cls
    /\ subject classItem = TimetableEntry.subject cls.
Proof.
  unfold mount. cbn [page]. intros Hin.
  apply shown_class in Hin as [cls [Hcls ->]].
  exists cls. repeat split. exact Hcls.
Qed.

Lemma find_name_found (name : jsstring) (subjects : list Subject.t) :
  In name (List.map Subject.name subjects) ->
  List.find (fun s => JS.eqb (Subject.name s) name) subjects <> None.
Proof.
  intros Hin Hnone. apply in_map_iff in Hin as [s [E Hs]].
  apply (find_none _ _ Hnone) in Hs. cbn in Hs.
  rewrite E, eqb_refl in Hs. discriminate.
Qed.

Lemma find_name_missing (name : jsstring) (subjects : list Subject.t) :
  (forall s, In s subjects -> Subject.name s <> name) ->
  List.find (fun s => JS.eqb (Subject.name s) name) subjects = None.
Proof.
  intros Hall.
  destruct (List.find _ subjects) as [s|] eqn:Hf; [|reflexivity].
  apply find_some in Hf as [Hs E]. apply eqb_eq in E.
  exfalso. exact (Hall s Hs E).
Qed.

Lemma mark_not_found now rnd classItem status today (ls : localStorage) :
  List.find (fun s => JS.eqb (Subject.name s) (subject classItem))
    (getSubjects ls) = None ->
  mark now rnd classItem status (mounted today ls)
  = (mounted today ls, subjectNotFound).
Proof.
  intros Hnone. unfold markAttendance, mount.
  cbn [page subjects loadAttendanceData]. rewrite Hnone. reflexivity.
Qed.

(** X10.  Right after [confirmTimetable], every class the attendance page
    shows has a stored subject of its name: marking it never ends with
    "Subject not found", and it leaves a record of the class and the
    date. *)
Theorem confirmed_classes_can_be_marked
  (parsedData : list ExcelParser.ParsedTimetableEntry) (ls : localStorage)
  (today : jsstring) (classItem : ClassWithStatus) (status : Status)
  (now : nat) (rnd : jsstring) :
  let w := mounted today (UploadPage.confirmTimetable parsedData ls) in
  In classItem (todayClasses (page w)) ->
  subjectOf classItem w <> None
  /\ variant (snd (mark now rnd classItem status w)) = None
  /\ recordsOfPair (id classItem) today
       (fst (mark now rnd classItem status w)) <> [].
Proof.
  intros w Hin.
  assert (Hfound : subjectOf classItem w <> None).
  { apply mounted_class in Hin as [cls [Hcls [_ Hsub]]].
    unfold subjectOf, w, mount. cbn [page subjects loadAttendanceData].
    apply find_name_found.
    apply (confirmTimetable_subject_names parsedData ls).
    rewrite Hsub. apply in_map. exact Hcls. }
  split; [exact Hfound|]. split.
  - unfold markAttendance. unfold subjectOf in Hfound.
    destruct (List.find _ (subjects (page w))); [reflexivity|contradiction].
  - destruct (mark_cases weekdayOf localeCompare now rnd classItem status w)
      as [[Hnone _]|[[aid [_ [Haid [_ ->]]]]|[found [_ [_ ->]]]]];
      [contradiction|..]; unfold recordsOfPair, mount; cbn [storage];
      rewrite getAttendanceRecords_save.
    + unfold w, mount in Hin. cbn [page] in Hin.
      apply shown_class in Hin as [cls [_ ->]].
      cbn [attendanceId withStatus id] in *.
      unfold w, mount, recordsIn. cbn [storage].
      rewrite filter_ofPair_update.
      unfold recordOf in Haid.
      destruct (List.find _ _) as [r|] eqn:Hf; [|discriminate].
      apply find_some in Hf as [Hr Hp].
      intros Hnil. apply map_eq_nil in Hnil.
      assert (Hr' : In r (List.filter (ofPair (TimetableEntry.id cls) today)
                            (getAttendanceRecords
                               (UploadPage.confirmTimetable parsedData ls))))
        by (apply filter_In; split; assumption).
      rewrite Hnil in Hr'. destruct Hr'.
    + rewrite List.filter_app. cbn [List.filter].
      unfold ofPair at 2, created. cbn. rewrite !eqb_refl. cbn.
      intros Hnil. apply app_eq_nil in Hnil as [_ Hnil]. discriminate.
Qed.

End Pages.

Section Edits.

Import AttendancePage Marking.

Variable weekdayOf : jsstring -> jsstring.
Variable localeCompare : jsstring -> jsstring -> Z.

Abbreviation mark := (markAttendance weekdayOf localeCompare).
Abbreviation mounted := (mount weekdayOf localeCompare).

Lemma replaced_by_id (edited cls : TimetableEntry.t) timetable :
  In cls (List.map
            (fun entry =>
               if JS.eqb (TimetableEntry.id entry) (TimetableEntry.id edited)
               then edited else entry)
            timetable) ->
  TimetableEntry.id cls = TimetableEntry.id edited -> cls = edited.
Proof.
  intros Hin Hid. apply in_map_iff in Hin as [entry [E _]].
  destruct (JS.eqb (TimetableEntry.id entry) (TimetableEntry.id edited))
    eqn:Hb; [congruence|].
  apply eqb_neq in Hb. congruence.
Qed.

(** X11.  On the timetable page, [saveEdit] and [deleteEntry] write the
    timetable only: the subjects, the attendance records and both
    statistics stay as they were, so the records of a deleted class are
    still counted.  [saveEdit] keeps the number, the order and the ids of
    the entries; [deleteEntry] keeps exactly the entries of another id. *)
Theorem timetable_edits_keep_attendance (edited : TimetableEntry.t)
  (entryId : jsstring) (ls : localStorage) :
  let timetable := getTimetable ls in
  let saved := TimetablePage.saveEdit (Some edited) timetable ls in
  let deleted := TimetablePage.deleteEntry entryId timetable ls in
  (getAttendanceRecords (snd saved) = getAttendanceRecords ls
   /\ getSubjects (snd saved) = getSubjects ls
   /\ calculateAttendanceStats (snd saved) = calculateAttendanceStats ls
   /\ forall subjectId, getSubjectAttendance subjectId (snd saved)
                        = getSubjectAttendance subjectId ls)
  /\ (getAttendanceRecords (snd deleted) = getAttendanceRecords ls
      /\ getSubjects (snd deleted) = getSubjects ls
      /\ calculateAttendanceStats (snd deleted) = calculateAttendanceStats ls
      /\ forall subjectId, getSubjectAttendance subjectId (snd deleted)
                           = getSubjectAttendance subjectId ls)
  /\ (getTimetable (snd saved) = fst saved
      /\ List.map TimetableEntry.id (fst saved)
         = List.map TimetableEntry.id timetable)
  /\ (getTimetable (snd deleted) = fst deleted
      /\ forall entry, In entry (fst deleted)
           <-> In entry timetable /\ TimetableEntry.id entry <> entryId).
Proof.
  intros timetable saved deleted. subst saved deleted.
  unfold TimetablePage.saveEdit, TimetablePage.deleteEntry. cbn [fst snd].
  assert (Hframe : forall t,
    getAttendanceRecords (saveTimetable t ls) = getAttendanceRecords ls
    /\ getSubjects (saveTimetable t ls) = getSubjects ls
    /\ calculateAttendanceStats (saveTimetable t ls)
       = calculateAttendanceStats ls
    /\ forall subjectId, getSubjectAttendance subjectId (saveTimetable t ls)
                         = getSubjectAttendance subjectId ls).
  { intros t.
    assert (Ha : getAttendanceRecords (saveTimetable t ls)
                 = getAttendanceRecords ls)
      by apply getAttendanceRecords_saveTimetable.
    repeat split.
    - exact Ha.
    - unfold getSubjects, saveTimetable.
      rewrite lookup_insert_ne; [reflexivity|discriminate].
    - rewrite !calculateAttendanceStats_statsOf, Ha. reflexivity.
    - intros subjectId. rewrite !getSubjectAttendance_statsOf, Ha.
      reflexivity. }
  split; [apply Hframe|]. split; [apply Hframe|].
  assert (Hget : forall t, getTimetable (saveTimetable t ls) = t).
  { intros t. unfold getTimetable, saveTimetable.
    rewrite lookup_insert_eq. reflexivity. }
  rewrite !Hget. repeat split.
  - rewrite List.map_map. apply List.map_ext. intros entry.
    destruct (JS.eqb _ (TimetableEntry.id edited)) eqn:E; [|reflexivity].
    apply eqb_eq in E. congruence.
  - apply filter_In in H as [H _]. exact H.
  - apply filter_In in H as [_ H]. apply negb_true_iff, eqb_neq in H. exact H.
  - intros [Hin Hne]. apply filter_In. split; [exact Hin|].
    apply negb_true_iff, eqb_neq. exact Hne.
Qed.

(** X12.  When the subject name of an entry is changed on the timetable
    page to a name that no stored subject has, marking the class of that
    entry on the attendance page ends with "Subject not found" and writes
    nothing: [saveEdit] of the timetable does not touch the subjects. *)
Theorem renamed_entry_cannot_be_marked (edited : TimetableEntry.t)
  (ls : localStorage) (today : jsstring) (classItem : ClassWithStatus)
  (status : Status) (now : nat) (rnd : jsstring) :
  let saved := snd (TimetablePage.saveEdit (Some edited) (getTimetable ls) ls) in
  let w := mounted today saved in
  In classItem (todayClasses (page w)) ->
  id classItem = TimetableEntry.id edited ->
  (forall s, In s (getSubjects ls) ->
             Subject.name s <> TimetableEntry.subject edited) ->
  mark now rnd classItem status w = (w, subjectNotFound).
Proof.
  intros saved w Hin Hid Hnone.
  apply mounted_class in Hin as [cls [Hcls [Eid Esub]]].
  assert (Hsubjects : getSubjects saved = getSubjects ls).
  { unfold saved, TimetablePage.saveEdit. cbn [snd].
    unfold getSubjects, saveTimetable.
    rewrite lookup_insert_ne; [reflexivity|discriminate]. }
  assert (Hedited : cls = edited).
  { unfold saved, TimetablePage.saveEdit in Hcls. cbn [snd] in Hcls.
    unfold getTimetable at 1, saveTimetable in Hcls.
    rewrite lookup_insert_eq in Hcls.
    apply (replaced_by_id edited cls _ Hcls). congruence. }
  apply mark_not_found. rewrite Hsubjects, Esub, Hedited.
  apply find_name_missing. exact Hnone.
Qed.

(** X13.  When a subject is given another name on the subjects page, a
    class that bears a name only that subject had can no longer be marked:
    marking it ends with "Subject not found" and writes nothing, since
    [saveEdit] of the subjects does not touch the timetable. *)
Theorem renamed_subject_cannot_be_marked (edited : Subject.t)
  (ls : localStorage) (today : jsstring) (classItem : ClassWithStatus)
  (status : Status) (now : nat) (rnd : jsstring) :
  let saved :=
    snd (SubjectsList.saveEdit (Some edited) (SubjectsPage.loadSubjects ls)
           ls) in
  let w := mounted today saved in
  Subject.name edited <> subject classItem ->
  (forall s, In s (getSubjects ls) ->
             Subject.name s = subject classItem ->
             Subject.id s = Subject.id edited) ->
  mark now rnd classItem status w = (w, subjectNotFound)
  /\ getTimetable saved = getTimetable ls.
Proof.
  intros saved w Hname Honly. split.
  - apply mark_not_found. apply find_name_missing.
    intros s Hs. unfold saved, SubjectsList.saveEdit in Hs. cbn [snd] in Hs.
    unfold getSubjects at 1, saveSubjects in Hs.
    rewrite lookup_insert_eq in Hs.
    apply in_map_iff in Hs as [loaded [E Hloaded]].
    destruct (JS.eqb (Subject.id loaded) (Subject.id edited)) eqn:Hb;
      [congruence|].
    apply eqb_neq in Hb. subst s.
    unfold SubjectsPage.loadSubjects in Hloaded.
    apply in_map_iff in Hloaded as [stored [<- Hstored]].
    cbn [Subject.name Subject.id] in *.
    intros En. apply Hb. apply Honly; assumption.
  - unfold saved, SubjectsList.saveEdit. cbn [snd].
    unfold getTimetable, saveSubjects.
    rewrite lookup_insert_ne; [reflexivity|discriminate].
Qed.

End Edits.

(* ================================================================== *)
(** * The Subjects page *)
(* ================================================================== *)

Section SubjectsShown.

Import SubjectsPage SubjectsList.

Lemma byPercentage_le a b :
  (byPercentage a b <=? 0) = true -> lowerFirst a b.
Proof.
  unfold byPercentage, lowerFirst. intros H.
  destruct (Qcompare_spec (Subject.attendancePercentage a)
              (Subject.attendancePercentage b)) as [E|E|E].
  - rewrite E. apply Qle_refl.
  - apply Qlt_le_weak, E.
  - discriminate H.
Qed.

Lemma byPercentage_gt a b :
  (byPercentage a b <=? 0) = false -> lowerFirst b a.
Proof.
  unfold byPercentage, lowerFirst. intros H.
  destruct (Qcompare_spec (Subject.attendancePercentage a)
              (Subject.attendancePercentage b)) as [E|E|E].
  - discriminate H.
  - discriminate H.
  - apply Qlt_le_weak, E.
Qed.

Lemma Permutation_insertSorted {A} (f : A -> A -> Z) x l :
  Permutation (x :: l) (AttendancePage.insertSorted f x l).
Proof.
  induction l as [|y l IH]; simpl; [reflexivity|].
  destruct (f x y <=? 0); [reflexivity|].
  rewrite <- IH. apply perm_swap.
Qed.

Lemma Permutation_sort {A} (f : A -> A -> Z) l :
  Permutation l (AttendancePage.sort f l).
Proof.
  induction l as [|x l IH]; simpl; [reflexivity|].
  rewrite <- Permutation_insertSorted. constructor. exact IH.
Qed.

Lemma sorted_insertSorted x l :
  StronglySorted lowerFirst l ->
  StronglySorted lowerFirst (AttendancePage.insertSorted byPercentage x l).
Proof.
  induction l as [|y l IH]; simpl; intros Hs.
  - constructor; constructor.
  - apply StronglySorted_inv in Hs as [Hl Hy].
    destruct (byPercentage x y <=? 0) eqn:E.
    + apply byPercentage_le in E. constructor.
      * constructor; assumption.
      * constructor; [exact E|].
        rewrite Forall_forall in *. intros z Hz.
        unfold lowerFirst in *. eapply Qle_trans; [exact E|apply Hy, Hz].
    + apply byPercentage_gt in E. constructor; [apply IH, Hl|].
      rewrite Forall_forall in *. intros z Hz.
      apply list_elem_of_In in Hz.
      apply (Permutation_in _
               (Permutation_sym (Permutation_insertSorted byPercentage x l)))
        in Hz.
      destruct Hz as [<-|Hz]; [exact E|]. apply Hy, list_elem_of_In, Hz.
Qed.

(** X14.  The subjects page lists the subjects it loaded, each once, from
    the lowest attendance percentage to the highest. *)
Theorem sortedSubjects_lowest_first (subjects : list Subject.t) :
  Permutation subjects (sortedSubjects subjects)
  /\ StronglySorted lowerFirst (sortedSubjects subjects).
Proof.
  split; [apply Permutation_sort|].
  unfold sortedSubjects. induction subjects as [|s subjects IH]; simpl.
  - constructor.
  - apply sorted_insertSorted, IH.
Qed.

Lemma loaded_subject (ls : localStorage) subject :
  In subject (loadSubjects ls) ->
  exists records,
    (length records <= length (getAttendanceRecords ls))%nat
    /\ Subject.totalClasses subject
       = AttendanceStats.totalClasses (statsOf records)
    /\ Subject.attendedClasses subject
       = AttendanceStats.attendedClasses (statsOf records)
    /\ Subject.attendancePercentage subject
       = AttendanceStats.attendancePercentage (statsOf records).
Proof.
  unfold loadSubjects. intros Hin.
  apply in_map_iff in Hin as [stored [<- _]].
  rewrite getSubjectAttendance_statsOf. eexists.
  split; [apply filter_length_le|]. repeat split.
Qed.

(** X15.  The stored records being an array, fewer than 2^32: for a
    subject as the subjects page loads it, some further class is required
    exactly when the subject has classes and its percentage, the rounded
    Number, is below 75; the status is "good" exactly when it has classes
    and none is required; and never more classes are required than the
    subject has. *)
Theorem required_iff_below_target (ls : localStorage) (subject : Subject.t) :
  Z.of_nat (length (getAttendanceRecords ls)) < 2 ^ 32 ->
  In subject (loadSubjects ls) ->
  (0 < calculateRequiredClasses subject
   <-> Subject.totalClasses subject <> 0
       /\ (Subject.attendancePercentage subject < 75)%Q)
  /\ (fst (getAttendanceStatus (Subject.attendancePercentage subject))
      = js "good"
      <-> Subject.totalClasses subject <> 0
          /\ calculateRequiredClasses subject = 0)
  /\ 0 <= calculateRequiredClasses subject <= Subject.totalClasses subject.
Proof.
  intros Harray Hin.
  apply loaded_subject in Hin as [records [Hlen [Et [Ea Ep]]]].
  pose proof (attended_le_total records) as Hb.
  unfold calculateRequiredClasses, getAttendanceStatus.
  rewrite Ep, Et, Ea. clear Et Ea Ep.
  unfold statsOf in *.
  cbn [AttendanceStats.totalClasses AttendanceStats.attendedClasses
       AttendanceStats.attendancePercentage] in *.
  assert (Hsmall : Z.of_nat (length records) < 2 ^ 32) by lia.
  set (t := Z.of_nat (length records)) in *.
  set (a := Z.of_nat (length (List.filter _ records))) in *.
  destruct (Z.eqb_spec t 0) as [E0|E0].
  - rewrite E0. cbn. split; [|split].
    + split; [lia|]. intros [H _]. contradiction.
    + split; [|intros [H _]; contradiction].
      intros H. vm_compute in H. discriminate H.
    + lia.
  - assert (Ht : 0 < t) by lia.
    destruct (Z.gtb_spec t 0) as [_|]; [|lia].
    rewrite ceiling_three_quarters.
    pose proof (Z.div_mod (75 * t + 99) 100 ltac:(lia)) as Hq.
    pose proof (Z.mod_pos_bound (75 * t + 99) 100 ltac:(lia)) as Hr.
    pose proof (below_75 a t Hb (conj Ht Hsmall)) as Hbelow.
    split; [|split].
    + rewrite Hbelow. split; [intros H; split; [exact E0|lia]|].
      intros [_ H]. lia.
    + destruct (Qle_bool 75
                  (Number.mul (Number.div (inject_Z a) (inject_Z t)) 100))
        eqn:Hg.
      * apply Qle_bool_iff in Hg. cbn [fst]. split; [|reflexivity].
        intros _. split; [exact E0|].
        assert (~ 100 * a < 75 * t)
          by (rewrite <- Hbelow; apply Qle_not_lt, Hg).
        lia.
      * assert (Hlt : (Number.mul (Number.div (inject_Z a) (inject_Z t))
                         100 < 75)%Q).
        { apply Qnot_le_lt. intros H. apply Qle_bool_iff in H. congruence. }
        apply Hbelow in Hlt. split.
        -- destruct (Qle_bool 60 _); cbn [fst]; intros H;
             vm_compute in H; discriminate H.
        -- intros [_ H]. lia.
    + lia.
Qed.

End SubjectsShown.

(* ================================================================== *)
(** * More on the extraction *)
(* ================================================================== *)

Section Trim.

Lemma noLead_trimStart s : noLead (trimStart s).
Proof.
  induction s as [|c s IH]; simpl; [exact I|].
  destruct (isWhiteSpace c) eqn:E; [exact IH|exact E].
Qed.

Lemma trimStart_noLead s : noLead s -> trimStart s = s.
Proof. destruct s as [|c s]; simpl; [reflexivity|]. intros ->. reflexivity. Qed.

Lemma trimStart_suffix s : exists ws, s = ws ++ trimStart s.
Proof.
  induction s as [|c s [ws IH]]; simpl; [exists []; reflexivity|].
  destruct (isWhiteSpace c).
  - exists (c :: ws). simpl. congruence.
  - exists []. reflexivity.
Qed.

Lemma trimEnd_prefix s : exists ws, s = trimEnd s ++ ws.
Proof.
  unfold trimEnd. destruct (trimStart_suffix (rev s)) as [ws E].
  exists (rev ws). rewrite <- rev_app_distr, <- E, rev_involutive.
  reflexivity.
Qed.

Lemma noLead_trimEnd s : noLead s -> noLead (trimEnd s).
Proof.
  intros H. destruct (trimEnd_prefix s) as [ws E].
  destruct (trimEnd s) as [|c t]; [exact I|].
  rewrite E in H. exact H.
Qed.

Lemma noLead_trim s : noLead (trim s) /\ noLead (rev (trim s)).
Proof.
  unfold trim. split.
  - apply noLead_trimEnd, noLead_trimStart.
  - unfold trimEnd. rewrite rev_involutive. apply noLead_trimStart.
Qed.

Lemma trim_trim s : trim (trim s) = trim s.
Proof.
  destruct (noLead_trim s) as [H1 H2].
  unfold trim at 1. rewrite (trimStart_noLead _ H1).
  unfold trimEnd. rewrite (trimStart_noLead _ H2). apply rev_involutive.
Qed.

End Trim.

Section Extracted.

Import ExcelParser.

Variable random : nat -> jsstring.

(** A cell adds no entry or one entry, of the day of its column and the
    time of its row. *)
Lemma processCell_cases timeValue rowIndex row entries dayCol :
  processCell random timeValue rowIndex row entries dayCol = entries
  \/ exists subject room,
       truthy subject = true
       /\ processCell random timeValue rowIndex row entries dayCol
          = entries
            ++ [ {| id := toLowerCase (fst dayCol) ++ js "-" ++ timeValue
                          ++ js "-" ++ ofNat rowIndex ++ js "-"
                          ++ random (length entries);
                    day := fst dayCol;
                    time := timeValue;
                    subject := subject;
                    room := room;
                    batch := None |} ].
Proof.
  unfold processCell.
  destruct (negb _ || _ || _ || _); [left; reflexivity|].
  destruct (extractSubjectAndRoom _) as [subject room].
  destruct (truthy subject) eqn:E; [|left; reflexivity].
  right. exists subject, room. split; [exact E|reflexivity].
Qed.

(** What holds of the entries when it holds of each new one. *)
Lemma processCells_Forall (P : ParsedTimetableEntry -> Prop) timeValue
  rowIndex row dayColumns entries :
  (forall subject room suffix dayCol,
     In dayCol dayColumns -> truthy subject = true ->
     P (mkEntry (toLowerCase (fst dayCol) ++ js "-" ++ timeValue ++ suffix)
          (fst dayCol) timeValue subject room None)) ->
  Forall P entries ->
  Forall P (fold_left (processCell random timeValue rowIndex row) dayColumns
              entries).
Proof.
  revert entries. induction dayColumns as [|dayCol dayColumns IH];
    intros entries Hnew Hentries; simpl; [exact Hentries|].
  apply IH; [intros; apply Hnew; [right|]; assumption|].
  destruct (processCell_cases timeValue rowIndex row entries dayCol)
    as [->|[subject [room [Hs ->]]]]; [exact Hentries|].
  apply Forall_app. split; [exact Hentries|].
  constructor; [|constructor].
  apply Hnew; [left; reflexivity|exact Hs].
Qed.

Lemma processRow_Forall (P : ParsedTimetableEntry -> Prop) timeColumn
  dayColumns entries indexedRow :
  (forall timeValue subject room suffix dayCol,
     In dayCol dayColumns ->
     truthy timeValue = true -> trim timeValue = timeValue ->
     truthy subject = true ->
     P (mkEntry (toLowerCase (fst dayCol) ++ js "-" ++ timeValue ++ suffix)
          (fst dayCol) timeValue subject room None)) ->
  Forall P entries ->
  Forall P (processRow random timeColumn dayColumns entries indexedRow).
Proof.
  intros Hnew Hentries. unfold processRow.
  destruct indexedRow as [rowIndex row].
  destruct (truthy (trim (orEmpty (nth_error row timeColumn)))) eqn:Ht;
    cbn [negb]; [|exact Hentries].
  apply processCells_Forall; [|exact Hentries].
  intros subject room suffix dayCol Hin Hs.
  apply Hnew; try assumption. apply trim_trim.
Qed.

Lemma processRows_Forall (P : ParsedTimetableEntry -> Prop) timeColumn
  dayColumns dataRows :
  (forall timeValue subject room suffix dayCol,
     In dayCol dayColumns ->
     truthy timeValue = true -> trim timeValue = timeValue ->
     truthy subject = true ->
     P (mkEntry (toLowerCase (fst dayCol) ++ js "-" ++ timeValue ++ suffix)
          (fst dayCol) timeValue subject room None)) ->
  Forall P (processRows random timeColumn dayColumns dataRows).
Proof.
  intros Hnew. unfold processRows.
  assert (H0 : Forall P []) by constructor. revert H0.
  generalize (@nil ParsedTimetableEntry).
  induction (indexed dataRows) as [|row rows IH]; intros entries Hentries;
    simpl; [exact Hentries|].
  apply IH, processRow_Forall; assumption.
Qed.

(** The entries of a result are those of [processRows], or none. *)
Lemma data_cases file :
  data (parseExcelTimetable random file) = []
  \/ exists rawData,
       file = Rows rawData
       /\ data (parseExcelTimetable random file)
          = processRows random (timeColumnOf (headersOf rawData))
              (dayColumnsOf (headersOf rawData)) (skipn 2 rawData).
Proof.
  unfold parseExcelTimetable. destruct file as [message|rawData];
    [left; reflexivity|].
  destruct (Nat.ltb _ 3); [left; reflexivity|].
  destruct (Nat.eqb (length (dayColumnsOf _)) 0); [left; reflexivity|].
  destruct (Nat.eqb (length (processRows _ _ _ _)) 0); [left; reflexivity|].
  right. exists rawData. split; reflexivity.
Qed.

(** ** The day columns *)

Lemma dayColumnsFrom_spec timeColumn index headers name i :
  In (name, i) (dayColumnsFrom timeColumn index headers) ->
  (index <= i < index + length headers)%nat
  /\ i <> timeColumn
  /\ exists header dayName,
       nth_error headers (i - index) = Some header
       /\ name = capitalise dayName
       /\ List.find
            (fun day => includes (toLowerCase header) day
                        || includes (toLowerCase header) (slice 0 3 day))
            dayNames = Some dayName.
Proof.
  revert index. induction headers as [|header headers IH]; intros index;
    cbn [dayColumnsFrom]; [intros []|].
  intros Hin.
  assert (Hrest : In (name, i) (dayColumnsFrom timeColumn (S index) headers)
                  -> (index <= i < index + length (header :: headers))%nat
                     /\ i <> timeColumn
                     /\ exists header0 dayName,
                          nth_error (header :: headers) (i - index)
                          = Some header0
                          /\ name = capitalise dayName
                          /\ List.find
                               (fun day =>
                                  includes (toLowerCase header0) day
                                  || includes (toLowerCase header0)
                                       (slice 0 3 day))
                               dayNames = Some dayName).
  { intros H. apply IH in H as [Hi [Hne [h [d [Hn Hd]]]]].
    split; [simpl length; lia|]. split; [exact Hne|].
    exists h, d. split; [|exact Hd].
    replace (i - index)%nat with (S (i - S index)) by lia. exact Hn. }
  destruct (Nat.eqb_spec index timeColumn) as [Heq|Hne]; [auto|].
  destruct (List.find _ dayNames) as [d|] eqn:Hfind; [|auto].
  destruct (truthy d); [|auto].
  destruct Hin as [[= <- <-]|Hin]; [|auto].
  split; [simpl length; lia|]. split; [exact Hne|].
  exists header, d. rewrite Nat.sub_diag. repeat split. exact Hfind.
Qed.

Lemma dayColumnsFrom_increasing timeColumn index headers :
  StronglySorted lt (List.map snd (dayColumnsFrom timeColumn index headers)).
Proof.
  revert index. induction headers as [|header headers IH]; intros index;
    cbn [dayColumnsFrom]; [constructor|].
  assert (Hcons : StronglySorted lt
            (index :: List.map snd
                        (dayColumnsFrom timeColumn (S index) headers))).
  { constructor; [apply IH|]. rewrite Forall_forall. intros i Hi.
    apply list_elem_of_In, in_map_iff in Hi as [[name j] [<- Hj]].
    apply dayColumnsFrom_spec in Hj as [Hj _]. cbn. lia. }
  destruct (Nat.eqb index timeColumn); [apply IH|].
  destruct (List.find _ dayNames) as [d|]; [|apply IH].
  destruct (truthy d); [exact Hcons|apply IH].
Qed.

Lemma dayColumn_name name index headers :
  In (name, index) (dayColumnsOf headers) -> In name weekdayNames.
Proof.
  intros Hin.
  apply dayColumnsFrom_spec in Hin as [_ [_ [header [d [_ [-> Hfind]]]]]].
  apply find_some in Hfind as [Hd _]. apply in_map, Hd.
Qed.

(** X16.  The day columns the parser finds are header cells other than the
    time column, in the order of the sheet, each once; each is named after
    a weekday, the first of Monday to Sunday whose name, or the first three
    letters of it, occurs in the cell in any case. *)
Theorem dayColumns_are_headers (headers : list jsstring) :
  let dayColumns := dayColumnsOf headers in
  StronglySorted lt (List.map snd dayColumns)
  /\ forall name index, In (name, index) dayColumns ->
       (index < length headers)%nat
       /\ index <> timeColumnOf headers
       /\ In name weekdayNames
       /\ exists header dayName,
            nth_error headers index = Some header
            /\ name = capitalise dayName
            /\ List.find
                 (fun day => includes (toLowerCase header) day
                             || includes (toLowerCase header) (slice 0 3 day))
                 dayNames = Some dayName.
Proof.
  intros dayColumns. split; [apply dayColumnsFrom_increasing|].
  intros name index Hin.
  pose proof (dayColumn_name name index headers Hin) as Hname.
  apply dayColumnsFrom_spec in Hin as [Hi [Hne [header [d [Hn Hd]]]]].
  rewrite Nat.sub_0_r in Hn.
  split; [lia|]. split; [exact Hne|]. split; [exact Hname|].
  exists header, d. split; [exact Hn|exact Hd].
Qed.

Lemma parsed_time_and_day (file : SheetRead) (entry : ParsedTimetableEntry) :
  In entry (data (parseExcelTimetable random file)) ->
  truthy (time entry) = true
  /\ trim (time entry) = time entry
  /\ In (day entry) weekdayNames.
Proof.
  intros Hin.
  destruct (data_cases file) as [E|[rawData [_ E]]]; rewrite E in Hin;
    [destruct Hin|].
  revert entry Hin. apply List.Forall_forall, processRows_Forall.
  intros timeValue subject room suffix [name index] Hcol Ht Htrim Hs.
  cbn. repeat split; try assumption.
  apply (dayColumn_name name index _ Hcol).
Qed.

(** X17.  Every entry the parser returns has a subject that is not empty,
    a time that is not empty and has no white space around it, the name of
    a weekday as its day and no batch; and its id is made of its day in
    small letters, its time, the index of its row and a random suffix. *)
Theorem parsed_entries_well_formed (file : SheetRead)
  (entry : ParsedTimetableEntry) :
  In entry (data (parseExcelTimetable random file)) ->
  truthy (subject entry) = true
  /\ truthy (time entry) = true
  /\ trim (time entry) = time entry
  /\ In (day entry) weekdayNames
  /\ batch entry = None
  /\ exists suffix,
       id entry = toLowerCase (day entry) ++ js "-" ++ time entry ++ suffix.
Proof.
  intros Hin.
  destruct (data_cases file) as [E|[rawData [_ E]]]; rewrite E in Hin;
    [destruct Hin|].
  revert entry Hin. apply List.Forall_forall, processRows_Forall.
  intros timeValue subject room suffix [name index] Hcol Ht Htrim Hs.
  cbn. repeat split; try assumption.
  - apply (dayColumn_name name index _ Hcol).
  - exists suffix. reflexivity.
Qed.

End Extracted.

Section Rerun.

Import ExcelParser.

Variables random random' : nat -> jsstring.

Lemma processCell_same timeValue rowIndex row entries entries' dayCol :
  List.map fieldsOf entries = List.map fieldsOf entries' ->
  List.map fieldsOf
    (processCell random timeValue rowIndex row entries dayCol)
  = List.map fieldsOf
      (processCell random' timeValue rowIndex row entries' dayCol).
Proof.
  intros Hsame. unfold processCell.
  destruct (negb _ || _ || _ || _); [exact Hsame|].
  destruct (extractSubjectAndRoom _) as [subject room].
  destruct (truthy subject); [|exact Hsame].
  rewrite !List.map_app, Hsame. reflexivity.
Qed.

Lemma processRow_same timeColumn dayColumns entries entries' indexedRow :
  List.map fieldsOf entries = List.map fieldsOf entries' ->
  List.map fieldsOf
    (processRow random timeColumn dayColumns entries indexedRow)
  = List.map fieldsOf
      (processRow random' timeColumn dayColumns entries' indexedRow).
Proof.
  unfold processRow. destruct indexedRow as [rowIndex row].
  destruct (negb _); [tauto|].
  revert entries entries'.
  induction dayColumns as [|dayCol dayColumns IH]; intros entries entries' H;
    simpl; [exact H|].
  apply IH, processCell_same, H.
Qed.

Lemma processRows_same timeColumn dayColumns dataRows :
  List.map fieldsOf (processRows random timeColumn dayColumns dataRows)
  = List.map fieldsOf (processRows random' timeColumn dayColumns dataRows).
Proof.
  unfold processRows.
  assert (H0 : List.map fieldsOf (@nil ParsedTimetableEntry)
               = List.map fieldsOf (@nil ParsedTimetableEntry))
    by reflexivity.
  revert H0.
  generalize (@nil ParsedTimetableEntry) at 1 3.
  generalize (@nil ParsedTimetableEntry).
  induction (indexed dataRows) as [|row rows IH]; intros entries' entries H;
    simpl; [exact H|].
  apply IH, processRow_same, H.
Qed.

(** X18.  Extraction does not depend on the random suffixes of the ids:
    two runs on the same file succeed or fail alike, with the same errors
    and warnings, and give entries of the same days, times, subjects and
    rooms in the same order. *)
Theorem extraction_same_but_ids (file : SheetRead) :
  let first := parseExcelTimetable random file in
  let second := parseExcelTimetable random' file in
  success first = success second
  /\ errors first = errors second
  /\ warnings first = warnings second
  /\ List.map fieldsOf (data first) = List.map fieldsOf (data second).
Proof.
  unfold parseExcelTimetable. destruct file as [message|rawData]; cbn zeta;
    [repeat split|].
  destruct (Nat.ltb _ 3); [repeat split|].
  destruct (Nat.eqb (length (dayColumnsOf _)) 0); [repeat split|].
  pose proof (processRows_same (timeColumnOf (headersOf rawData))
                (dayColumnsOf (headersOf rawData)) (skipn 2 rawData)) as Hsame.
  set (entries := processRows random _ _ _) in *.
  set (entries' := processRows random' _ _ _) in *.
  assert (Hlen : length entries = length entries').
  { rewrite <- (length_map fieldsOf entries), Hsame. apply length_map. }
  assert (Hsub : List.map subject entries = List.map subject entries').
  { change (List.map (fun e => snd (fst (fieldsOf e))) entries
            = List.map (fun e => snd (fst (fieldsOf e))) entries').
    rewrite <- !(List.map_map fieldsOf (fun f => snd (fst f))), Hsame.
    reflexivity. }
  rewrite Hlen, Hsub.
  destruct (Nat.eqb (length entries') 0); repeat split. exact Hsame.
Qed.

End Rerun.

Section Bounds.

Import ExcelParser.

Variable random : nat -> jsstring.

Lemma length_processCells timeValue rowIndex row dayColumns entries :
  (length (fold_left (processCell random timeValue rowIndex row) dayColumns
             entries)
   <= length entries + length dayColumns)%nat.
Proof.
  revert entries. induction dayColumns as [|dayCol dayColumns IH];
    intros entries; simpl; [lia|].
  specialize (IH (processCell random timeValue rowIndex row entries dayCol)).
  destruct (processCell_cases random timeValue rowIndex row entries dayCol)
    as [E|[subject [room [_ E]]]]; rewrite E in *.
  - lia.
  - rewrite length_app in IH. cbn [length] in IH. lia.
Qed.

Lemma length_processRows_from timeColumn dayColumns rows entries :
  (length (fold_left (processRow random timeColumn dayColumns) rows entries)
   <= length entries + length rows * length dayColumns)%nat.
Proof.
  revert entries. induction rows as [|[rowIndex row] rows IH];
    intros entries; cbn [fold_left length Nat.mul]; [lia|].
  specialize (IH (processRow random timeColumn dayColumns entries
                    (rowIndex, row))).
  assert (Hrow : (length (processRow random timeColumn dayColumns entries
                            (rowIndex, row))
                  <= length entries + length dayColumns)%nat).
  { unfold processRow. destruct (negb _); [lia|].
    apply length_processCells. }
  lia.
Qed.

Lemma length_dayColumnsFrom timeColumn index headers :
  (length (dayColumnsFrom timeColumn index headers)
   + (if Nat.leb index timeColumn && Nat.ltb timeColumn (index + length headers)
      then 1 else 0)
   <= length headers)%nat.
Proof.
  revert index. induction headers as [|header headers IH]; intros index;
    cbn [dayColumnsFrom length].
  - destruct (Nat.leb_spec index timeColumn),
      (Nat.ltb_spec timeColumn (index + 0)); simpl; lia.
  - specialize (IH (S index)).
    destruct (Nat.eqb_spec index timeColumn) as [->|Hne].
    + rewrite Nat.leb_refl.
      destruct (Nat.ltb_spec timeColumn (timeColumn + S (length headers)));
        [|lia].
      destruct (Nat.leb_spec (S timeColumn) timeColumn); [lia|].
      simpl in *. lia.
    + assert (Hlen : (length
               (match List.find
                   (fun day => includes (toLowerCase header) day
                      || includes (toLowerCase header) (slice 0 3 day))
                   dayNames with
                 | Some d =>
                     if truthy d
                     then (capitalise d, index)
                          :: dayColumnsFrom timeColumn (S index) headers
                     else dayColumnsFrom timeColumn (S index) headers
                 | None => dayColumnsFrom timeColumn (S index) headers
                 end)
               <= S (length (dayColumnsFrom timeColumn (S index) headers)))%nat).
      { destruct (List.find _ dayNames) as [d|]; [|lia].
        destruct (truthy d); simpl; lia. }
      destruct (Nat.leb_spec index timeColumn),
        (Nat.ltb_spec timeColumn (index + S (length headers))),
        (Nat.leb_spec (S index) timeColumn),
        (Nat.ltb_spec timeColumn (S index + length headers));
        simpl in *; lia.
Qed.

Lemma findIndex_bound f l i : findIndex f l = Some i -> (i < length l)%nat.
Proof.
  revert i. induction l as [|x l IH]; intros i; simpl; [discriminate|].
  destruct (f x); [intros [= <-]; lia|].
  destruct (findIndex f l) as [j|]; [|discriminate].
  intros [= <-]. specialize (IH j eq_refl). lia.
Qed.

Lemma timeColumnOf_bound headers :
  headers <> [] -> (timeColumnOf headers < length headers)%nat.
Proof.
  intros Hne. unfold timeColumnOf.
  destruct (findIndex _ headers) as [i|] eqn:E.
  - apply findIndex_bound in E. exact E.
  - destruct headers; [contradiction|simpl; lia].
Qed.

Lemma length_dayColumnsOf headers :
  (length (dayColumnsOf headers) <= length headers - 1)%nat.
Proof.
  unfold dayColumnsOf.
  pose proof (length_dayColumnsFrom (timeColumnOf headers) 0 headers) as H.
  destruct headers as [|h headers]; [simpl in *; lia|].
  pose proof (timeColumnOf_bound (h :: headers) ltac:(discriminate)) as Hb.
  destruct (Nat.ltb_spec (timeColumnOf (h :: headers))
              (0 + length (h :: headers))); [|simpl in *; lia].
  replace (Nat.leb 0 (timeColumnOf (h :: headers))) with true in H
    by (symmetry; apply Nat.leb_le; lia).
  cbn [andb] in H. lia.
Qed.

(** X19.  From a sheet, the parser returns at most one entry for each cell
    of a data row outside the time column: no more entries than the number
    of rows after the first two times the number of header cells but
    one. *)
Theorem parsed_entries_bound (rawData : list (list jsstring)) :
  (length (data (parseExcelTimetable random (Rows rawData)))
   <= (length rawData - 2) * (length (nth 1 rawData []) - 1))%nat.
Proof.
  destruct (data_cases random (Rows rawData)) as [->|[raw [[= <-] ->]]];
    [apply Nat.le_0_l|].
  unfold processRows.
  pose proof (length_processRows_from (timeColumnOf (headersOf rawData))
                (dayColumnsOf (headersOf rawData))
                (indexed (skipn 2 rawData)) []) as H.
  pose proof (length_dayColumnsOf (headersOf rawData)) as Hd.
  assert (Hi : length (indexed (skipn 2 rawData)) = (length rawData - 2)%nat).
  { unfold indexed. rewrite length_combine, length_seq, length_skipn. lia. }
  assert (Hh : length (headersOf rawData) = length (nth 1 rawData [])).
  { unfold headersOf. apply length_map. }
  rewrite Hi in H. rewrite Hh in Hd. cbn [length Nat.add] in H. nia.
Qed.

Lemma weekdayName_not_blank name : In name weekdayNames -> blank name = false.
Proof.
  intros Hin. vm_compute in Hin.
  repeat (destruct Hin as [<-|Hin]; [vm_compute; reflexivity|]).
  destruct Hin.
Qed.

(** X20.  [validateTimetableEntry] reports nothing exactly when the subject,
    the day and the time of the entry each have a character that is no
    white space, and otherwise one error for each that has none.  For an
    entry the parser returns it never reports the day or the time: it
    reports nothing, or the subject alone. *)
Theorem validateTimetableEntry_reports (file : SheetRead)
  (entry : ParsedTimetableEntry) :
  (validateTimetableEntry entry = []
   <-> blank (subject entry) = false /\ blank (day entry) = false
       /\ blank (time entry) = false)
  /\ length (validateTimetableEntry entry)
     = ((if blank (subject entry) then 1 else 0)
        + (if blank (day entry) then 1 else 0)
        + (if blank (time entry) then 1 else 0))%nat
  /\ (In entry (data (parseExcelTimetable random file)) ->
      blank (day entry) = false /\ blank (time entry) = false
      /\ (validateTimetableEntry entry = []
          \/ validateTimetableEntry entry = [js "Subject name is required"])).
Proof.
  split; [|split].
  - unfold validateTimetableEntry.
    destruct (blank (subject entry)), (blank (day entry)),
      (blank (time entry)); cbn [app]; split;
      try discriminate; try tauto; intros [? [? ?]]; discriminate.
  - unfold validateTimetableEntry.
    destruct (blank (subject entry)), (blank (day entry)),
      (blank (time entry)); reflexivity.
  - intros Hin.
    destruct (parsed_time_and_day random file entry Hin)
      as [Ht [Htrim Hday]].
    assert (Hd : blank (day entry) = false)
      by apply weekdayName_not_blank, Hday.
    assert (Htime : blank (time entry) = false).
    { unfold blank. rewrite Ht, Htrim. cbn [negb orb].
      destruct (time entry); [discriminate|reflexivity]. }
    split; [exact Hd|]. split; [exact Htime|].
    unfold validateTimetableEntry. rewrite Hd, Htime.
    destruct (blank (subject entry)); [right|left]; reflexivity.
Qed.

End Bounds.

(* ================================================================== *)
(** * The Timetable page: the colour of a subject *)
(* ================================================================== *)

Section Colour.

Import TimetablePage.

Lemma toInt32_range z : - 2 ^ 31 <= toInt32 z < 2 ^ 31.
Proof.
  unfold toInt32.
  pose proof (Z.mod_pos_bound (z + 2 ^ 31) (2 ^ 32) ltac:(lia)). lia.
Qed.

Lemma toInt32_wraps z : exists k, toInt32 z = z + 2 ^ 32 * k.
Proof.
  unfold toInt32. exists (- ((z + 2 ^ 31) / 2 ^ 32)).
  pose proof (Z.div_mod (z + 2 ^ 31) (2 ^ 32) ltac:(lia)). lia.
Qed.

Lemma toInt32_wrapped z k : toInt32 (z + 2 ^ 32 * k) = toInt32 z.
Proof.
  unfold toInt32.
  replace (z + 2 ^ 32 * k + 2 ^ 31) with (z + 2 ^ 31 + k * 2 ^ 32) by lia.
  rewrite Z_mod_plus_full. reflexivity.
Qed.

Lemma toInt32_small z : - 2 ^ 31 <= z < 2 ^ 31 -> toInt32 z = z.
Proof.
  intros H. unfold toInt32. rewrite Z.mod_small; lia.
Qed.

Lemma hashStep_31 (a : Z) (b : N) :
  hashStep a b = toInt32 (31 * a + Z.of_N b).
Proof.
  unfold hashStep, bitAnd, shiftLeft.
  rewrite Z.land_diag, (toInt32_small (toInt32 _)) by apply toInt32_range.
  rewrite Z.shiftl_mul_pow2 by lia.
  destruct (toInt32_wraps a) as [k1 ->].
  destruct (toInt32_wraps ((a + 2 ^ 32 * k1) * 2 ^ 5)) as [k2 ->].
  replace ((a + 2 ^ 32 * k1) * 2 ^ 5 + 2 ^ 32 * k2 - a + Z.of_N b)
    with (31 * a + Z.of_N b + 2 ^ 32 * (32 * k1 + k2)) by lia.
  apply toInt32_wrapped.
Qed.

Lemma hashOf_snoc subject c :
  hashOf (subject ++ [c]) = toInt32 (31 * hashOf subject + Z.of_N c).
Proof.
  unfold hashOf. rewrite fold_left_app. cbn [fold_left].
  apply hashStep_31.
Qed.

Lemma hashOf_range subject : - 2 ^ 31 <= hashOf subject < 2 ^ 31.
Proof.
  destruct subject as [|c subject] using rev_ind.
  - cbn. lia.
  - rewrite hashOf_snoc. apply toInt32_range.
Qed.

(** X21.  The hash of a subject name is the polynomial hash of base 31 of
    its code units, wrapped to 32 signed bits; [getSubjectColor] always
    gives one of the eight colours, never [undefined], also for the empty
    name and for the hash -2^31; and the colour number of the read-only
    page is between 1 and 8. *)
Theorem getSubjectColor_defined (subject : jsstring) :
  (exists color, getSubjectColor subject = Some color /\ In color colors)
  /\ 1 <= getSubjectColorNumber subject <= 8
  /\ - 2 ^ 31 <= hashOf subject < 2 ^ 31
  /\ hashOf [] = 0
  /\ forall c, hashOf (subject ++ [c])
               = toInt32 (31 * hashOf subject + Z.of_N c).
Proof.
  assert (Hlen : length colors = 8%nat)
    by (unfold colors; rewrite length_map; reflexivity).
  pose proof (Z.rem_bound_pos (Z.abs (hashOf subject)) 8 ltac:(lia)
                ltac:(lia)) as Hrem.
  split; [|split; [|split; [|split]]].
  - unfold getSubjectColor. rewrite Hlen.
    change (Z.of_nat 8) with 8.
    destruct (nth_error colors (Z.to_nat (Z.rem (Z.abs (hashOf subject)) 8)))
      as [color|] eqn:E.
    + exists color. split; [reflexivity|]. eapply nth_error_In, E.
    + apply nth_error_None in E. lia.
  - unfold getSubjectColorNumber. lia.
  - apply hashOf_range.
  - reflexivity.
  - apply hashOf_snoc.
Qed.

End Colour.

(* ================================================================== *)
(** * Notifications *)
(* ================================================================== *)

Section Notifications.

Import NotificationService.



(** X23.  After the notification switch is used, the stored flag reads as
    scheduled exactly when the switch was turned on with permission and the
    scheduling went through, or was turned on without that while the flag
    already read so; turning it off always clears the flag.  The switch
    leaves the three collections alone, and [clearAllData] leaves the flag
    alone. *)
Theorem scheduling_flag_follows_switch (granted scheduled enabled : bool)
  (ls : localStorage) :
  let switched :=
    NotificationManager.toggleNotifications granted scheduled enabled ls in
  isScheduled switched
  = (if enabled then granted && scheduled || isScheduled ls else false)
  /\ getSubjects switched = getSubjects ls
  /\ getTimetable switched = getTimetable ls
  /\ getAttendanceRecords switched = getAttendanceRecords ls
  /\ isScheduled (clearAllData ls) = isScheduled ls.
Proof.
  intros switched. subst switched.
  unfold NotificationManager.toggleNotifications, isScheduled, getSubjects,
    getTimetable, getAttendanceRecords.
  rewrite clearAllData_lookup.
  destruct enabled, granted, scheduled; cbn [andb negb orb];
    repeat split;
    try (rewrite lookup_insert_eq; reflexivity);
    try (rewrite lookup_insert_ne; [reflexivity|discriminate]).
Qed.

Lemma indexedFrom_spec {A} index (l : list A) i x :
  In (i, x) (indexedFrom index l) ->
  (index <= i)%nat /\ nth_error l (i - index) = Some x.
Proof.
  revert index. induction l as [|y l IH]; intros index; simpl; [tauto|].
  intros [[= <- <-]|H].
  - rewrite Nat.sub_diag. split; [lia|reflexivity].
  - apply IH in H as [Hi Hn]. split; [lia|].
    replace (i - index)%nat with (S (i - S index)) by lia. exact Hn.
Qed.

Lemma indices_indexedFrom {A} index (l : list A) :
  List.map fst (indexedFrom index l) = seq index (length l).
Proof.
  revert index. induction l as [|x l IH]; intros index; simpl;
    [reflexivity|]. rewrite IH. reflexivity.
Qed.

Lemma elements_indexedFrom {A} index (l : list A) :
  List.map snd (indexedFrom index l) = l.
Proof.
  revert index. induction l as [|x l IH]; intros index; simpl;
    [reflexivity|]. rewrite IH. reflexivity.
Qed.

(** X24.  [showTestNotification] throws without permission or without a
    stored timetable.  Otherwise it shows one notification for each of the
    classes of the day, in the order they are stored, or, when the day has
    none, for each of the first three classes stored: at least one
    notification, each with the id, subject, time, day and room of its
    class.  The notification of index i comes after i seconds, so that no
    two come at the same time, and the first is pinned and no other. *)
Theorem showTestNotification_outcomes (hasPermission : bool)
  (today : jsstring) (ls : localStorage) :
  match showTestNotification hasPermission today ls with
  | Throws message => hasPermission = false \/ getTimetable ls = []
  | Shows notifications =>
      let ofToday :=
        List.filter
          (fun entry => JS.eqb (toLowerCase (TimetableEntry.day entry))
                               (toLowerCase today))
          (getTimetable ls) in
      let classes :=
        match ofToday with
        | [] => firstn 3 (getTimetable ls)
        | _ :: _ => ofToday
        end in
      hasPermission = true
      /\ classes <> []
      /\ List.map
           (fun shown =>
              (id (snd shown), NotificationService.subject (snd shown),
               NotificationService.time (snd shown),
               NotificationService.day (snd shown), room (snd shown)))
           notifications
         = List.map
             (fun entry =>
                (js "test-" ++ TimetableEntry.id entry,
                 TimetableEntry.subject entry, TimetableEntry.time entry,
                 TimetableEntry.day entry, TimetableEntry.room entry))
             classes
      /\ List.map fst notifications
         = List.map (fun index => Z.of_nat index * 1000)
             (seq 0 (length classes))
      /\ NoDup (List.map fst notifications)
      /\ exists first rest,
           notifications = first :: rest
           /\ fst first = 0
           /\ isPinned (snd first) = true
           /\ Forall (fun shown => isPinned (snd shown) = false) rest
  end.
Proof.
  unfold showTestNotification.
  destruct hasPermission; cbn [negb]; [|left; reflexivity].
  destruct (getTimetable ls) as [|entry timetable] eqn:Ett;
    [right; reflexivity|]. cbn [length Nat.eqb].
  set (ofToday := List.filter _ (entry :: timetable)).
  set (chosen := if Nat.eqb (length ofToday) 0
                 then firstn 3 (entry :: timetable) else ofToday).
  cbv zeta.
  assert (Echosen : match ofToday with
                    | [] => firstn 3 (entry :: timetable)
                    | _ :: _ => ofToday
                    end = chosen)
    by (subst chosen; destruct ofToday; reflexivity).
  rewrite Echosen. clear Echosen.
  assert (Hne : chosen <> []).
  { subst chosen. destruct ofToday; cbn; discriminate. }
  clearbody chosen. clear ofToday.
  set (shows := fun '(index, entry) => _).
  assert (Hdelays : List.map fst (List.map shows (indexedFrom 0 chosen))
                    = List.map (fun index => Z.of_nat index * 1000)
                        (seq 0 (length chosen))).
  { rewrite <- (indices_indexedFrom 0 chosen), !List.map_map.
    apply map_ext. intros [index cls]. reflexivity. }
  split; [reflexivity|]. split; [exact Hne|]. split; [|split; [|split]].
  - rewrite <- (elements_indexedFrom 0 chosen) at 2. rewrite !List.map_map.
    apply map_ext. intros [index cls]. reflexivity.
  - exact Hdelays.
  - rewrite Hdelays.
    assert (Hinj : Inj eq eq (fun index : nat => Z.of_nat index * 1000))
      by (intros i j H; lia).
    apply (NoDup_fmap_2 _), NoDup_seq.
  - destruct chosen as [|cls chosen]; [contradiction|].
    cbn [indexedFrom List.map].
    eexists. eexists. split; [reflexivity|].
    split; [reflexivity|]. split; [reflexivity|].
    apply List.Forall_forall. intros shown Hin.
    apply in_map_iff in Hin as [[index other] [<- Hin]].
    apply indexedFrom_spec in Hin as [Hindex _].
    cbn [snd isPinned]. destruct index; [lia|reflexivity].
Qed.

End Notifications.

(* ================================================================== *)
(** * The preview of the upload page *)
(* ================================================================== *)

Section Preview.

Import ExcelParser UploadPage.

Lemma confirmed_names parsedData (ls : localStorage) name :
  In name (List.map Subject.name
             (getSubjects (confirmTimetable parsedData ls)))
  <-> In name (List.map subject parsedData).
Proof.
  rewrite getSubjects_confirmTimetable, names_subjectsFrom.
  unfold unique. rewrite In_uniqueFrom. cbn [In]. tauto.
Qed.

Lemma In_removeEntry entryId parsedData entry :
  In entry (removeEntry entryId parsedData)
  <-> In entry parsedData /\ id entry <> entryId.
Proof.
  unfold removeEntry. rewrite filter_In.
  destruct (JS.eqb (id entry) entryId) eqn:E; cbn [negb].
  - apply eqb_eq in E. split; [intros [_ H]; discriminate|tauto].
  - apply eqb_neq in E. tauto.
Qed.

(** X25.  In the preview, [removeEntry] drops every entry of the id and no
    other, and [saveEdit] puts the edited entry in the place of every entry
    of its id and keeps the ids in their order.  What is confirmed after an
    edit follows the preview: the stored subjects are named after the
    entries that were kept, or after the entries as edited. *)
Theorem preview_edits_then_confirm (edited : ParsedTimetableEntry)
  (entryId : jsstring) (parsedData : list ParsedTimetableEntry)
  (ls : localStorage) :
  let kept := removeEntry entryId parsedData in
  let changed := saveEdit (Some edited) parsedData in
  (forall entry, In entry kept
                 <-> In entry parsedData /\ id entry <> entryId)
  /\ removeEntry entryId kept = kept
  /\ List.map id changed = List.map id parsedData
  /\ (forall entry, In entry changed -> id entry = id edited ->
                    entry = edited)
  /\ (forall name,
        In name (List.map Subject.name
                   (getSubjects (confirmTimetable kept ls)))
        <-> exists entry, In entry parsedData /\ id entry <> entryId
                          /\ subject entry = name)
  /\ (forall name,
        In name (List.map Subject.name
                   (getSubjects (confirmTimetable changed ls)))
        <-> exists entry, In entry parsedData
              /\ subject (if JS.eqb (id entry) (id edited) then edited
                          else entry) = name).
Proof.
  intros kept changed. subst kept changed.
  split; [|split; [|split; [|split; [|split]]]].
  - intros entry. apply In_removeEntry.
  - unfold removeEntry.
    induction parsedData as [|entry l IH]; [reflexivity|]. cbn [List.filter].
    destruct (negb (JS.eqb (id entry) entryId)) eqn:E; [|exact IH].
    cbn [List.filter]. rewrite E, IH. reflexivity.
  - unfold saveEdit. rewrite List.map_map. apply map_ext. intros entry.
    destruct (JS.eqb (id entry) (id edited)) eqn:E; [|reflexivity].
    apply eqb_eq in E. symmetry. exact E.
  - unfold saveEdit. intros entry Hin Hid.
    apply in_map_iff in Hin as [old [Hold _]].
    destruct (JS.eqb (id old) (id edited)) eqn:E; [symmetry; exact Hold|].
    apply eqb_neq in E. subst entry. contradiction.
  - intros name. rewrite confirmed_names, in_map_iff.
    split; intros [entry H]; exists entry.
    + destruct H as [Hs Hin]. apply In_removeEntry in Hin. tauto.
    + rewrite In_removeEntry. tauto.
  - intros name. rewrite confirmed_names. unfold saveEdit.
    rewrite List.map_map, in_map_iff.
    split; intros [entry H]; exists entry; tauto.
Qed.

End Preview.

(* ================================================================== *)
(** * The further statements at the example *)
(* ================================================================== *)

Section AtTheExampleAgain.

Import AttendancePage Marking Example Renamed.

Abbreviation markIt := (markAttendance alwaysMonday compareUnits).

(** The ten classes are all of the one subject. *)
Lemma subject_counts_sum_to_overall_example :
  NoDup [js "subject-0"]
  /\ sumOver [js "subject-0"]
       (fun id => AttendanceStats.totalClasses
                    (getSubjectAttendance id tenClasses))
     = AttendanceStats.totalClasses (calculateAttendanceStats tenClasses).
Proof.
  assert (H : NoDup [js "subject-0"])
    by apply NoDup_singleton.
  split; [exact H|].
  apply (subject_counts_sum_to_overall tenClasses [js "subject-0"] H).
  intros r Hr. vm_compute in Hr.
  repeat (destruct Hr as [<-|Hr]; [vm_compute; left; reflexivity|]).
  contradiction.
Defined.

(** Once marked present, Monday 09:00 is still the one class listed. *)
Lemma mark_shows_status_example :
  let w := after alwaysMonday compareUnits monday uploaded in
  let w' := fst (markIt 1%nat (js "a") unmarked present w) in
  List.map id (todayClasses (page w')) = List.map id (todayClasses (page w)).
Proof.
  intros w w'.
  refine (proj1 (mark_shows_status alwaysMonday compareUnits w unmarked
                   present 1%nat (js "a") _ _ _)).
  - split; [vm_compute; reflexivity|].
    split; vm_compute; constructor.
  - vm_compute. left. reflexivity.
  - vm_compute. discriminate.
Defined.

(** The class of the parsed sheet can be marked once it is confirmed. *)
Lemma confirmed_classes_can_be_marked_example :
  let w := mount alwaysMonday compareUnits monday
             (UploadPage.confirmTimetable [parsedEntry] ∅) in
  variant (snd (markIt 1%nat (js "a") parsedClass present w)) = None.
Proof.
  intros w.
  refine (proj1 (proj2 (confirmed_classes_can_be_marked alwaysMonday
                          compareUnits [parsedEntry] ∅ monday parsedClass
                          present 1%nat (js "a") _))).
  vm_compute. left. reflexivity.
Defined.

(** Data Science renamed to Chemistry in the timetable alone. *)
Lemma renamed_entry_cannot_be_marked_example :
  let saved :=
    snd (TimetablePage.saveEdit (Some renamedEntry) (getTimetable stored)
           stored) in
  let w := mount alwaysMonday compareUnits monday saved in
  markIt 1%nat (js "a") classOfEntry present w = (w, subjectNotFound).
Proof.
  intros saved w.
  apply (renamed_entry_cannot_be_marked alwaysMonday compareUnits
           renamedEntry stored monday classOfEntry present 1%nat (js "a")).
  - vm_compute. left. reflexivity.
  - reflexivity.
  - intros s Hs. vm_compute in Hs. destruct Hs as [<-|[]].
    vm_compute. discriminate.
Defined.

(** Data Science renamed to Statistics among the subjects alone. *)
Lemma renamed_subject_cannot_be_marked_example :
  let saved :=
    snd (SubjectsList.saveEdit (Some renamedSubject)
           (SubjectsPage.loadSubjects stored) stored) in
  let w := mount alwaysMonday compareUnits monday saved in
  markIt 1%nat (js "a") unmarked present w = (w, subjectNotFound).
Proof.
  intros saved w.
  refine (proj1 (renamed_subject_cannot_be_marked alwaysMonday compareUnits
                   renamedSubject stored monday unmarked present 1%nat (js "a")
                   _ _)).
  - vm_compute. discriminate.
  - intros s Hs _. vm_compute in Hs. destruct Hs as [<-|[]]. reflexivity.
Defined.

(** Six of ten classes attended: 60 percent, two classes required. *)
Lemma required_iff_below_target_example :
  In sixOfTen (SubjectsPage.loadSubjects tenClasses)
  /\ (0 < SubjectsPage.calculateRequiredClasses sixOfTen
      <-> Subject.totalClasses sixOfTen <> 0
          /\ (Subject.attendancePercentage sixOfTen < 75)%Q).
Proof.
  assert (Harray : Z.of_nat (length (getAttendanceRecords tenClasses))
                   < 2 ^ 32) by (vm_compute; reflexivity).
  assert (H : In sixOfTen (SubjectsPage.loadSubjects tenClasses))
    by (vm_compute; left; reflexivity).
  split; [exact H|].
  exact (proj1 (required_iff_below_target tenClasses sixOfTen Harray H)).
Defined.

(** The entry of the grid of the example. *)
Lemma parsed_entries_well_formed_example :
  truthy (ExcelParser.subject parsedEntry) = true.
Proof.
  refine (proj1 (parsed_entries_well_formed noRandom
                   (ExcelParser.Rows (grid [])) parsedEntry _)).
  vm_compute. left. reflexivity.
Defined.


End AtTheExampleAgain.

(* ================================================================== *)
(** * Several windows on one store *)
(* ================================================================== *)

Section AcrossWindows.

Import AttendancePage Marking.

Variable weekdayOf : jsstring -> jsstring.
Variable localeCompare : jsstring -> jsstring -> Z.

Abbreviation happens := (occur weekdayOf localeCompare).

Lemma kept_occur (ws : Windows) (e : Event) :
  clears e = false ->
  kept (getAttendanceRecords (shared ws))
       (getAttendanceRecords (shared (happens ws e))).
Proof.
  destruct e as [today|window a]; cbn [clears occur shared].
  - intros _. apply kept_refl.
  - intros Ha. unfold windowOf.
    destruct (nth_error (pages ws) window) as [shown|]; cbn [option_map];
      [|apply kept_refl].
    cbn [shared].
    apply (kept_perform weekdayOf localeCompare
             {| storage := shared ws; page := shown |} a Ha).
Qed.

Lemma length_pages_occur (ws : Windows) (e : Event) :
  (length (pages ws) <= length (pages (happens ws e)))%nat.
Proof.
  destruct e as [today|window a]; cbn [occur pages].
  - rewrite length_app. lia.
  - destruct (windowOf ws window); cbn [pages];
      [rewrite length_insert|]; lia.
Qed.

(** X26.  With any number of windows on the one store, also windows whose
    pages were loaded before the last write: as long as no window clears
    all data, every record stays where it is in the stored list, with at
    most its status changed, so that a pair with a record keeps one; and no
    window is ever closed by an action of the application. *)
Theorem records_kept_across_windows (ws : Windows) (events : list Event) :
  forallb (fun e => negb (clears e)) events = true ->
  let ws' := fold_left happens events ws in
  kept (getAttendanceRecords (shared ws)) (getAttendanceRecords (shared ws'))
  /\ (length (pages ws) <= length (pages ws'))%nat
  /\ forall scheduleEntryId date,
       List.filter (ofPair scheduleEntryId date)
         (getAttendanceRecords (shared ws)) <> [] ->
       List.filter (ofPair scheduleEntryId date)
         (getAttendanceRecords (shared ws')) <> [].
Proof.
  intros Hevents ws'.
  assert (H : kept (getAttendanceRecords (shared ws))
                (getAttendanceRecords (shared ws'))
              /\ (length (pages ws) <= length (pages ws'))%nat).
  { subst ws'. revert ws Hevents.
    induction events as [|e events IH]; intros ws Hevents.
    - split; [apply kept_refl|reflexivity].
    - cbn [forallb] in Hevents. apply andb_prop in Hevents as [He Hevents].
      apply negb_true_iff in He. cbn [fold_left].
      destruct (IH (happens ws e) Hevents) as [Hkept Hlen]. split.
      + eapply kept_trans; [apply kept_occur, He|exact Hkept].
      + pose proof (length_pages_occur ws e). lia. }
  destruct H as [Hkept Hlen]. split; [exact Hkept|]. split; [exact Hlen|].
  intros scheduleEntryId date. apply kept_pair, Hkept.
Qed.

End AcrossWindows.

Section AcrossWindowsAtTheExample.

Import AttendancePage Marking Example.

(** The record of the first window is still there after the second window
    has marked the class from a page loaded before. *)
Lemma records_kept_across_windows_example :
  let ws := afterEvents alwaysMonday compareUnits monday
              (firstn 4 twoWindows) in
  List.filter (ofPair (js "monday-09:00-0-x") monday)
    (getAttendanceRecords
       (shared (fold_left (occur alwaysMonday compareUnits)
                  (skipn 4 twoWindows) ws))) <> [].
Proof.
  intros ws.
  refine (proj2 (proj2 (records_kept_across_windows alwaysMonday compareUnits
                          ws (skipn 4 twoWindows) _))
            (js "monday-09:00-0-x") monday _).
  - vm_compute. reflexivity.
  - vm_compute. discriminate.
Defined.

End AcrossWindowsAtTheExample.
